(** * Zombie tower defense: a shallow embedding of the simulation core

    The repository holds two prototypes of the same game:
    - [zombie_tower_defense.py], driven by elapsed time [dt]
      (module [ZombieTowerDefense] below);
    - [zombie.py], driven by frame counts (module [ZombiePy] below).

    Conventions of the embedding.
    - Python [int] is [Z]; Python [float] is idealised as an exact rational
      [Q] (no rounding).  Equalities between rationals are stated with [==].
    - A Euclidean distance is only ever compared with a bound in the source,
      so it is kept squared: [d <= r] is [0 <= r /\ d*d <= r*r].  The one
      place that needs the square root itself, a partial step towards a
      point, is the parameter [toward] of the sections below.
    - Zombie objects live in a heap (a list; a reference is an index), the
      active set is a list of references, and a projectile holds an optional
      reference, so that aliasing between [Game.zombies] and
      [Projectile.target] is kept.
    - Rendering, fonts and sound are left out. *)

From Stdlib Require Import ZArith QArith Qminmax Lqa Lia List Permutation.
From stdpp Require Import base option list.

Open Scope Q_scope.

Set Default Proof Using "Type".

(** ** Numbers and plane geometry *)

Definition Qltb (a b : Q) : bool := negb (Qle_bool b a).

Lemma Qltb_lt a b : Qltb a b = true <-> a < b.
Proof.
  unfold Qltb. rewrite negb_true_iff, <- not_true_iff_false, Qle_bool_iff.
  split; [apply Qnot_le_lt | apply Qlt_not_le].
Qed.

Lemma Qltb_ge a b : Qltb a b = false <-> b <= a.
Proof.
  unfold Qltb. rewrite negb_false_iff, Qle_bool_iff. tauto.
Qed.

Lemma Qle_bool_gt a b : Qle_bool a b = false <-> b < a.
Proof.
  rewrite <- not_true_iff_false, Qle_bool_iff.
  split; [apply Qnot_le_lt | apply Qlt_not_le].
Qed.

(** [pygame.Vector2]. *)
Definition Vec : Type := Q * Q.

Definition vsub (p q : Vec) : Vec := (fst p - fst q, snd p - snd q).
Definition vadd (p q : Vec) : Vec := (fst p + fst q, snd p + snd q).
Definition vscale (p : Vec) (k : Q) : Vec := (fst p * k, snd p * k).
Definition dot (p q : Vec) : Q := fst p * fst q + snd p * snd q.
Definition length_squared (p : Vec) : Q := dot p p.

(** Squared [distance_to]. *)
Definition dist2 (p q : Vec) : Q := length_squared (vsub p q).

(** [d <= r], [d < r], [m >= d] and [d == 0] for a distance [d] known by its
    square [d2]. *)
Definition sq_le (d2 r : Q) : bool := Qle_bool 0 r && Qle_bool d2 (r * r).
Definition sq_lt (d2 r : Q) : bool := Qltb 0 r && Qltb d2 (r * r).
Definition sq_zero (d2 : Q) : bool := Qeq_bool d2 0.

Definition vec_of (p : Z * Z) : Vec := (inject_Z (fst p), inject_Z (snd p)).

Lemma length_squared_nonneg p : 0 <= length_squared p.
Proof. unfold length_squared, dot. nra. Qed.

Lemma square_nonneg x : 0 <= x * x.
Proof. destruct (Qlt_le_dec x 0); nra. Qed.

Lemma sq_sum_zero x y : x * x + y * y == 0 -> x == 0 /\ y == 0.
Proof.
  intros H. assert (0 <= x * x) by nra. assert (0 <= y * y) by nra.
  assert (Hx : x * x == 0) by lra. assert (Hy : y * y == 0) by lra.
  split; [by destruct (Qmult_integral _ _ Hx) | by destruct (Qmult_integral _ _ Hy)].
Qed.

Lemma sq_le_spec d2 r : sq_le d2 r = true <-> 0 <= r /\ d2 <= r * r.
Proof.
  unfold sq_le. rewrite andb_true_iff, !Qle_bool_iff. tauto.
Qed.


(** The consecutive pairs [(path[i], path[i + 1])]. *)
Fixpoint segments (pts : list Vec) : list (Vec * Vec) :=
  match pts with
  | a :: (b :: _) as rest => (a, b) :: segments rest
  | _ => []
  end.

(** [list.remove]: the first occurrence is dropped. *)
Fixpoint list_remove (x : nat) (l : list nat) : list nat :=
  match l with
  | [] => []
  | y :: l' => if decide (x = y) then l' else y :: list_remove x l'
  end.

Lemma foldl_invariant {A B} (f : A -> B -> A) (P : A -> Prop) l :
  (forall a b, P a -> P (f a b)) -> forall a, P a -> P (foldl f a l).
Proof. intros Hf. induction l as [|b l IH]; simpl; auto. Qed.

(** [pygame.Rect] as (left, top, width, height). *)
Record Rect := { r_left : Z; r_top : Z; r_width : Z; r_height : Z }.

Definition r_bottom (r : Rect) : Z := (r_top r + r_height r)%Z.

(** [Rect.contains]: the argument lies completely inside the rectangle. *)
Definition Rect_contains (r a : Rect) : bool :=
  (r_left r <=? r_left a)%Z && (r_top r <=? r_top a)%Z &&
  (r_left a + r_width a <=? r_left r + r_width r)%Z &&
  (r_top a + r_height a <=? r_top r + r_height r)%Z &&
  (r_left a <? r_left r + r_width r)%Z &&
  (r_top a <? r_top r + r_height r)%Z.

(** [Rect.collidepoint]. *)
Definition Rect_collidepoint (r : Rect) (p : Z * Z) : bool :=
  (r_left r <=? fst p)%Z && (fst p <? r_left r + r_width r)%Z &&
  (r_top r <=? snd p)%Z && (snd p <? r_top r + r_height r)%Z.

(** * [zombie_tower_defense.py] *)

Module ZombieTowerDefense.

(** ** Config *)

Definition WIDTH : Z := 1100.
Definition HEIGHT : Z := 720.
Definition GRID_SIZE : Z := 50.
Definition UI_HEIGHT : Z := 100.

Definition PLAY_AREA : Rect :=
  {| r_left := 0; r_top := 0; r_width := WIDTH; r_height := HEIGHT - UI_HEIGHT |}.

Definition clamp (value low high : Q) : Q := Qmax low (Qmin high value).

(** ** Data definitions *)

Record TowerType := {
  tt_cost : Z;
  tt_range : Z;
  tt_fire_rate : Q;
  tt_damage : Z;
  tt_splash_radius : Z;
  tt_slow : Q;
  tt_slow_duration : Q
}.

Definition Rifle : TowerType :=
  {| tt_cost := 80; tt_range := 160; tt_fire_rate := 1.5; tt_damage := 15;
     tt_splash_radius := 0; tt_slow := 0; tt_slow_duration := 0 |}.
Definition Sniper : TowerType :=
  {| tt_cost := 140; tt_range := 260; tt_fire_rate := 0.7; tt_damage := 45;
     tt_splash_radius := 0; tt_slow := 0; tt_slow_duration := 0 |}.
Definition Splash : TowerType :=
  {| tt_cost := 160; tt_range := 170; tt_fire_rate := 0.9; tt_damage := 30;
     tt_splash_radius := 60; tt_slow := 0; tt_slow_duration := 0 |}.
Definition Frost : TowerType :=
  {| tt_cost := 120; tt_range := 150; tt_fire_rate := 1.2; tt_damage := 12;
     tt_splash_radius := 0; tt_slow := 0.45; tt_slow_duration := 1.8 |}.

Definition TOWER_TYPES : list TowerType := [Rifle; Sniper; Splash; Frost].

Inductive ZombieKind := walker | runner | brute | boss.

#[global] Instance ZombieKind_eq_dec : EqDecision ZombieKind.
Proof. solve_decision. Defined.

#[global] Instance Q_eq_dec : EqDecision Q.
Proof. solve_decision. Defined.

(** The number of entries of a spawn queue equal to [e]. *)
Definition entries_of (e : ZombieKind * Q) (q : list (ZombieKind * Q)) : nat :=
  count_occ (fun x y => decide (x = y)) q e.

Record ZombieStats := { zs_speed : Q; zs_health : Z; zs_reward : Z }.

Definition ZOMBIE_TYPES (k : ZombieKind) : ZombieStats :=
  match k with
  | walker => {| zs_speed := 45; zs_health := 90; zs_reward := 8 |}
  | runner => {| zs_speed := 80; zs_health := 65; zs_reward := 10 |}
  | brute => {| zs_speed := 35; zs_health := 200; zs_reward := 18 |}
  | boss => {| zs_speed := 30; zs_health := 800; zs_reward := 80 |}
  end.

(** ** Core entities *)

Record Zombie := {
  z_path : list Vec;
  z_type : ZombieKind;
  max_health : Z;
  health : Q;
  speed : Q;
  reward : Z;
  path_index : nat;
  position : Vec;
  slow_timer : Q;
  slow_factor : Q
}.

Definition with_health (h : Q) (z : Zombie) : Zombie :=
  {| z_path := z_path z; z_type := z_type z; max_health := max_health z;
     health := h; speed := speed z; reward := reward z;
     path_index := path_index z; position := position z;
     slow_timer := slow_timer z; slow_factor := slow_factor z |}.

Definition with_slow (f t : Q) (z : Zombie) : Zombie :=
  {| z_path := z_path z; z_type := z_type z; max_health := max_health z;
     health := health z; speed := speed z; reward := reward z;
     path_index := path_index z; position := position z;
     slow_timer := t; slow_factor := f |}.

Definition with_move (i : nat) (p : Vec) (z : Zombie) : Zombie :=
  {| z_path := z_path z; z_type := z_type z; max_health := max_health z;
     health := health z; speed := speed z; reward := reward z;
     path_index := i; position := p;
     slow_timer := slow_timer z; slow_factor := slow_factor z |}.

(** [Zombie.__init__]. *)
Definition Zombie_init (path : list Vec) (k : ZombieKind) : Zombie :=
  let stats := ZOMBIE_TYPES k in
  {| z_path := path; z_type := k; max_health := zs_health stats;
     health := inject_Z (zs_health stats); speed := zs_speed stats;
     reward := zs_reward stats; path_index := 0;
     position := nth 0 path (0, 0);
     slow_timer := 0; slow_factor := 1 |}.

Record Projectile := {
  p_position : Vec;
  target : option nat;
  p_speed : Q;
  damage : Z;
  splash_radius : Z;
  slow : Q;
  slow_duration : Q;
  alive : bool
}.

Definition with_flight (pos : Vec) (a : bool) (p : Projectile) : Projectile :=
  {| p_position := pos; target := target p; p_speed := p_speed p;
     damage := damage p; splash_radius := splash_radius p; slow := slow p;
     slow_duration := slow_duration p; alive := a |}.

(** The [pulse] attribute only animates the drawing and is left out. *)
Record Tower := {
  tower_type : TowerType;
  t_position : Vec;
  cooldown : Q;
  level : Z
}.

(** [Tower.__init__]. *)
Definition Tower_init (tt : TowerType) (pos : Z * Z) : Tower :=
  {| tower_type := tt; t_position := vec_of pos; cooldown := 0;
     level := 1 |}.

(** [Tower.upgrade_cost]: [int(cost * (0.75 + 0.5 * level))]; the product is
    a multiple of a quarter, and [int] truncates towards zero. *)
Definition upgrade_cost (t : Tower) : Z :=
  Z.quot (tt_cost (tower_type t) * (3 + 2 * level t)) 4.

(** [Tower.upgrade]. *)
Definition upgrade (t : Tower) : Tower :=
  {| tower_type := tower_type t; t_position := t_position t;
     cooldown := cooldown t; level := level t + 1 |}.

(** [Tower.stats]: (dmg, rate, rng). *)
Definition stats (t : Tower) : Z * Q * Z :=
  let dmg := (tt_damage (tower_type t) + (level t - 1) * 6)%Z in
  let rate := tt_fire_rate (tower_type t) + inject_Z (level t - 1) * 0.2 in
  let rng := (tt_range (tower_type t) + (level t - 1) * 10)%Z in
  (dmg, rate, rng).

(** A read through a reference; a reference is an index of the heap. *)
Definition deref (heap : list Zombie) (r : nat) : option Zombie := heap !! r.

Inductive Screen := menu | settings | game | gameover.

(** The content of [highscore.json]. *)
Inductive HighScoreFile := Missing | Unreadable | Stored (n : Z).

Record Game := {
  state : Screen;
  high_score : Z;
  disk : HighScoreFile;
  path : list Vec;
  heap : list Zombie;
  towers : list Tower;
  projectiles : list Projectile;
  zombies : list nat;
  selected_tower : option nat;
  coins : Z;
  lives : Z;
  score : Z;
  wave : Z;
  wave_in_progress : bool;
  spawn_timer : Q;
  spawn_queue : list (ZombieKind * Q);
  pause : bool
}.

(** Assignments to one attribute of the game. *)
Definition set_state (v : Screen) (g : Game) : Game :=
  {| state := v; high_score := high_score g; disk := disk g; path := path g;
     heap := heap g; towers := towers g; projectiles := projectiles g;
     zombies := zombies g; selected_tower := selected_tower g;
     coins := coins g; lives := lives g; score := score g; wave := wave g;
     wave_in_progress := wave_in_progress g; spawn_timer := spawn_timer g;
     spawn_queue := spawn_queue g; pause := pause g |}.

Definition set_high_score (v : Z) (g : Game) : Game :=
  {| state := state g; high_score := v; disk := disk g; path := path g;
     heap := heap g; towers := towers g; projectiles := projectiles g;
     zombies := zombies g; selected_tower := selected_tower g;
     coins := coins g; lives := lives g; score := score g; wave := wave g;
     wave_in_progress := wave_in_progress g; spawn_timer := spawn_timer g;
     spawn_queue := spawn_queue g; pause := pause g |}.

Definition set_heap (v : list Zombie) (g : Game) : Game :=
  {| state := state g; high_score := high_score g; disk := disk g;
     path := path g; heap := v; towers := towers g;
     projectiles := projectiles g; zombies := zombies g;
     selected_tower := selected_tower g; coins := coins g; lives := lives g;
     score := score g; wave := wave g;
     wave_in_progress := wave_in_progress g; spawn_timer := spawn_timer g;
     spawn_queue := spawn_queue g; pause := pause g |}.

Definition set_towers (v : list Tower) (g : Game) : Game :=
  {| state := state g; high_score := high_score g; disk := disk g;
     path := path g; heap := heap g; towers := v;
     projectiles := projectiles g; zombies := zombies g;
     selected_tower := selected_tower g; coins := coins g; lives := lives g;
     score := score g; wave := wave g;
     wave_in_progress := wave_in_progress g; spawn_timer := spawn_timer g;
     spawn_queue := spawn_queue g; pause := pause g |}.

Definition set_projectiles (v : list Projectile) (g : Game) : Game :=
  {| state := state g; high_score := high_score g; disk := disk g;
     path := path g; heap := heap g; towers := towers g; projectiles := v;
     zombies := zombies g; selected_tower := selected_tower g;
     coins := coins g; lives := lives g; score := score g; wave := wave g;
     wave_in_progress := wave_in_progress g; spawn_timer := spawn_timer g;
     spawn_queue := spawn_queue g; pause := pause g |}.

Definition set_zombies (v : list nat) (g : Game) : Game :=
  {| state := state g; high_score := high_score g; disk := disk g;
     path := path g; heap := heap g; towers := towers g;
     projectiles := projectiles g; zombies := v;
     selected_tower := selected_tower g; coins := coins g; lives := lives g;
     score := score g; wave := wave g;
     wave_in_progress := wave_in_progress g; spawn_timer := spawn_timer g;
     spawn_queue := spawn_queue g; pause := pause g |}.

Definition set_selected_tower (v : option nat) (g : Game) : Game :=
  {| state := state g; high_score := high_score g; disk := disk g;
     path := path g; heap := heap g; towers := towers g;
     projectiles := projectiles g; zombies := zombies g; selected_tower := v;
     coins := coins g; lives := lives g; score := score g; wave := wave g;
     wave_in_progress := wave_in_progress g; spawn_timer := spawn_timer g;
     spawn_queue := spawn_queue g; pause := pause g |}.

Definition set_coins (v : Z) (g : Game) : Game :=
  {| state := state g; high_score := high_score g; disk := disk g;
     path := path g; heap := heap g; towers := towers g;
     projectiles := projectiles g; zombies := zombies g;
     selected_tower := selected_tower g; coins := v; lives := lives g;
     score := score g; wave := wave g;
     wave_in_progress := wave_in_progress g; spawn_timer := spawn_timer g;
     spawn_queue := spawn_queue g; pause := pause g |}.

Definition set_lives (v : Z) (g : Game) : Game :=
  {| state := state g; high_score := high_score g; disk := disk g;
     path := path g; heap := heap g; towers := towers g;
     projectiles := projectiles g; zombies := zombies g;
     selected_tower := selected_tower g; coins := coins g; lives := v;
     score := score g; wave := wave g;
     wave_in_progress := wave_in_progress g; spawn_timer := spawn_timer g;
     spawn_queue := spawn_queue g; pause := pause g |}.

Definition set_score (v : Z) (g : Game) : Game :=
  {| state := state g; high_score := high_score g; disk := disk g;
     path := path g; heap := heap g; towers := towers g;
     projectiles := projectiles g; zombies := zombies g;
     selected_tower := selected_tower g; coins := coins g; lives := lives g;
     score := v; wave := wave g; wave_in_progress := wave_in_progress g;
     spawn_timer := spawn_timer g; spawn_queue := spawn_queue g;
     pause := pause g |}.

Definition set_wave (v : Z) (g : Game) : Game :=
  {| state := state g; high_score := high_score g; disk := disk g;
     path := path g; heap := heap g; towers := towers g;
     projectiles := projectiles g; zombies := zombies g;
     selected_tower := selected_tower g; coins := coins g; lives := lives g;
     score := score g; wave := v; wave_in_progress := wave_in_progress g;
     spawn_timer := spawn_timer g; spawn_queue := spawn_queue g;
     pause := pause g |}.

Definition set_wave_in_progress (v : bool) (g : Game) : Game :=
  {| state := state g; high_score := high_score g; disk := disk g;
     path := path g; heap := heap g; towers := towers g;
     projectiles := projectiles g; zombies := zombies g;
     selected_tower := selected_tower g; coins := coins g; lives := lives g;
     score := score g; wave := wave g; wave_in_progress := v;
     spawn_timer := spawn_timer g; spawn_queue := spawn_queue g;
     pause := pause g |}.

Definition set_spawn_timer (v : Q) (g : Game) : Game :=
  {| state := state g; high_score := high_score g; disk := disk g;
     path := path g; heap := heap g; towers := towers g;
     projectiles := projectiles g; zombies := zombies g;
     selected_tower := selected_tower g; coins := coins g; lives := lives g;
     score := score g; wave := wave g;
     wave_in_progress := wave_in_progress g; spawn_timer := v;
     spawn_queue := spawn_queue g; pause := pause g |}.

Definition set_spawn_queue (v : list (ZombieKind * Q)) (g : Game) : Game :=
  {| state := state g; high_score := high_score g; disk := disk g;
     path := path g; heap := heap g; towers := towers g;
     projectiles := projectiles g; zombies := zombies g;
     selected_tower := selected_tower g; coins := coins g; lives := lives g;
     score := score g; wave := wave g;
     wave_in_progress := wave_in_progress g; spawn_timer := spawn_timer g;
     spawn_queue := v; pause := pause g |}.

Definition set_pause (v : bool) (g : Game) : Game :=
  {| state := state g; high_score := high_score g; disk := disk g;
     path := path g; heap := heap g; towers := towers g;
     projectiles := projectiles g; zombies := zombies g;
     selected_tower := selected_tower g; coins := coins g; lives := lives g;
     score := score g; wave := wave g;
     wave_in_progress := wave_in_progress g; spawn_timer := spawn_timer g;
     spawn_queue := spawn_queue g; pause := v |}.

Definition set_disk (v : HighScoreFile) (g : Game) : Game :=
  {| state := state g; high_score := high_score g; disk := v; path := path g;
     heap := heap g; towers := towers g; projectiles := projectiles g;
     zombies := zombies g; selected_tower := selected_tower g;
     coins := coins g; lives := lives g; score := score g; wave := wave g;
     wave_in_progress := wave_in_progress g; spawn_timer := spawn_timer g;
     spawn_queue := spawn_queue g; pause := pause g |}.

Section Simulation.

(** [toward p q m] stands for [p + (q - p).normalize() * m]. *)
Variable toward : Vec -> Vec -> Q -> Vec.

(** [random.shuffle]: some rearrangement of its argument. *)
Variable shuffle : list (ZombieKind * Q) -> list (ZombieKind * Q).
Hypothesis shuffle_perm : forall q, Permutation q (shuffle q).

(** [Zombie.update]: the zombie after the step and the returned flag. *)
Definition Zombie_update (dt : Q) (z0 : Zombie) : Zombie * bool :=
  let z :=
    if Qltb 0 (slow_timer z0)
    then with_slow (slow_factor z0) (slow_timer z0 - dt) z0
    else with_slow 1 (slow_timer z0) z0 in
  if (length (z_path z) <=? path_index z + 1)%nat then (z, true)
  else
    let tgt := nth (path_index z + 1) (z_path z) (0, 0) in
    let d2 := dist2 tgt (position z) in
    if sq_zero d2 then (with_move (path_index z + 1) (position z) z, false)
    else
      let move := speed z * slow_factor z * dt in
      if sq_le d2 move
      then (with_move (path_index z + 1) tgt z, false)
      else (with_move (path_index z) (toward (position z) tgt move) z, false).

(** [Projectile.update]; the target is read through the heap. *)
Definition Projectile_update (heap : list Zombie) (dt : Q) (p : Projectile)
  : Projectile :=
  match target p ≫= deref heap with
  | None => with_flight (p_position p) false p
  | Some z =>
    if Qle_bool (health z) 0 then with_flight (p_position p) false p
    else
      let d2 := dist2 (position z) (p_position p) in
      if sq_zero d2 then with_flight (p_position p) false p
      else
        let move := p_speed p * dt in
        if sq_le d2 move then with_flight (position z) false p
        else with_flight (toward (p_position p) (position z) move) (alive p) p
  end.

(** The target search of [Tower.update]: the running [target] and
    [best_dist] (squared; [None] is [float("inf")]). *)
Definition nearer (heap : list Zombie) (pos : Vec) (rng : Z)
    (acc : option nat * option Q) (r : nat) : option nat * option Q :=
  match deref heap r with
  | None => acc
  | Some z =>
    let d2 := dist2 (position z) pos in
    if sq_le d2 (inject_Z rng) &&
       match snd acc with None => true | Some b => Qltb d2 b end
    then (Some r, Some d2)
    else acc
  end.

Definition find_target (heap : list Zombie) (zombies : list nat) (pos : Vec)
    (rng : Z) : option nat :=
  fst (foldl (nearer heap pos rng) (None, None) zombies).

Definition with_cooldown (c : Q) (t : Tower) : Tower :=
  {| tower_type := tower_type t; t_position := t_position t; cooldown := c;
     level := level t |}.

(** [Tower.update]: the tower after the step and the projectile it appended,
    if it fired.  [rate] is positive for every tower of [TOWER_TYPES] at a
    level of at least one, so [1.0 / rate] never divides by zero. *)
Definition Tower_update (dt : Q) (heap : list Zombie) (zombies : list nat)
    (t0 : Tower) : Tower * option Projectile :=
  let t := with_cooldown (Qmax 0 (cooldown t0 - dt)) t0 in
  let '(dmg, rate, rng) := stats t in
  match find_target heap zombies (t_position t) rng with
  | Some r =>
    if Qle_bool (cooldown t) 0
    then (with_cooldown (1 / rate) t,
          Some {| p_position := t_position t; target := Some r;
                  p_speed := 320; damage := dmg;
                  splash_radius := tt_splash_radius (tower_type t);
                  slow := tt_slow (tower_type t);
                  slow_duration := tt_slow_duration (tower_type t);
                  alive := true |})
    else (t, None)
  | None => (t, None)
  end.

(** [load_high_score]: a missing or unreadable file counts as zero. *)
Definition load_high_score (f : HighScoreFile) : Z :=
  match f with
  | Stored n => n
  | Missing | Unreadable => 0%Z
  end.

(** [save_high_score]: the file is rewritten with the score given. *)
Definition save_high_score (score : Z) (f : HighScoreFile) : HighScoreFile :=
  Stored score.

Definition PATH : list Vec :=
  map vec_of
    [(0, 140); (200, 140); (200, 360); (420, 360); (420, 180); (700, 180);
     (700, 500); (980, 500); (980, 260); (WIDTH, 260)]%Z.

(** [Game.reset_game]. *)
Definition reset_game (g : Game) : Game :=
  {| state := state g; high_score := high_score g; disk := disk g;
     path := PATH; heap := []; towers := []; projectiles := [];
     zombies := []; selected_tower := None; coins := 180; lives := 20;
     score := 0; wave := 0; wave_in_progress := false; spawn_timer := 0;
     spawn_queue := []; pause := false |}.

(** [Game.__init__] for a given [highscore.json]. *)
Definition Game_init (f : HighScoreFile) : Game :=
  reset_game
    {| state := menu; high_score := load_high_score f; disk := f;
       path := []; heap := []; towers := []; projectiles := [];
       zombies := []; selected_tower := None; coins := 0; lives := 0;
       score := 0; wave := 0; wave_in_progress := false; spawn_timer := 0;
       spawn_queue := []; pause := false |}.

(** The queue of [Game.make_wave] before it is shuffled. *)
Definition wave_entries (wave_number : Z) : list (ZombieKind * Q) :=
  let base_count := (6 + wave_number * 2)%Z in
  repeat (walker, 0.8) (Z.to_nat base_count)
  ++ (if (2 <=? wave_number)%Z
      then repeat (runner, 0.7) (Z.to_nat (2 + wave_number / 2)) else [])
  ++ (if (4 <=? wave_number)%Z
      then repeat (brute, 1.4) (Z.to_nat (1 + wave_number / 3)) else [])
  ++ (if (wave_number mod 5 =? 0)%Z then [(boss, 2.2)] else []).

(** [Game.make_wave]. *)
Definition make_wave (wave_number : Z) : list (ZombieKind * Q) :=
  shuffle (wave_entries wave_number).

(** [Game.start_wave]. *)
Definition start_wave (g : Game) : Game :=
  let g := set_wave (wave g + 1) g in
  let g := set_wave_in_progress true g in
  let g := set_spawn_queue (make_wave (wave g)) g in
  set_spawn_timer 1 g.

(** One turn of the splash loop of [Game.handle_projectiles]. *)
Definition splash (pos : Vec) (radius dmg : Z) (h : list Zombie) (r : nat)
  : list Zombie :=
  match deref h r with
  | Some z =>
    if sq_le (dist2 (position z) pos) (inject_Z radius)
    then <[r := with_health (health z - inject_Z dmg) z]> h
    else h
  | None => h
  end.

(** The hit of a projectile that is no longer alive: lines 356 to 365 of
    [Game.handle_projectiles]. *)
Definition resolve_hit (zs : list nat) (p : Projectile) (h : list Zombie)
  : list Zombie :=
  match target p with
  | None => h
  | Some r =>
    match deref h r with
    | None => h
    | Some z =>
      if Qltb 0 (health z) then
        let h1 :=
          if (0 <? splash_radius p)%Z
          then foldl (splash (p_position p) (splash_radius p) (damage p)) h zs
          else <[r := with_health (health z - inject_Z (damage p)) z]> h in
        match deref h1 r with
        | Some z1 =>
          if Qltb 0 (slow p) && Qltb 0 (health z1)
          then <[r := with_slow (1 - slow p) (slow_duration p) z1]> h1
          else h1
        | None => h1
        end
      else h
    end
  end.

(** The body of the loop of [Game.handle_projectiles] for one projectile:
    the heap and the projectiles kept so far. *)
Definition handle_projectile (dt : Q) (zs : list nat)
    (acc : list Zombie * list Projectile) (p : Projectile)
  : list Zombie * list Projectile :=
  let p' := Projectile_update (fst acc) dt p in
  if alive p' then (fst acc, snd acc ++ [p'])
  else (resolve_hit zs p' (fst acc), snd acc).

(** [Game.handle_projectiles]. *)
Definition handle_projectiles (dt : Q) (g : Game) : Game :=
  let r := foldl (handle_projectile dt (zombies g)) (heap g, [])
             (projectiles g) in
  set_projectiles (snd r) (set_heap (fst r) g).

(** The body of the loop of [Game.remove_dead_zombies]. *)
Definition remove_dead (g : Game) (r : nat) : Game :=
  match deref (heap g) r with
  | Some z =>
    if Qle_bool (health z) 0 then
      let g := set_zombies (list_remove r (zombies g)) g in
      let g := set_coins (coins g + reward z) g in
      set_score (score g + (20 + wave g * 5)) g
    else g
  | None => g
  end.

(** [Game.remove_dead_zombies]. *)
Definition remove_dead_zombies (g : Game) : Game :=
  foldl remove_dead g (zombies g).

(** [list.pop]: the last element and the rest. *)
Definition pop {A} (l : list A) : option (A * list A) :=
  match rev l with
  | [] => None
  | x :: l' => Some (x, rev l')
  end.

(** The wave part of [Game.update_game]: lines 380 to 388. *)
Definition update_wave (dt : Q) (g : Game) : Game :=
  if wave_in_progress g then
    let g := set_spawn_timer (spawn_timer g - dt) g in
    let g :=
      if Qle_bool (spawn_timer g) 0 then
        match pop (spawn_queue g) with
        | Some ((zombie_type, delay), rest) =>
          let g := set_spawn_queue rest g in
          let g := set_zombies (zombies g ++ [length (heap g)]) g in
          let g := set_heap (heap g ++ [Zombie_init (path g) zombie_type]) g in
          set_spawn_timer delay g
        | None => g
        end
      else g in
    match spawn_queue g, zombies g with
    | [], [] =>
      set_coins (coins g + (30 + wave g * 5)) (set_wave_in_progress false g)
    | _, _ => g
    end
  else g.

(** The body of the zombie loop of [Game.update_game]: lines 391 to 398. *)
Definition advance_zombie (dt : Q) (g : Game) (r : nat) : Game :=
  match deref (heap g) r with
  | Some z =>
    let '(z', reached_end) := Zombie_update dt z in
    let g := set_heap (<[r := z']> (heap g)) g in
    if reached_end then
      let g := set_zombies (list_remove r (zombies g)) g in
      let g := set_lives (lives g - 1) g in
      if (lives g <=? 0)%Z then
        let g := set_state gameover g in
        let g := set_high_score (Z.max (high_score g) (score g)) g in
        set_disk (save_high_score (high_score g) (disk g)) g
      else g
    else g
  | None => g
  end.

(** The body of the tower loop of [Game.update_game]. *)
Definition advance_tower (dt : Q) (heap : list Zombie) (zs : list nat)
    (acc : list Tower * list Projectile) (t : Tower)
  : list Tower * list Projectile :=
  let '(t', shot) := Tower_update dt heap zs t in
  (fst acc ++ [t'],
   match shot with Some p => snd acc ++ [p] | None => snd acc end).

(** [Game.update_game]. *)
Definition update_game (dt : Q) (g : Game) : Game :=
  if pause g then g
  else
    let g := update_wave dt g in
    let g := foldl (advance_zombie dt) g (zombies g) in
    let g := handle_projectiles dt g in
    let g := remove_dead_zombies g in
    let r := foldl (advance_tower dt (heap g) (zombies g))
               ([], projectiles g) (towers g) in
    set_projectiles (snd r) (set_towers (fst r) g).

(** ** Input *)

(** [Game.point_to_segment_distance], squared. *)
Definition point_to_segment_distance2 (point a b : Vec) : Q :=
  let ap := vsub point a in
  let ab := vsub b a in
  let ab_len2 := length_squared ab in
  if Qeq_bool ab_len2 0 then length_squared ap
  else
    let t := clamp (dot ap ab / ab_len2) 0 1 in
    let closest := vadd a (vscale ab t) in
    dist2 point closest.

(** [Game.can_place]. *)
Definition can_place (g : Game) (position : Z * Z) : bool :=
  let rect := {| r_left := fst position - 16; r_top := snd position - 16;
                 r_width := 32; r_height := 32 |} in
  if negb (Rect_contains PLAY_AREA rect) then false
  else if existsb (fun t => sq_lt (dist2 (t_position t) (vec_of position)) 36)
            (towers g) then false
  else if existsb (fun s => sq_lt (point_to_segment_distance2
                                     (vec_of position) (fst s) (snd s)) 40)
            (segments (path g)) then false
  else true.

(** The two sides of the merge conflict left in [handle_game_click]. *)
Inductive MergeSide := HEAD | main.

Definition snap (pos : Z * Z) : Z * Z :=
  (fst pos / GRID_SIZE * GRID_SIZE + GRID_SIZE / 2,
   snd pos / GRID_SIZE * GRID_SIZE + GRID_SIZE / 2)%Z.

Definition button_rect (i : nat) : Rect :=
  {| r_left := 420 + Z.of_nat i * 160; r_top := r_bottom PLAY_AREA + 10;
     r_width := 140; r_height := 70 |}.

(** The index of the first tower closer than 20 to the click. *)
Fixpoint tower_at (pos : Vec) (idx : nat) (ts : list Tower) : option nat :=
  match ts with
  | [] => None
  | t :: ts' =>
    if sq_lt (dist2 (t_position t) pos) 20 then Some idx
    else tower_at pos (S idx) ts'
  end.

(** The loop over the buttons of the tower bar: lines 544 to 547. *)
Definition click_button (pos : Z * Z) (g : Game) : Game :=
  foldl
    (fun g it =>
       if Rect_collidepoint (button_rect (fst it)) pos &&
          (tt_cost (snd it) <=? coins g)%Z
       then set_selected_tower (Some (fst it)) g else g)
    g (zip (seq 0 (length TOWER_TYPES)) TOWER_TYPES).

(** [Game.handle_game_click]; [None] is an uncaught [IndexError]. *)
Definition handle_game_click (side : MergeSide) (pos : Z * Z) (g : Game)
  : option Game :=
  if (r_bottom PLAY_AREA <? snd pos)%Z then Some (click_button pos g)
  else
    match selected_tower g with
    | Some i =>
      let snapped := snap pos in
      if can_place g snapped then
        match TOWER_TYPES !! i with
        | None => None
        | Some tower_type =>
          let place g :=
            set_coins (coins g - tt_cost tower_type)
              (set_towers (towers g ++ [Tower_init tower_type snapped]) g) in
          match side with
          | HEAD =>
            if (tt_cost tower_type <=? coins g)%Z then Some (place g)
            else Some g
          | main => Some (place g)
          end
        end
      else Some g
    | None =>
      match tower_at (vec_of pos) 0 (towers g) with
      | Some idx => Some (set_selected_tower (Some idx) g)
      | None => Some g
      end
    end.

Inductive Key := K_ESCAPE | K_p | K_SPACE | K_u | K_other.

(** [Game.handle_key]; [None] is an uncaught [IndexError]. *)
Definition handle_key (key : Key) (g : Game) : option Game :=
  let g := match key with K_ESCAPE => set_state menu g | _ => g end in
  let g := match key with K_p => set_pause (negb (pause g)) g | _ => g end in
  let g :=
    match key with
    | K_SPACE => if wave_in_progress g then g else start_wave g
    | _ => g
    end in
  match key, selected_tower g with
  | K_u, Some i =>
    match towers g !! i with
    | None => None
    | Some tower =>
      let cost := upgrade_cost tower in
      if (cost <=? coins g)%Z
      then Some (set_towers (<[i := upgrade tower]> (towers g))
                   (set_coins (coins g - cost) g))
      else Some g
    end
  | _, _ => Some g
  end.

(** ** The session *)

(** What the player and the clock feed to [Game.run]: a click or a key in
    the game screen, a frame of [dt] seconds, and the buttons that start a
    game (from the menu or after a loss) or lead back to the menu. *)
Inductive Event :=
| Click (pos : Z * Z)
| KeyDown (key : Key)
| Frame (dt : Q)
| StartGame
| MainMenu.

(** The reaction of [Game.run] and of the menu loops; [None] is an uncaught
    exception. *)
Definition react (side : MergeSide) (e : Event) (g : Game) : option Game :=
  match state g, e with
  | game, Click pos => handle_game_click side pos g
  | game, KeyDown key => handle_key key g
  | game, Frame dt => Some (update_game dt g)
  | (menu | gameover), StartGame => Some (set_state game (reset_game g))
  | gameover, MainMenu => Some (set_state menu g)
  | _, _ => Some g
  end.

(** The games a session can be in. *)
Inductive reachable (side : MergeSide) : Game -> Prop :=
| reachable_init f : reachable side (Game_init f)
| reachable_react g e g' :
    reachable side g -> react side e g = Some g' -> reachable side g'.

(** A run of events from a game. *)
Fixpoint play (side : MergeSide) (es : list Event) (g : Game) : option Game :=
  match es with
  | [] => Some g
  | e :: es' =>
    match react side e g with
    | Some g' => play side es' g'
    | None => None
    end
  end.

(** ** The wave builder *)

Lemma entries_of_repeat e x n :
  entries_of e (repeat x n) = if decide (e = x) then n else 0%nat.
Proof.
  unfold entries_of. case_decide.
  - by apply count_occ_repeat_eq.
  - by apply count_occ_repeat_neq.
Qed.

Lemma entries_of_app e q1 q2 :
  entries_of e (q1 ++ q2) = (entries_of e q1 + entries_of e q2)%nat.
Proof. apply count_occ_app. Qed.

Lemma entries_of_perm e q1 q2 :
  Permutation q1 q2 -> entries_of e q1 = entries_of e q2.
Proof. intros H. unfold entries_of. by apply Permutation_count_occ. Qed.

Lemma wave_entries_walker n :
  (1 <= n)%Z -> Z.of_nat (entries_of (walker, 0.8) (wave_entries n)) = (6 + 2 * n)%Z.
Proof.
  intros Hn. unfold wave_entries.
  rewrite !entries_of_app, entries_of_repeat.
  repeat case_match; rewrite ?entries_of_repeat; simpl;
    repeat case_decide; try done; try lia.
Qed.

Lemma wave_entries_runner n :
  (1 <= n)%Z ->
  Z.of_nat (entries_of (runner, 0.7) (wave_entries n))
  = if (2 <=? n)%Z then (2 + n / 2)%Z else 0%Z.
Proof.
  intros Hn. unfold wave_entries.
  rewrite !entries_of_app, entries_of_repeat.
  assert (0 <= n / 2)%Z by (apply Z.div_pos; lia).
  repeat case_match; rewrite ?entries_of_repeat; simpl;
    repeat case_decide; try done; try lia.
Qed.

Lemma wave_entries_brute n :
  (1 <= n)%Z ->
  Z.of_nat (entries_of (brute, 1.4) (wave_entries n))
  = if (4 <=? n)%Z then (1 + n / 3)%Z else 0%Z.
Proof.
  intros Hn. unfold wave_entries.
  rewrite !entries_of_app, entries_of_repeat.
  assert (0 <= n / 3)%Z by (apply Z.div_pos; lia).
  repeat case_match; rewrite ?entries_of_repeat; simpl;
    repeat case_decide; try done; try lia.
Qed.

Lemma entries_of_boss_tail (b : bool) d :
  entries_of (boss, d) (if b then [(boss, 2.2)] else [])
  = if decide (b = true /\ d = 2.2) then 1%nat else 0%nat.
Proof.
  unfold entries_of. destruct b; cbn [count_occ].
  - destruct (decide ((boss, 2.2) = (boss, d))) as [E|E];
      destruct (decide (true = true /\ d = 2.2)) as [F|F];
      try reflexivity; exfalso.
    + apply F. split; congruence.
    + apply E. destruct F as [_ ->]. reflexivity.
  - destruct (decide (false = true /\ d = 2.2)) as [[F _]|F];
      [discriminate | reflexivity].
Qed.

Lemma wave_entries_boss n d :
  (1 <= n)%Z ->
  entries_of (boss, d) (wave_entries n)
  = if decide ((n mod 5)%Z = 0%Z /\ d = 2.2) then 1%nat else 0%nat.
Proof.
  intros Hn. unfold wave_entries.
  rewrite !entries_of_app, entries_of_repeat, entries_of_boss_tail.
  rewrite decide_False by congruence.
  assert (Htail : (if decide ((n mod 5 =? 0)%Z = true /\ d = 2.2)
                   then 1%nat else 0%nat)
                  = if decide ((n mod 5)%Z = 0%Z /\ d = 2.2)
                    then 1%nat else 0%nat).
  { destruct (Z.eqb_spec (n mod 5) 0) as [Hm|Hm].
    - destruct (decide (d = 2.2)) as [Hd|Hd].
      + by rewrite !decide_True.
      + by rewrite !decide_False by tauto.
    - rewrite decide_False by (intros [? _]; discriminate).
      by rewrite decide_False by tauto. }
  rewrite Htail.
  destruct (2 <=? n)%Z;
    [rewrite entries_of_repeat, decide_False by congruence |];
    (destruct (4 <=? n)%Z;
      [rewrite entries_of_repeat, decide_False by congruence |]);
    reflexivity.
Qed.

Lemma wave_entries_length n :
  (1 <= n)%Z ->
  Z.of_nat (length (wave_entries n))
  = ((6 + 2 * n)
     + (if 2 <=? n then 2 + n / 2 else 0)
     + (if 4 <=? n then 1 + n / 3 else 0)
     + (if n mod 5 =? 0 then 1 else 0))%Z.
Proof.
  intros Hn. unfold wave_entries.
  assert (0 <= n / 2)%Z by (apply Z.div_pos; lia).
  assert (0 <= n / 3)%Z by (apply Z.div_pos; lia).
  rewrite !length_app, repeat_length.
  repeat case_match; rewrite ?repeat_length; simpl; lia.
Qed.

(** C10: for every wave number [n >= 1] the spawn queue built by
    [make_wave] holds exactly [6 + 2n] walker entries, [2 + n // 2] runner
    entries from wave 2 on, [1 + n // 3] brute entries from wave 4 on, one
    boss entry exactly when [n] is a multiple of 5, and nothing else; the
    shuffle only rearranges these entries. *)
Theorem make_wave_composition (n : Z) :
  (1 <= n)%Z ->
  Z.of_nat (entries_of (walker, 0.8) (make_wave n)) = (6 + 2 * n)%Z /\
  Z.of_nat (entries_of (runner, 0.7) (make_wave n))
    = (if (2 <=? n)%Z then 2 + n / 2 else 0)%Z /\
  Z.of_nat (entries_of (brute, 1.4) (make_wave n))
    = (if (4 <=? n)%Z then 1 + n / 3 else 0)%Z /\
  (forall d, entries_of (boss, d) (make_wave n)
             = if decide ((n mod 5)%Z = 0%Z /\ d = 2.2) then 1%nat else 0%nat) /\
  Z.of_nat (length (make_wave n))
    = ((6 + 2 * n)
       + (if 2 <=? n then 2 + n / 2 else 0)
       + (if 4 <=? n then 1 + n / 3 else 0)
       + (if n mod 5 =? 0 then 1 else 0))%Z /\
  Permutation (wave_entries n) (make_wave n).
Proof using shuffle_perm.
  intros Hn. unfold make_wave.
  pose proof (shuffle_perm (wave_entries n)) as Hp.
  rewrite <- !(entries_of_perm _ _ _ Hp).
  rewrite <- (Permutation_length Hp).
  split_and!; auto using wave_entries_walker, wave_entries_runner,
    wave_entries_brute, wave_entries_length.
  - intros d. rewrite <- (entries_of_perm _ _ _ Hp).
    by apply wave_entries_boss.
Qed.

(** ** Projectiles *)




(** Whether a zombie stands within [radius] of [pos]. *)
Definition in_radius (pos : Vec) (radius : Z) (z : Zombie) : bool :=
  sq_le (dist2 (position z) pos) (inject_Z radius).

Definition hurt (dmg : Z) (z : Zombie) : Zombie :=
  with_health (health z - inject_Z dmg) z.

Lemma splash_lookup pos radius dmg h r r' :
  deref (splash pos radius dmg h r) r'
  = (fun z => if decide (r = r') then
                if in_radius pos radius z then hurt dmg z else z
              else z) <$> deref h r'.
Proof.
  unfold splash, deref. destruct (h !! r) as [z|] eqn:Hr.
  - fold (in_radius pos radius z). destruct (in_radius pos radius z) eqn:Hin.
    + destruct (decide (r = r')) as [<-|Hne].
      * rewrite list_lookup_insert_eq by (by eapply lookup_lt_Some).
        rewrite Hr. simpl. by rewrite Hin.
      * by rewrite list_lookup_insert_ne; [destruct (h !! r')|].
    + destruct (decide (r = r')) as [<-|Hne].
      * rewrite Hr. simpl. by rewrite Hin.
      * by destruct (h !! r').
  - destruct (decide (r = r')) as [<-|Hne].
    + by rewrite Hr.
    + by destruct (h !! r').
Qed.

(** The whole splash loop, for an active list without repetition. *)
Lemma splash_loop_lookup pos radius dmg zs :
  NoDup zs ->
  forall h r',
    deref (foldl (splash pos radius dmg) h zs) r'
    = (fun z => if bool_decide (r' ∈ zs) && in_radius pos radius z
                then hurt dmg z else z) <$> deref h r'.
Proof.
  induction 1 as [|r zs Hr Hnd IH]; intros h r'; simpl.
  - by destruct (deref h r').
  - rewrite IH, splash_lookup. destruct (deref h r') as [z|]; [|done]. simpl.
    f_equal. destruct (decide (r = r')) as [<-|Hne].
    + rewrite (bool_decide_eq_false_2 (r ∈ zs)) by done.
      rewrite bool_decide_eq_true_2 by (apply elem_of_cons; auto). simpl.
      by destruct (in_radius pos radius z).
    + rewrite (bool_decide_ext (r' ∈ r :: zs) (r' ∈ zs))
        by (rewrite elem_of_cons; split; [intros [?|?]; congruence | auto]).
      done.
Qed.

(** The slow applied at the end of a hit: it leaves health and position of
    every zombie alone. *)
Definition slowed (p : Projectile) (z : Zombie) : Zombie :=
  if Qltb 0 (slow p) && Qltb 0 (health z)
  then with_slow (1 - slow p) (slow_duration p) z else z.

Lemma health_slowed p z : health (slowed p z) = health z.
Proof. unfold slowed. by case (Qltb 0 (slow p) && Qltb 0 (health z)). Qed.

Lemma position_slowed p z : position (slowed p z) = position z.
Proof. unfold slowed. by case (Qltb 0 (slow p) && Qltb 0 (health z)). Qed.

(** What a hit on a live target does to the zombie behind each reference. *)
Lemma resolve_hit_lookup zs p h r z :
  NoDup zs ->
  target p = Some r -> deref h r = Some z -> 0 < health z ->
  forall r',
    deref (resolve_hit zs p h) r'
    = (fun z' =>
         let z1 :=
           if (0 <? splash_radius p)%Z then
             if bool_decide (r' ∈ zs) &&
                in_radius (p_position p) (splash_radius p) z'
             then hurt (damage p) z' else z'
           else if decide (r' = r) then hurt (damage p) z' else z' in
         if decide (r' = r) then slowed p z1 else z1) <$> deref h r'.
Proof.
  intros Hnd Ht Hr Hz r'. unfold resolve_hit. rewrite Ht, Hr.
  apply Qltb_lt in Hz. rewrite Hz.
  set (h1 := if (0 <? splash_radius p)%Z then _ else _).
  assert (Hh1 : forall r'',
    deref h1 r''
    = (fun z' =>
         if (0 <? splash_radius p)%Z then
           if bool_decide (r'' ∈ zs) &&
              in_radius (p_position p) (splash_radius p) z'
           then hurt (damage p) z' else z'
         else if decide (r'' = r) then hurt (damage p) z' else z')
      <$> deref h r'').
  { intros r''. subst h1. destruct (0 <? splash_radius p)%Z.
    - by apply splash_loop_lookup.
    - unfold deref in *. destruct (decide (r'' = r)) as [->|Hne].
      + rewrite list_lookup_insert_eq by (by eapply lookup_lt_Some).
        by rewrite Hr.
      + rewrite list_lookup_insert_ne by done. by destruct (h !! r''). }
  pose proof (Hh1 r) as Hr1. rewrite Hr in Hr1. simpl in Hr1.
  destruct (deref h1 r) as [z1|] eqn:Hz1; [|done].
  injection Hr1 as Hr1.
  assert (Heq : (if Qltb 0 (slow p) && Qltb 0 (health z1)
                 then <[r:=with_slow (1 - slow p) (slow_duration p) z1]> h1
                 else h1) = <[r:=slowed p z1]> h1).
  { unfold slowed.
    destruct (Qltb 0 (slow p) && Qltb 0 (health z1)); [done|].
    symmetry. by apply list_insert_id. }
  rewrite Heq. clear Heq. unfold deref at 1.
  destruct (decide (r' = r)) as [->|Hne].
  - rewrite list_lookup_insert_eq by (by eapply lookup_lt_Some).
    rewrite Hr. simpl. rewrite Hr1. by destruct (decide (r = r)).
  - rewrite list_lookup_insert_ne by done. fold (deref h1 r'). rewrite Hh1.
    destruct (deref h r'); simpl; [|done]. by rewrite decide_False.
Qed.

(** ** The slow effect over time *)











(** ** Towers *)

Definition damage_of (t : Tower) : Z := fst (fst (stats t)).
Definition rate_of (t : Tower) : Q := snd (fst (stats t)).
Definition range_of (t : Tower) : Z := snd (stats t).

(** The value [Tower.update] gives the cooldown when it fires. *)
Definition fire_interval (t : Tower) : Q := 1 / rate_of t.

(** What holds of every tower the game creates and keeps. *)
Definition tower_ok (t : Tower) : Prop :=
  In (tower_type t) TOWER_TYPES /\ (1 <= level t)%Z /\ 0 <= cooldown t.

Lemma TOWER_TYPES_fire_rate tt : In tt TOWER_TYPES -> 0.5 <= tt_fire_rate tt.
Proof.
  unfold TOWER_TYPES. simpl. intros [<-|[<-|[<-|[<-|[]]]]]; simpl; lra.
Qed.

Lemma rate_of_pos t :
  In (tower_type t) TOWER_TYPES -> (1 <= level t)%Z -> 0 < rate_of t.
Proof.
  intros Htt Hl. unfold rate_of, stats. simpl.
  apply TOWER_TYPES_fire_rate in Htt.
  assert (0 <= inject_Z (level t - 1)).
  { change 0 with (inject_Z 0). rewrite <- Zle_Qle. lia. }
  nra.
Qed.

Lemma fire_interval_pos t :
  In (tower_type t) TOWER_TYPES -> (1 <= level t)%Z -> 0 < fire_interval t.
Proof.
  intros Htt Hl. unfold fire_interval.
  pose proof (rate_of_pos t Htt Hl) as Hr.
  unfold Qdiv. rewrite Qmult_1_l. by apply Qinv_lt_0_compat.
Qed.

(** An active zombie within range. *)
Definition in_range (h : list Zombie) (zs : list nat) (pos : Vec) (rng : Z)
    (r : nat) : Prop :=
  r ∈ zs /\
  exists z, deref h r = Some z /\
    sq_le (dist2 (position z) pos) (inject_Z rng) = true.

Lemma nearer_fold_sound h pos rng all zs :
  (forall r, r ∈ zs -> r ∈ all) ->
  forall acc,
    (forall r0, fst acc = Some r0 -> in_range h all pos rng r0) ->
    forall r0, fst (foldl (nearer h pos rng) acc zs) = Some r0 ->
      in_range h all pos rng r0.
Proof.
  induction zs as [|r zs IH]; intros Hsub acc Hacc r0; simpl; [auto|].
  apply IH.
  - intros r1 Hr1. apply Hsub, elem_of_cons. auto.
  - intros r1. unfold nearer. destruct (deref h r) as [z|] eqn:Hr; [|auto].
    destruct (sq_le _ _) eqn:Hin; simpl; [|auto].
    destruct (match snd acc with Some b => _ | None => true end); [|auto].
    simpl. intros [= <-]. split; [apply Hsub, elem_of_cons; auto | eauto].
Qed.

(** A target found is an active zombie within range. *)
Lemma find_target_sound h zs pos rng r :
  find_target h zs pos rng = Some r -> in_range h zs pos rng r.
Proof.
  unfold find_target. apply nearer_fold_sound; [auto|]. simpl. discriminate.
Qed.

(** With no active zombie there is no target. *)
Lemma find_target_nil h pos rng : find_target h [] pos rng = None.
Proof. reflexivity. Qed.

(** [Tower.update] leaves a cooldown that is not negative, and when it
    fires, the cooldown was zero at the test, the target is an active zombie
    within range, and the new cooldown is [1 / rate]. *)
Lemma Tower_update_spec dt h zs t :
  In (tower_type t) TOWER_TYPES -> (1 <= level t)%Z ->
  0 <= cooldown (fst (Tower_update dt h zs t)) /\
  tower_type (fst (Tower_update dt h zs t)) = tower_type t /\
  level (fst (Tower_update dt h zs t)) = level t /\
  forall p, snd (Tower_update dt h zs t) = Some p ->
    Qmax 0 (cooldown t - dt) == 0 /\
    (exists r, target p = Some r /\
       in_range h zs (t_position t) (range_of t) r) /\
    cooldown (fst (Tower_update dt h zs t)) = fire_interval t.
Proof.
  intros Htt Hl. pose proof (fire_interval_pos t Htt Hl) as Hpos.
  unfold fire_interval, rate_of in *. unfold Tower_update.
  change (stats (with_cooldown (Qmax 0 (cooldown t - dt)) t)) with (stats t).
  destruct (stats t) as [[dmg rate] rng] eqn:Hs. simpl in *.
  assert (Hmax : 0 <= Qmax 0 (cooldown t - dt)) by apply Q.le_max_l.
  destruct (find_target h zs (t_position t) rng) as [r|] eqn:Hf; simpl.
  - destruct (Qle_bool (Qmax 0 (cooldown t - dt)) 0) eqn:Hc; simpl.
    + split_and!; [lra | done | done |].
      intros p [= <-]. simpl. apply Qle_bool_iff in Hc.
      split_and!; [lra | | done].
      exists r. split; [done|]. apply find_target_sound.
      unfold range_of. by rewrite Hs.
    + split_and!; [done | done | done | discriminate].
  - split_and!; [done | done | done | discriminate].
Qed.

Lemma Tower_update_ok dt h zs t :
  tower_ok t -> tower_ok (fst (Tower_update dt h zs t)).
Proof.
  intros (Htt & Hl & _).
  destruct (Tower_update_spec dt h zs t Htt Hl) as (Hc & Ht & Hlv & _).
  unfold tower_ok. by rewrite Ht, Hlv.
Qed.

Lemma upgrade_ok t : tower_ok t -> tower_ok (upgrade t).
Proof. intros (Htt & Hl & Hc). unfold tower_ok. simpl. split_and!; [done|lia|done]. Qed.

Lemma Tower_init_ok tt pos : In tt TOWER_TYPES -> tower_ok (Tower_init tt pos).
Proof. intros Htt. unfold tower_ok. simpl. split_and!; [done|lia|lra]. Qed.

(** ** Upgrades *)

Lemma stats_monotone t1 t2 :
  tower_type t1 = tower_type t2 -> (level t1 < level t2)%Z ->
  (damage_of t1 < damage_of t2)%Z /\ rate_of t1 < rate_of t2 /\
  (range_of t1 < range_of t2)%Z.
Proof.
  intros Htt Hl. unfold damage_of, rate_of, range_of, stats. simpl.
  rewrite Htt. split_and!; [lia | | lia].
  assert (inject_Z (level t1 - 1) < inject_Z (level t2 - 1))
    by (rewrite <- Zlt_Qlt; lia).
  lra.
Qed.

Lemma upgrade_cost_monotone t1 t2 :
  tower_type t1 = tower_type t2 -> (2 <= tt_cost (tower_type t1))%Z ->
  (1 <= level t1 < level t2)%Z ->
  (0 <= upgrade_cost t1 < upgrade_cost t2)%Z.
Proof.
  intros Htt Hc Hl. unfold upgrade_cost. rewrite <- Htt.
  set (c := tt_cost (tower_type t1)) in *.
  rewrite !Z.quot_div_nonneg by nia.
  split; [apply Z.div_pos; nia|].
  apply Z.lt_le_trans with ((c * (3 + 2 * level t1) + 4) / 4)%Z.
  - replace (c * (3 + 2 * level t1) + 4)%Z
      with (c * (3 + 2 * level t1) + 1 * 4)%Z by lia.
    rewrite Z.div_add by lia. lia.
  - apply Z.div_le_mono; nia.
Qed.

Lemma TOWER_TYPES_cost tt : In tt TOWER_TYPES -> (2 <= tt_cost tt)%Z.
Proof.
  unfold TOWER_TYPES. simpl. intros [<-|[<-|[<-|[<-|[]]]]]; simpl; lia.
Qed.

(** The interval between shots shrinks with the level ... *)
Lemma fire_interval_decreasing t1 t2 :
  In (tower_type t1) TOWER_TYPES ->
  tower_type t1 = tower_type t2 -> (1 <= level t1 < level t2)%Z ->
  0 < fire_interval t2 < fire_interval t1.
Proof.
  intros Hin Htt Hl.
  assert (H1 : 0 < rate_of t1) by (apply rate_of_pos; [done|lia]).
  assert (H2 : rate_of t1 < rate_of t2) by (apply stats_monotone; [done|lia]).
  unfold fire_interval, Qdiv. rewrite !Qmult_1_l. split.
  - apply Qinv_lt_0_compat. lra.
  - assert (H3 : 0 < rate_of t2) by lra.
    by apply (proj1 (Qinv_lt_contravar (rate_of t1) (rate_of t2) H1 H3)).
Qed.

(** ... and falls below every positive bound. *)
Lemma fire_interval_no_floor tt pos c floor :
  0 < floor ->
  exists l, (1 <= l)%Z /\
    fire_interval {| tower_type := tt; t_position := pos; cooldown := c;
                     level := l |} < floor.
Proof.
  intros Hf.
  set (b := (1 + Z.abs (Qnum (tt_fire_rate tt)) + Z.pos (Qden floor))%Z).
  exists (1 + 5 * b)%Z. split; [lia|].
  unfold fire_interval, rate_of, stats. simpl.
  replace (1 + 5 * b - 1)%Z with (5 * b)%Z by lia.
  assert (Hb : 0 < tt_fire_rate tt + inject_Z (5 * b) * 0.2 /\
               1 < floor * (tt_fire_rate tt + inject_Z (5 * b) * 0.2)).
  { rewrite inject_Z_mult.
    assert (Hfr : - inject_Z (Z.abs (Qnum (tt_fire_rate tt))) <= tt_fire_rate tt).
    { destruct (tt_fire_rate tt) as [n d]. unfold Qle, inject_Z, Qopp. simpl. nia. }
    assert (Hfl : 1 <= floor * inject_Z (Z.pos (Qden floor))).
    { destruct floor as [n d]. unfold Qlt, Qle, Qmult, inject_Z in *.
      simpl in *. nia. }
    assert (Hbq : inject_Z b
                  == 1 + inject_Z (Z.abs (Qnum (tt_fire_rate tt)))
                     + inject_Z (Z.pos (Qden floor))).
    { subst b. by rewrite !inject_Z_plus. }
    assert (0 <= inject_Z (Z.abs (Qnum (tt_fire_rate tt))))
      by (change 0 with (inject_Z 0); rewrite <- Zle_Qle; lia).
    assert (0 < inject_Z (Z.pos (Qden floor)))
      by (change 0 with (inject_Z 0); rewrite <- Zlt_Qlt; lia).
    change (inject_Z 5) with 5. split; nra. }
  destruct Hb as [Hb1 Hb2].
  apply Qlt_shift_div_r; [done|]. lra.
Qed.

(** ** Placement *)

(** The point of the segment from [a] to [b] at parameter [s]. *)
Definition along (a b : Vec) (s : Q) : Vec := vadd a (vscale (vsub b a) s).

Lemma clamp_unit u :
  let t := clamp u 0 1 in
  (u <= 0 /\ t == 0) \/ (0 <= u <= 1 /\ t == u) \/ (1 <= u /\ t == 1).
Proof.
  unfold clamp. simpl.
  destruct (Q.min_spec 1 u) as [[H1 E1]|[H1 E1]];
    destruct (Q.max_spec 0 (Qmin 1 u)) as [[H2 E2]|[H2 E2]].
  - right. right. split; lra.
  - lra.
  - right. left. split; lra.
  - left. split; lra.
Qed.

Lemma dist2_along p a b s t :
  dist2 p (along a b s) - dist2 p (along a b t)
  == length_squared (vsub b a) * ((s - t) * (s - t))
     + 2 * (s - t) * (t * length_squared (vsub b a) - dot (vsub p a) (vsub b a)).
Proof.
  unfold dist2, along, length_squared, dot, vsub, vadd, vscale. simpl. ring.
Qed.

Lemma clamp_minimises L c u s :
  0 < L -> u * L == c -> 0 <= s <= 1 ->
  let t := clamp u 0 1 in
  0 <= L * ((s - t) * (s - t)) + 2 * (s - t) * (t * L - c).
Proof.
  intros HL Hu Hs. simpl.
  destruct (clamp_unit u) as [[Hc Ht]|[[Hc Ht]|[Hc Ht]]];
    simpl in Ht; rewrite Ht, <- Hu.
  - assert (0 <= L * s) by nra. assert (0 <= (L * s) * (- u)) by nra. nra.
  - pose proof (square_nonneg (s - u)).
    assert (0 <= L * ((s - u) * (s - u))) by (apply Qmult_le_0_compat; lra).
    lra.
  - assert (0 <= L * (1 - s)) by nra.
    assert (0 <= (L * (1 - s)) * (u - 1)) by nra.
    assert (0 <= (L * (1 - s)) * (1 - s)) by nra. nra.
Qed.

(** [point_to_segment_distance] is the distance to a point of the segment,
    and no point of the segment is closer. *)
Lemma point_to_segment_distance2_spec p a b :
  (exists t, 0 <= t <= 1 /\
     point_to_segment_distance2 p a b == dist2 p (along a b t)) /\
  forall s, 0 <= s <= 1 ->
    point_to_segment_distance2 p a b <= dist2 p (along a b s).
Proof.
  unfold point_to_segment_distance2.
  set (L := length_squared (vsub b a)). set (c := dot (vsub p a) (vsub b a)).
  destruct (Qeq_bool L 0) eqn:HL.
  - apply Qeq_bool_iff in HL.
    assert (Hab : fst b - fst a == 0 /\ snd b - snd a == 0).
    { unfold L, length_squared, dot, vsub in HL. simpl in HL.
      by apply sq_sum_zero. }
    assert (Hall : forall s, length_squared (vsub p a) == dist2 p (along a b s)).
    { intros s. unfold dist2, along, length_squared, dot, vsub, vadd, vscale.
      simpl. destruct Hab as [Hx Hy].
      assert (E1 : fst p - (fst a + (fst b - fst a) * s) == fst p - fst a)
        by (rewrite Hx; ring).
      assert (E2 : snd p - (snd a + (snd b - snd a) * s) == snd p - snd a)
        by (rewrite Hy; ring).
      rewrite E1, E2. reflexivity. }
    split.
    + exists 0. split; [lra | apply Hall].
    + intros s _. rewrite <- Hall. lra.
  - apply Qeq_bool_neq in HL.
    assert (HLpos : 0 < L).
    { pose proof (length_squared_nonneg (vsub b a)) as Hnn. fold L in Hnn.
      destruct (Qlt_le_dec 0 L); [done|]. exfalso. apply HL. lra. }
    assert (Hu : (c / L) * L == c) by (field; done).
    fold (along a b (clamp (c / L) 0 1)). split.
    + exists (clamp (c / L) 0 1). split; [|reflexivity].
      destruct (clamp_unit (c / L)) as [[Hc Ht]|[[Hc Ht]|[Hc Ht]]];
        simpl in Ht; lra.
    + intros s Hs.
      pose proof (dist2_along p a b s (clamp (c / L) 0 1)) as Hd.
      fold L c in Hd.
      pose proof (clamp_minimises L c (c / L) s HLpos Hu Hs) as Hm.
      simpl in Hm. lra.
Qed.







(** ** High score and loss *)


(** What the end of the game depends on. *)
Definition outcome (g : Game) : Screen * Z * Z * HighScoreFile :=
  (state g, lives g, high_score g, disk g).



Lemma outcome_handle_projectiles dt g :
  outcome (handle_projectiles dt g) = outcome g.
Proof. reflexivity. Qed.




(** ** Currency *)

Definition pays (z : Zombie) : Prop := (0 <= reward z)%Z.

(** The bookkeeping invariant of a game: no debt, a wave counter that
    counts up from zero, and zombies whose reward is not negative. *)
Definition economy_ok (g : Game) : Prop :=
  (0 <= coins g)%Z /\ (0 <= wave g)%Z /\ Forall pays (heap g).

Lemma pays_Zombie_init pth k : pays (Zombie_init pth k).
Proof. unfold pays. destruct k; simpl; lia. Qed.

Lemma reward_Zombie_update dt z : reward (fst (Zombie_update dt z)) = reward z.
Proof.
  unfold Zombie_update.
  destruct (Qltb 0 (slow_timer z)); simpl; repeat case_match; done.
Qed.

Lemma economy_update_wave dt g : economy_ok g -> economy_ok (update_wave dt g).
Proof.
  intros (Hc & Hw & Hh). unfold update_wave.
  destruct (wave_in_progress g); [|done].
  assert (Hstep : forall g', economy_ok g' ->
    economy_ok match spawn_queue g', zombies g' with
               | [], [] => set_coins (coins g' + (30 + wave g' * 5))
                             (set_wave_in_progress false g')
               | _, _ => g'
               end).
  { intros g' (Hc' & Hw' & Hh'). repeat case_match; try done.
    unfold economy_ok. simpl. split_and!; [lia | done | done]. }
  apply Hstep. destruct (Qle_bool _ _); simpl; [|done].
  destruct (pop (spawn_queue g)) as [[[k d] rest]|]; simpl; [|done].
  unfold economy_ok. simpl. split_and!; [done | done |].
  apply Forall_app. split; [done|]. apply Forall_singleton, pays_Zombie_init.
Qed.

Lemma economy_advance_zombie dt g r :
  economy_ok g -> economy_ok (advance_zombie dt g r).
Proof.
  intros (Hc & Hw & Hh). unfold advance_zombie.
  destruct (deref (heap g) r) as [z|] eqn:Hr; [|done].
  pose proof (reward_Zombie_update dt z) as Hrew.
  destruct (Zombie_update dt z) as [z' reached]. simpl in Hrew.
  assert (Hh' : Forall pays (<[r:=z']> (heap g))).
  { apply Forall_insert; [done|]. unfold pays. rewrite Hrew.
    eapply (Forall_lookup_1 pays); eauto. }
  destruct reached; simpl; [|done].
  destruct (_ <=? _)%Z; done.
Qed.

Lemma pays_splash pos radius dmg h r :
  Forall pays h -> Forall pays (splash pos radius dmg h r).
Proof.
  intros Hh. unfold splash. destruct (deref h r) as [z|] eqn:Hr; [|done].
  destruct (sq_le _ _); [|done]. apply Forall_insert; [done|].
  eapply (Forall_lookup_1 pays) in Hr; eauto.
Qed.

Lemma pays_resolve_hit zs p h : Forall pays h -> Forall pays (resolve_hit zs p h).
Proof.
  intros Hh. unfold resolve_hit. destruct (target p) as [r|]; [|done].
  destruct (deref h r) as [z|] eqn:Hr; [|done].
  destruct (Qltb 0 (health z)); [|done].
  set (h1 := if (0 <? splash_radius p)%Z then _ else _).
  assert (H1 : Forall pays h1).
  { subst h1. destruct (0 <? splash_radius p)%Z.
    - apply foldl_invariant; [|done]. intros a b. apply pays_splash.
    - apply Forall_insert; [done|].
      eapply (Forall_lookup_1 pays) in Hr; eauto. }
  destruct (deref h1 r) as [z1|] eqn:Hr1; [|done].
  destruct (_ && _); [|done]. apply Forall_insert; [done|].
  eapply (Forall_lookup_1 pays) in Hr1; eauto.
Qed.

Lemma economy_handle_projectiles dt g :
  economy_ok g -> economy_ok (handle_projectiles dt g).
Proof.
  intros (Hc & Hw & Hh). unfold handle_projectiles, economy_ok. simpl.
  split_and!; [done | done |].
  apply (foldl_invariant (handle_projectile dt (zombies g))
           (fun acc => Forall pays (fst acc))); [|done].
  intros [h kept] p Ha. unfold handle_projectile. simpl in *.
  destruct (alive _); simpl; [done|]. by apply pays_resolve_hit.
Qed.

Lemma economy_remove_dead_zombies g :
  economy_ok g -> economy_ok (remove_dead_zombies g).
Proof.
  unfold remove_dead_zombies. generalize (zombies g) at 1. intros l.
  apply foldl_invariant. intros a r (Hc & Hw & Hh). unfold remove_dead.
  destruct (deref (heap a) r) as [z|] eqn:Hr; [|done].
  destruct (Qle_bool _ _); [|done].
  eapply (Forall_lookup_1 pays) in Hr; eauto.
  unfold economy_ok, pays in *. simpl. split_and!; [lia | done | done].
Qed.

(** A frame never takes coins away: the coins of a game that owes nothing
    stay non-negative through [update_game]. *)
Lemma economy_update_game dt g : economy_ok g -> economy_ok (update_game dt g).
Proof.
  intros Hg. unfold update_game. destruct (pause g); [done|].
  set (g1 := update_wave dt g).
  assert (H1 : economy_ok g1) by by apply economy_update_wave.
  set (g2 := foldl (advance_zombie dt) g1 (zombies g1)).
  assert (H2 : economy_ok g2).
  { subst g2. generalize (zombies g1). intros l.
    apply (foldl_invariant (advance_zombie dt) economy_ok); [|done].
    intros a b. apply economy_advance_zombie. }
  pose proof (economy_remove_dead_zombies _
                (economy_handle_projectiles dt _ H2)) as H4.
  unfold economy_ok in *. simpl. done.
Qed.

Lemma economy_handle_key key g g' :
  economy_ok g -> handle_key key g = Some g' -> economy_ok g'.
Proof.
  intros (Hc & Hw & Hh). unfold handle_key.
  assert (Hs : economy_ok (start_wave g)).
  { unfold economy_ok, start_wave. simpl. split_and!; [done | lia | done]. }
  destruct key; simpl; try (intros [= <-]; done).
  - intros [= <-]. by destruct (wave_in_progress g).
  - destruct (selected_tower g) as [i|]; [|by intros [= <-]].
    destruct (towers g !! i) as [t|]; [|done].
    destruct (Z.leb_spec (upgrade_cost t) (coins g)); intros [= <-]; [|done].
    unfold economy_ok. simpl. split_and!; [lia | done | done].
Qed.

(** On the [HEAD] side of the conflict a click never leaves a debt. *)
Lemma economy_handle_game_click pos g g' :
  economy_ok g -> handle_game_click HEAD pos g = Some g' -> economy_ok g'.
Proof.
  intros Hg. unfold handle_game_click.
  destruct (r_bottom PLAY_AREA <? snd pos)%Z.
  - intros H. injection H as <-. unfold click_button.
    apply (foldl_invariant _ economy_ok); [|done].
    intros a it Ha. by destruct (_ && _).
  - destruct (selected_tower g) as [i|].
    + destruct (can_place g (snap pos)); [|by intros [= <-]].
      destruct (TOWER_TYPES !! i) as [tt|]; [|done].
      destruct (Z.leb_spec (tt_cost tt) (coins g)); intros [= <-]; [|done].
      destruct Hg as (Hc & Hw & Hh). unfold economy_ok. simpl.
      split_and!; [lia | done | done].
    + destruct (tower_at _ _ _); by intros [= <-].
Qed.

Lemma economy_reset_game g : economy_ok (reset_game g).
Proof. unfold economy_ok. simpl. split_and!; [lia | lia | done]. Qed.

Lemma economy_react e g g' :
  economy_ok g -> react HEAD e g = Some g' -> economy_ok g'.
Proof.
  intros Hg. unfold react.
  destruct (state g), e; try (intros [= <-]; done);
    try (intros [= <-]; apply economy_reset_game).
  - by apply economy_handle_game_click.
  - by apply economy_handle_key.
  - intros [= <-]. by apply economy_update_game.
Qed.

(** With the funds check of the [HEAD] side, no game of a session is ever
    in debt. *)
Lemma reachable_economy g : reachable HEAD g -> (0 <= coins g)%Z.
Proof.
  intros H. cut (economy_ok g); [by intros (? & _)|].
  induction H as [f|g e g' _ IH Hr].
  - apply economy_reset_game.
  - by eapply economy_react.
Qed.

Lemma play_reachable side es g g' :
  reachable side g -> play side es g = Some g' -> reachable side g'.
Proof.
  revert g. induction es as [|e es IH]; intros g Hg; simpl.
  - by intros [= <-].
  - destruct (react side e g) as [g1|] eqn:Hr; [|done].
    apply IH. by eapply reachable_react.
Qed.

(** Three rifle towers bought with 180 coins: a new game, a click on the
    first button of the tower bar, and three clicks on free cells. *)
Definition three_rifles : list Event :=
  [StartGame; Click (430, 640); Click (10, 10); Click (60, 10);
   Click (110, 10)]%Z.

(** On the [main] side of the conflict the third tower is placed with 20
    coins left and the game ends up 60 coins in debt; on the [HEAD] side the
    third click is refused and the 20 coins stay. *)
Lemma three_rifles_debt :
  (coins <$> play main three_rifles (Game_init Missing)) = Some (-60)%Z /\
  (length <$> (towers <$> play main three_rifles (Game_init Missing)))
    = Some 3%nat /\
  (coins <$> play HEAD three_rifles (Game_init Missing)) = Some 20%Z /\
  (length <$> (towers <$> play HEAD three_rifles (Game_init Missing)))
    = Some 2%nat.
Proof. vm_compute. done. Qed.

End Simulation.

(** The fifth wave under the shuffle that reverses the queue. *)
Lemma make_wave_composition_witness :
  Z.of_nat (entries_of (walker, 0.8) (make_wave (@rev _) 5)) = 16%Z /\
  Z.of_nat (entries_of (runner, 0.7) (make_wave (@rev _) 5)) = 4%Z /\
  Z.of_nat (entries_of (brute, 1.4) (make_wave (@rev _) 5)) = 2%Z /\
  entries_of (boss, 2.2) (make_wave (@rev _) 5) = 1%nat /\
  Z.of_nat (length (make_wave (@rev _) 5)) = 23%Z.
Proof.
  destruct (make_wave_composition (@rev _) (@Permutation_rev _) 5 ltac:(lia))
    as (Hw & Hr & Hb & Hboss & Hlen & _).
  split_and!; [exact Hw | exact Hr | exact Hb | exact (Hboss 2.2) | exact Hlen].
Defined.

End ZombieTowerDefense.

(** * [zombie.py] *)

Module ZombiePy.

(** ** Constants *)

Definition SCREEN_WIDTH : Z := 800.
Definition SCREEN_HEIGHT : Z := 600.
Definition MAX_WAVES : Z := 10.
Definition START_LIVES : Z := 20.
Definition START_COINS : Z := 200.
Definition PATH_WIDTH : Z := 40.

Definition PATH : list Vec :=
  map vec_of
    [(0, 300); (100, 300); (100, 200); (200, 200); (200, 400); (300, 400);
     (300, 100); (400, 100); (400, 500); (500, 500); (500, 200); (600, 200);
     (600, 400); (700, 400); (700, 300); (800, 300)]%Z.

(** ** The high score file *)

(** The content of [highscore.txt]: absent, a number, or something
    [int] cannot read. *)
Inductive HighScoreFile := Missing | Text (n : Z) | Garbage.

(** [load_high_score]; [None] is the uncaught [ValueError]. *)
Definition load_high_score (f : HighScoreFile) : option Z :=
  match f with
  | Missing => Some 0%Z
  | Text n => Some n
  | Garbage => None
  end.

(** [save_high_score]: the file afterwards; [None] when loading raised. *)
Definition save_high_score (score : Z) (f : HighScoreFile)
  : option HighScoreFile :=
  match load_high_score f with
  | Some current_high =>
    if (current_high <? score)%Z then Some (Text score) else Some f
  | None => None
  end.

(** ** Towers, bullets and zombies *)

Inductive TowerKind := basic | sniper | aoe | slow.

Record Tower := {
  t_pos : Z * Z;
  t_type : TowerKind;
  level : Z;
  cooldown : Z;
  target : option nat;
  range : Z;
  damage : Z;
  fire_rate : Z;
  cost : Z;
  upgrade_cost : Z
}.

(** The [size] attribute of every tower. *)
Definition size : Z := 20.

(** [Tower.__init__]. *)
Definition Tower_init (pos : Z * Z) (k : TowerKind) : Tower :=
  match k with
  | basic =>
    {| t_pos := pos; t_type := k; level := 1; cooldown := 0; target := None;
       range := 150; damage := 10; fire_rate := 60; cost := 100;
       upgrade_cost := 50 |}
  | sniper =>
    {| t_pos := pos; t_type := k; level := 1; cooldown := 0; target := None;
       range := 300; damage := 50; fire_rate := 120; cost := 200;
       upgrade_cost := 100 |}
  | aoe =>
    {| t_pos := pos; t_type := k; level := 1; cooldown := 0; target := None;
       range := 100; damage := 20; fire_rate := 90; cost := 150;
       upgrade_cost := 75 |}
  | slow =>
    {| t_pos := pos; t_type := k; level := 1; cooldown := 0; target := None;
       range := 120; damage := 5; fire_rate := 30; cost := 120;
       upgrade_cost := 60 |}
  end.

(** [Tower.upgrade]. *)
Definition upgrade (t : Tower) : Tower :=
  {| t_pos := t_pos t; t_type := t_type t; level := level t + 1;
     cooldown := cooldown t; target := target t; range := range t + 20;
     damage := damage t + 10; fire_rate := Z.max 10 (fire_rate t - 10);
     cost := cost t; upgrade_cost := upgrade_cost t + 50 |}.

Definition with_target (r : option nat) (t : Tower) : Tower :=
  {| t_pos := t_pos t; t_type := t_type t; level := level t;
     cooldown := cooldown t; target := r; range := range t;
     damage := damage t; fire_rate := fire_rate t; cost := cost t;
     upgrade_cost := upgrade_cost t |}.

Definition with_cooldown (c : Z) (t : Tower) : Tower :=
  {| t_pos := t_pos t; t_type := t_type t; level := level t;
     cooldown := c; target := target t; range := range t;
     damage := damage t; fire_rate := fire_rate t; cost := cost t;
     upgrade_cost := upgrade_cost t |}.

Inductive ZombieKind := normal | fast | tanky | boss.

Record Zombie := {
  z_pos : Vec;
  path_index : nat;
  health : Z;
  max_health : Z;
  speed : Q;
  alive : bool;
  z_type : ZombieKind
}.

(** [Zombie.__init__]. *)
Definition Zombie_init (k : ZombieKind) : Zombie :=
  let '(h, v) :=
    match k with
    | normal => (50%Z, 1)
    | fast => (30%Z, 2)
    | tanky => (100%Z, 0.5)
    | boss => (500%Z, 0.8)
    end in
  {| z_pos := nth 0 PATH (0, 0); path_index := 1; health := h;
     max_health := h; speed := v; alive := true; z_type := k |}.

(** The health is lowered to [h], and [alive] is cleared when nothing is
    left: the two statements that follow each other in [Bullet.hit]. *)
Definition with_health (h : Z) (z : Zombie) : Zombie :=
  {| z_pos := z_pos z; path_index := path_index z; health := h;
     max_health := max_health z; speed := speed z;
     alive := if (h <=? 0)%Z then false else alive z; z_type := z_type z |}.

Definition with_speed (v : Q) (z : Zombie) : Zombie :=
  {| z_pos := z_pos z; path_index := path_index z; health := health z;
     max_health := max_health z; speed := v; alive := alive z;
     z_type := z_type z |}.

Definition with_move (i : nat) (p : Vec) (z : Zombie) : Zombie :=
  {| z_pos := p; path_index := i; health := health z;
     max_health := max_health z; speed := speed z; alive := alive z;
     z_type := z_type z |}.

Record Bullet := {
  b_pos : Vec;
  b_target : nat;
  b_damage : Z;
  b_type : TowerKind
}.

(** The [speed] attribute of every bullet. *)
Definition bullet_speed : Q := 10.

Inductive PowerUpKind := coin | extra_health.

(** A read through a reference; a reference is an index of the heap. *)
Definition deref (heap : list Zombie) (r : nat) : option Zombie := heap !! r.

(** ** The variables of [game_loop] *)

Record Loop := {
  lives : Z;
  coins : Z;
  score : Z;
  wave : Z;
  heap : list Zombie;
  zombies : list nat;
  bullets : list Bullet;
  towers : list Tower;
  power_ups : list PowerUpKind;
  spawning : bool;
  zombies_to_spawn : Z;
  spawn_timer : Z;
  spawn_interval : Z;
  between_waves : bool;
  selected_tower_type : option TowerKind;
  disk : HighScoreFile
}.

(** Assignments to one variable of the loop. *)
Definition set_lives (v : Z) (s : Loop) : Loop :=
  {| lives := v; coins := coins s; score := score s; wave := wave s;
     heap := heap s; zombies := zombies s; bullets := bullets s;
     towers := towers s; power_ups := power_ups s; spawning := spawning s;
     zombies_to_spawn := zombies_to_spawn s; spawn_timer := spawn_timer s;
     spawn_interval := spawn_interval s; between_waves := between_waves s;
     selected_tower_type := selected_tower_type s; disk := disk s |}.

Definition set_coins (v : Z) (s : Loop) : Loop :=
  {| lives := lives s; coins := v; score := score s; wave := wave s;
     heap := heap s; zombies := zombies s; bullets := bullets s;
     towers := towers s; power_ups := power_ups s; spawning := spawning s;
     zombies_to_spawn := zombies_to_spawn s; spawn_timer := spawn_timer s;
     spawn_interval := spawn_interval s; between_waves := between_waves s;
     selected_tower_type := selected_tower_type s; disk := disk s |}.

Definition set_score (v : Z) (s : Loop) : Loop :=
  {| lives := lives s; coins := coins s; score := v; wave := wave s;
     heap := heap s; zombies := zombies s; bullets := bullets s;
     towers := towers s; power_ups := power_ups s; spawning := spawning s;
     zombies_to_spawn := zombies_to_spawn s; spawn_timer := spawn_timer s;
     spawn_interval := spawn_interval s; between_waves := between_waves s;
     selected_tower_type := selected_tower_type s; disk := disk s |}.

Definition set_wave (v : Z) (s : Loop) : Loop :=
  {| lives := lives s; coins := coins s; score := score s; wave := v;
     heap := heap s; zombies := zombies s; bullets := bullets s;
     towers := towers s; power_ups := power_ups s; spawning := spawning s;
     zombies_to_spawn := zombies_to_spawn s; spawn_timer := spawn_timer s;
     spawn_interval := spawn_interval s; between_waves := between_waves s;
     selected_tower_type := selected_tower_type s; disk := disk s |}.

Definition set_heap (v : list Zombie) (s : Loop) : Loop :=
  {| lives := lives s; coins := coins s; score := score s; wave := wave s;
     heap := v; zombies := zombies s; bullets := bullets s;
     towers := towers s; power_ups := power_ups s; spawning := spawning s;
     zombies_to_spawn := zombies_to_spawn s; spawn_timer := spawn_timer s;
     spawn_interval := spawn_interval s; between_waves := between_waves s;
     selected_tower_type := selected_tower_type s; disk := disk s |}.

Definition set_zombies (v : list nat) (s : Loop) : Loop :=
  {| lives := lives s; coins := coins s; score := score s; wave := wave s;
     heap := heap s; zombies := v; bullets := bullets s; towers := towers s;
     power_ups := power_ups s; spawning := spawning s;
     zombies_to_spawn := zombies_to_spawn s; spawn_timer := spawn_timer s;
     spawn_interval := spawn_interval s; between_waves := between_waves s;
     selected_tower_type := selected_tower_type s; disk := disk s |}.

Definition set_bullets (v : list Bullet) (s : Loop) : Loop :=
  {| lives := lives s; coins := coins s; score := score s; wave := wave s;
     heap := heap s; zombies := zombies s; bullets := v; towers := towers s;
     power_ups := power_ups s; spawning := spawning s;
     zombies_to_spawn := zombies_to_spawn s; spawn_timer := spawn_timer s;
     spawn_interval := spawn_interval s; between_waves := between_waves s;
     selected_tower_type := selected_tower_type s; disk := disk s |}.

Definition set_towers (v : list Tower) (s : Loop) : Loop :=
  {| lives := lives s; coins := coins s; score := score s; wave := wave s;
     heap := heap s; zombies := zombies s; bullets := bullets s; towers := v;
     power_ups := power_ups s; spawning := spawning s;
     zombies_to_spawn := zombies_to_spawn s; spawn_timer := spawn_timer s;
     spawn_interval := spawn_interval s; between_waves := between_waves s;
     selected_tower_type := selected_tower_type s; disk := disk s |}.

Definition set_power_ups (v : list PowerUpKind) (s : Loop) : Loop :=
  {| lives := lives s; coins := coins s; score := score s; wave := wave s;
     heap := heap s; zombies := zombies s; bullets := bullets s;
     towers := towers s; power_ups := v; spawning := spawning s;
     zombies_to_spawn := zombies_to_spawn s; spawn_timer := spawn_timer s;
     spawn_interval := spawn_interval s; between_waves := between_waves s;
     selected_tower_type := selected_tower_type s; disk := disk s |}.

Definition set_spawning (v : bool) (s : Loop) : Loop :=
  {| lives := lives s; coins := coins s; score := score s; wave := wave s;
     heap := heap s; zombies := zombies s; bullets := bullets s;
     towers := towers s; power_ups := power_ups s; spawning := v;
     zombies_to_spawn := zombies_to_spawn s; spawn_timer := spawn_timer s;
     spawn_interval := spawn_interval s; between_waves := between_waves s;
     selected_tower_type := selected_tower_type s; disk := disk s |}.

Definition set_zombies_to_spawn (v : Z) (s : Loop) : Loop :=
  {| lives := lives s; coins := coins s; score := score s; wave := wave s;
     heap := heap s; zombies := zombies s; bullets := bullets s;
     towers := towers s; power_ups := power_ups s; spawning := spawning s;
     zombies_to_spawn := v; spawn_timer := spawn_timer s;
     spawn_interval := spawn_interval s; between_waves := between_waves s;
     selected_tower_type := selected_tower_type s; disk := disk s |}.

Definition set_spawn_timer (v : Z) (s : Loop) : Loop :=
  {| lives := lives s; coins := coins s; score := score s; wave := wave s;
     heap := heap s; zombies := zombies s; bullets := bullets s;
     towers := towers s; power_ups := power_ups s; spawning := spawning s;
     zombies_to_spawn := zombies_to_spawn s; spawn_timer := v;
     spawn_interval := spawn_interval s; between_waves := between_waves s;
     selected_tower_type := selected_tower_type s; disk := disk s |}.

Definition set_spawn_interval (v : Z) (s : Loop) : Loop :=
  {| lives := lives s; coins := coins s; score := score s; wave := wave s;
     heap := heap s; zombies := zombies s; bullets := bullets s;
     towers := towers s; power_ups := power_ups s; spawning := spawning s;
     zombies_to_spawn := zombies_to_spawn s; spawn_timer := spawn_timer s;
     spawn_interval := v; between_waves := between_waves s;
     selected_tower_type := selected_tower_type s; disk := disk s |}.

Definition set_between_waves (v : bool) (s : Loop) : Loop :=
  {| lives := lives s; coins := coins s; score := score s; wave := wave s;
     heap := heap s; zombies := zombies s; bullets := bullets s;
     towers := towers s; power_ups := power_ups s; spawning := spawning s;
     zombies_to_spawn := zombies_to_spawn s; spawn_timer := spawn_timer s;
     spawn_interval := spawn_interval s; between_waves := v;
     selected_tower_type := selected_tower_type s; disk := disk s |}.

Definition set_selected_tower_type (v : option TowerKind) (s : Loop) : Loop :=
  {| lives := lives s; coins := coins s; score := score s; wave := wave s;
     heap := heap s; zombies := zombies s; bullets := bullets s;
     towers := towers s; power_ups := power_ups s; spawning := spawning s;
     zombies_to_spawn := zombies_to_spawn s; spawn_timer := spawn_timer s;
     spawn_interval := spawn_interval s; between_waves := between_waves s;
     selected_tower_type := v; disk := disk s |}.

Definition set_disk (v : HighScoreFile) (s : Loop) : Loop :=
  {| lives := lives s; coins := coins s; score := score s; wave := wave s;
     heap := heap s; zombies := zombies s; bullets := bullets s;
     towers := towers s; power_ups := power_ups s; spawning := spawning s;
     zombies_to_spawn := zombies_to_spawn s; spawn_timer := spawn_timer s;
     spawn_interval := spawn_interval s; between_waves := between_waves s;
     selected_tower_type := selected_tower_type s; disk := v |}.

(** The random draws of one frame: the kind of the zombie spawned, the
    power-up dropped by the zombie at a position of the list, if any, and
    whether the power-up at a position of the list is collected. *)
Inductive SpawnChoice := choose_normal | choose_fast | choose_tanky.

Definition kind_of (c : SpawnChoice) : ZombieKind :=
  match c with
  | choose_normal => normal
  | choose_fast => fast
  | choose_tanky => tanky
  end.

Record Oracle := {
  spawn_choice : SpawnChoice;
  drop : nat -> option PowerUpKind;
  collect : nat -> bool
}.

(** How a frame of [game_loop] ends: the loop goes on, the player quits,
    the game is won or lost (with the variables as they are when
    [game_over] is shown, the file written), or an exception escapes. *)
Inductive Step :=
| Running (s : Loop)
| Quit
| GameOver (won : bool) (s : Loop)
| Crashed.

Section Simulation.

(** [toward p q m] stands for [p + (q - p) / |q - p| * m]. *)
Variable toward : Vec -> Vec -> Q -> Vec.

(** [Zombie.update]. *)
Definition Zombie_update (z : Zombie) : Zombie * bool :=
  if (path_index z <? length PATH)%nat then
    let tgt := nth (path_index z) PATH (0, 0) in
    if sq_lt (dist2 tgt (z_pos z)) (speed z)
    then (with_move (path_index z + 1) tgt z, false)
    else (with_move (path_index z) (toward (z_pos z) tgt (speed z)) z, false)
  else (z, true).

(** The area loop of [Bullet.hit] for one zombie of the list. *)
Definition area_hit (r : nat) (center : Vec) (dmg : Z) (h : list Zombie)
    (other : nat) : list Zombie :=
  match deref h other with
  | Some z =>
    if negb (bool_decide (other = r)) && sq_lt (dist2 (z_pos z) center) 50
    then <[other := with_health (health z - dmg / 2) z]> h
    else h
  | None => h
  end.

(** [Bullet.hit]. *)
Definition hit (b : Bullet) (r : nat) (zs : list nat) (h : list Zombie)
  : list Zombie :=
  match deref h r with
  | None => h
  | Some z =>
    let z1 := with_health (health z - b_damage b) z in
    let h1 := <[r := z1]> h in
    match b_type b with
    | aoe => foldl (area_hit r (z_pos z1) (b_damage b)) h1 zs
    | slow => <[r := with_speed (speed z1 * 0.5) z1]> h1
    | _ => h1
    end
  end.

(** [Bullet.update]: whether the bullet is to be removed, the bullet, and
    the zombies afterwards. *)
Definition Bullet_update (zs : list nat) (h : list Zombie) (b : Bullet)
  : bool * Bullet * list Zombie :=
  match deref h (b_target b) with
  | None => (true, b, h)
  | Some z =>
    if negb (alive z) then (true, b, h)
    else if sq_lt (dist2 (z_pos z) (b_pos b)) bullet_speed
    then (true, b, hit b (b_target b) zs h)
    else (false,
          {| b_pos := toward (b_pos b) (z_pos z) bullet_speed;
             b_target := b_target b; b_damage := b_damage b;
             b_type := b_type b |}, h)
  end.

(** The search of [Tower.find_target]: [closest] and [min_dist] (squared;
    [None] is [float('inf')]). *)
Definition closer (h : list Zombie) (pos : Vec) (rng : Z)
    (acc : option nat * option Q) (r : nat) : option nat * option Q :=
  match deref h r with
  | None => acc
  | Some z =>
    let d2 := dist2 (z_pos z) pos in
    if sq_lt d2 (inject_Z rng) &&
       match snd acc with None => true | Some m => Qltb d2 m end
    then (Some r, Some d2)
    else acc
  end.

(** [Tower.find_target]. *)
Definition find_target (h : list Zombie) (zs : list nat) (t : Tower) : Tower :=
  with_target
    (fst (foldl (closer h (vec_of (t_pos t)) (range t)) (None, None) zs)) t.

(** [Tower.shoot]: the tower and the bullet appended, if any. *)
Definition shoot (t : Tower) : Tower * option Bullet :=
  match target t with
  | Some r =>
    (with_cooldown (fire_rate t) t,
     Some {| b_pos := vec_of (t_pos t); b_target := r;
             b_damage := damage t; b_type := t_type t |})
  | None => (t, None)
  end.

(** The body of the tower loop of [game_loop]: lines 536 to 541. *)
Definition tower_step (h : list Zombie) (zs : list nat) (t0 : Tower)
  : Tower * option Bullet :=
  let t := find_target h zs t0 in
  if (0 <? cooldown t)%Z then (with_cooldown (cooldown t - 1) t, None)
  else shoot t.

(** ** Events *)

Inductive Event :=
| Escape
| Pause (quit : bool)
| Space
| Mouse (pos : Z * Z).

Definition tower_buttons : list (TowerKind * Rect) :=
  [(basic, {| r_left := 10; r_top := SCREEN_HEIGHT - 50; r_width := 100;
              r_height := 40 |});
   (sniper, {| r_left := 120; r_top := SCREEN_HEIGHT - 50; r_width := 100;
               r_height := 40 |});
   (aoe, {| r_left := 230; r_top := SCREEN_HEIGHT - 50; r_width := 100;
            r_height := 40 |});
   (slow, {| r_left := 340; r_top := SCREEN_HEIGHT - 50; r_width := 100;
             r_height := 40 |})].

(** The button clicked, if any: the loop with [break] of lines 461 to 464. *)
Fixpoint clicked_button (pos : Z * Z) (bs : list (TowerKind * Rect))
  : option TowerKind :=
  match bs with
  | [] => None
  | (k, r) :: bs' =>
    if Rect_collidepoint r pos then Some k else clicked_button pos bs'
  end.

(** The test of lines 470 to 475: the position is closer than half the path
    width to an end of some segment. *)
Definition on_path (pos : Z * Z) : bool :=
  existsb
    (fun seg =>
       sq_lt (dist2 (vec_of pos) (fst seg)) (inject_Z PATH_WIDTH / 2) ||
       sq_lt (dist2 (vec_of pos) (snd seg)) (inject_Z PATH_WIDTH / 2))
    (segments PATH).

(** The tower under the click, if any: the loop of lines 482 to 488. *)
Fixpoint tower_under (pos : Z * Z) (idx : nat) (ts : list Tower)
  : option (nat * Tower) :=
  match ts with
  | [] => None
  | t :: ts' =>
    if sq_lt (dist2 (vec_of pos) (vec_of (t_pos t))) (inject_Z size)
    then Some (idx, t)
    else tower_under pos (S idx) ts'
  end.

(** The mouse branch of the event loop: lines 458 to 491. *)
Definition handle_mouse (pos : Z * Z) (s0 : Loop) : Loop :=
  let s :=
    match clicked_button pos tower_buttons with
    | Some k => set_selected_tower_type (Some k) s0
    | None => s0
    end in
  let s :=
    match selected_tower_type s with
    | Some k =>
      if (snd pos <? SCREEN_HEIGHT - 60)%Z then
        let c := cost (Tower_init (0, 0)%Z k) in
        if (c <=? coins s)%Z then
          if negb (on_path pos) then
            set_selected_tower_type None
              (set_coins (coins s - c)
                 (set_towers (towers s ++ [Tower_init pos k]) s))
          else s
        else s
      else s
    | None => s
    end in
  match tower_under pos 0 (towers s) with
  | Some (idx, selected_tower) =>
    let upgrade_button :=
      {| r_left := fst pos; r_top := snd pos + 30; r_width := 100;
         r_height := 40 |} in
    if Rect_collidepoint upgrade_button pos &&
       (upgrade_cost selected_tower <=? coins s)%Z
    then set_towers (<[idx := upgrade selected_tower]> (towers s))
           (set_coins (coins s - upgrade_cost selected_tower) s)
    else s
  | None => s
  end.

(** One event of the event loop. *)
Definition handle_event (e : Event) (s : Loop) : Step :=
  match e with
  | Escape => Quit
  | Pause quit => if quit then Quit else Running s
  | Space =>
    if between_waves s then
      Running
        (set_spawn_interval (Z.max 30 (60 - wave s * 2))
           (set_zombies_to_spawn (wave s * 5 + 5)
              (set_spawning true (set_between_waves false s))))
    else Running s
  | Mouse pos => Running (handle_mouse pos s)
  end.

Fixpoint handle_events (es : list Event) (s : Loop) : Step :=
  match es with
  | [] => Running s
  | e :: es' =>
    match handle_event e s with
    | Running s' => handle_events es' s'
    | r => r
    end
  end.

(** ** The update of a frame *)

(** The end of a game: [save_high_score(score)], then the game over screen
    and the return to the menu. *)
Definition end_game (won : bool) (s : Loop) : Step :=
  match save_high_score (score s) (disk s) with
  | Some f => GameOver won (set_disk f s)
  | None => Crashed
  end.

(** The spawn block: lines 494 to 511. *)
Definition spawn_phase (o : Oracle) (s0 : Loop) : Step :=
  if spawning s0 then
    let s := set_spawn_timer (spawn_timer s0 + 1) s0 in
    let s :=
      if (spawn_interval s <=? spawn_timer s)%Z && (0 <? zombies_to_spawn s)%Z
      then
        let zombie_type :=
          if (wave s mod 5 =? 0)%Z && (zombies_to_spawn s =? 1)%Z then boss
          else kind_of (spawn_choice o) in
        let s := set_zombies (zombies s ++ [length (heap s)]) s in
        let s := set_heap (heap s ++ [Zombie_init zombie_type]) s in
        let s := set_zombies_to_spawn (zombies_to_spawn s - 1) s in
        set_spawn_timer 0 s
      else s in
    if (zombies_to_spawn s <=? 0)%Z &&
       match zombies s with [] => true | _ => false end
    then
      let s := set_spawning false s in
      let s := set_between_waves true s in
      let s := set_wave (wave s + 1) s in
      let s := set_score (score s + 100 * (wave s - 1)) s in
      if (MAX_WAVES <? wave s)%Z then end_game true s else Running s
    else Running s
  else Running s0.

(** The zombie loop and the removals after it: lines 514 to 533.  [i] is
    the position in the list, [to_remove] the list built so far. *)
Fixpoint zombies_phase (o : Oracle) (i : nat) (l : list nat)
    (to_remove : list nat) (s : Loop) : Step :=
  match l with
  | [] =>
    Running (set_zombies (foldl (fun zs r => list_remove r zs) (zombies s)
                            to_remove) s)
  | r :: l' =>
    match deref (heap s) r with
    | None => zombies_phase o (S i) l' to_remove s
    | Some z =>
      if negb (alive z) then
        let s := set_coins (coins s + 20) s in
        let s := set_score (score s + 10) s in
        let s :=
          match drop o i with
          | Some pu => set_power_ups (power_ups s ++ [pu]) s
          | None => s
          end in
        zombies_phase o (S i) l' (to_remove ++ [r]) s
      else
        let '(z', reached_end) := Zombie_update z in
        let s := set_heap (<[r := z']> (heap s)) s in
        if reached_end then
          let s :=
            set_lives
              (lives s - match z_type z with boss => 5 | _ => 1 end) s in
          if (lives s <=? 0)%Z then end_game false s
          else zombies_phase o (S i) l' (to_remove ++ [r]) s
        else zombies_phase o (S i) l' to_remove s
    end
  end.

(** The tower loop: lines 536 to 541. *)
Definition towers_phase (s : Loop) : Loop :=
  let r :=
    foldl
      (fun acc t =>
         let '(t', shot) := tower_step (heap s) (zombies s) t in
         (fst acc ++ [t'],
          match shot with Some b => snd acc ++ [b] | None => snd acc end))
      ([], bullets s) (towers s) in
  set_bullets (snd r) (set_towers (fst r) s).

(** The bullet loop: lines 544 to 549. *)
Definition bullets_phase (s : Loop) : Loop :=
  let r :=
    foldl
      (fun acc b =>
         let '(gone, b', h') := Bullet_update (zombies s) (fst acc) b in
         (h', if gone then snd acc else snd acc ++ [b']))
      (heap s, []) (bullets s) in
  set_bullets (snd r) (set_heap (fst r) s).

(** The power-up loop: lines 552 to 562. *)
Fixpoint power_ups_phase (o : Oracle) (i : nat) (pus kept : list PowerUpKind)
    (s : Loop) : Loop :=
  match pus with
  | [] => set_power_ups kept s
  | pu :: pus' =>
    if collect o i then
      let s :=
        match pu with
        | coin => set_coins (coins s + 50) s
        | extra_health => set_lives (Z.min START_LIVES (lives s + 5)) s
        end in
      power_ups_phase o (S i) pus' kept s
    else power_ups_phase o (S i) pus' (kept ++ [pu]) s
  end.

(** One turn of the [while] loop of [game_loop]. *)
Definition frame (o : Oracle) (es : list Event) (s : Loop) : Step :=
  match handle_events es s with
  | Running s =>
    match spawn_phase o s with
    | Running s =>
      match zombies_phase o 0 (zombies s) [] s with
      | Running s =>
        let s := towers_phase s in
        let s := bullets_phase s in
        Running (power_ups_phase o 0 (power_ups s) [] s)
      | r => r
      end
    | r => r
    end
  | r => r
  end.

(** The variables at the start of [game_loop], for a given high score file. *)
Definition game_start (f : HighScoreFile) : Loop :=
  {| lives := START_LIVES; coins := START_COINS; score := 0; wave := 1;
     heap := []; zombies := []; bullets := []; towers := []; power_ups := [];
     spawning := false; zombies_to_spawn := 0; spawn_timer := 0;
     spawn_interval := 60; between_waves := true;
     selected_tower_type := None; disk := f |}.

(** The loop states a game goes through. *)
Inductive reachable : Loop -> Prop :=
| reachable_start f : reachable (game_start f)
| reachable_frame s o es s' :
    reachable s -> frame o es s = Running s' -> reachable s'.

(** ** The high score file *)


(** ** Upgrades *)

Lemma upgrade_stats t :
  (damage t < damage (upgrade t))%Z /\ (range t < range (upgrade t))%Z /\
  (upgrade_cost t < upgrade_cost (upgrade t))%Z /\
  (10 <= fire_rate (upgrade t))%Z /\
  ((10 <= fire_rate t)%Z -> (fire_rate (upgrade t) <= fire_rate t)%Z).
Proof. simpl. lia. Qed.

(** However often a tower is upgraded, the frames between its shots stay
    at 10 or more. *)
Lemma fire_rate_floor n t :
  (10 <= fire_rate t)%Z -> (10 <= fire_rate (Nat.iter n upgrade t))%Z.
Proof. intros Ht. destruct n as [|n]; simpl; lia. Qed.

(** ** Towers *)

(** What holds of every tower of a game. *)
Definition tower_ok (t : Tower) : Prop :=
  (0 <= cooldown t)%Z /\ (10 <= fire_rate t)%Z.

Lemma Tower_init_cooldown_ok pos k : tower_ok (Tower_init pos k).
Proof. unfold tower_ok. destruct k; simpl; lia. Qed.

Lemma upgrade_cooldown_ok t : tower_ok t -> tower_ok (upgrade t).
Proof. unfold tower_ok. simpl. lia. Qed.

(** An active zombie strictly closer than the range. *)
Definition in_range (h : list Zombie) (zs : list nat) (t : Tower) (r : nat)
  : Prop :=
  r ∈ zs /\
  exists z, deref h r = Some z /\
    sq_lt (dist2 (z_pos z) (vec_of (t_pos t))) (inject_Z (range t)) = true.

Lemma closer_fold_sound h t all zs :
  (forall r, r ∈ zs -> r ∈ all) ->
  forall acc,
    (forall r0, fst acc = Some r0 -> in_range h all t r0) ->
    forall r0,
      fst (foldl (closer h (vec_of (t_pos t)) (range t)) acc zs) = Some r0 ->
      in_range h all t r0.
Proof.
  induction zs as [|r zs IH]; intros Hsub acc Hacc r0; simpl; [auto|].
  apply IH.
  - intros r1 Hr1. apply Hsub, elem_of_cons. auto.
  - intros r1. unfold closer. destruct (deref h r) as [z|] eqn:Hr; [|auto].
    destruct (sq_lt _ _) eqn:Hin; simpl; [|auto].
    destruct (match snd acc with Some m => _ | None => true end); [|auto].
    simpl. intros [= <-]. split; [apply Hsub, elem_of_cons; auto | eauto].
Qed.

Lemma find_target_in_range h zs t r :
  target (find_target h zs t) = Some r -> in_range h zs t r.
Proof.
  unfold find_target. simpl. apply closer_fold_sound; [auto|].
  simpl. discriminate.
Qed.

(** The tower loop keeps the cooldown from going below zero, and a tower
    shoots only with a cooldown of zero or less at a zombie in range; the
    cooldown is then the tower's [fire_rate], its frames between shots. *)
Lemma tower_step_spec h zs t :
  tower_ok t ->
  tower_ok (fst (tower_step h zs t)) /\
  forall b, snd (tower_step h zs t) = Some b ->
    cooldown t = 0%Z /\
    in_range h zs t (b_target b) /\
    b_damage b = damage t /\
    cooldown (fst (tower_step h zs t)) = fire_rate t.
Proof.
  intros [Hc Hf]. unfold tower_step.
  change (cooldown (find_target h zs t)) with (cooldown t).
  destruct (Z.ltb_spec 0 (cooldown t)) as [Hpos|Hzero]; simpl.
  - split; [unfold tower_ok; simpl; lia | discriminate].
  - unfold shoot.
    destruct (target (find_target h zs t)) as [r|] eqn:Ht; simpl.
    + split; [unfold tower_ok; simpl; lia|].
      intros b [= <-]. simpl. split_and!; [lia | | done | done].
      by apply find_target_in_range.
    + split; [done | discriminate].
Qed.

(** ** Bullets *)


(** Zombies without health are marked as not alive. *)
Definition dead_marked (z : Zombie) : Prop :=
  (health z <= 0)%Z -> alive z = false.

Lemma dead_marked_with_health hp z : dead_marked (with_health hp z).
Proof. unfold dead_marked. simpl. intros H. by destruct (Z.leb_spec hp 0); [|lia]. Qed.

Lemma dead_marked_Zombie_init k : dead_marked (Zombie_init k).
Proof. unfold dead_marked. destruct k; simpl; lia. Qed.

Lemma dead_marked_Zombie_update z :
  dead_marked z -> dead_marked (fst (Zombie_update z)).
Proof.
  unfold Zombie_update, dead_marked. repeat case_match; simpl; auto.
Qed.

(** Whether a zombie stands strictly closer than 50 to [center]. *)
Definition near (center : Vec) (z : Zombie) : bool :=
  sq_lt (dist2 (z_pos z) center) 50.

Definition halved (dmg : Z) (z : Zombie) : Zombie :=
  with_health (health z - dmg / 2) z.

Lemma area_hit_lookup r center dmg h other r' :
  deref (area_hit r center dmg h other) r'
  = (fun z => if decide (other = r') then
                if negb (bool_decide (r' = r)) && near center z
                then halved dmg z else z
              else z) <$> deref h r'.
Proof.
  unfold area_hit, deref. destruct (h !! other) as [z|] eqn:Ho.
  - fold (near center z).
    destruct (decide (other = r')) as [<-|Hne].
    + rewrite Ho. simpl.
      destruct (negb (bool_decide (other = r)) && near center z); [|done].
      by rewrite list_lookup_insert_eq by (by eapply lookup_lt_Some).
    + destruct (negb (bool_decide (other = r)) && near center z).
      * by rewrite list_lookup_insert_ne; [destruct (h !! r')|].
      * by destruct (h !! r').
  - destruct (decide (other = r')) as [<-|Hne].
    + by rewrite Ho.
    + by destruct (h !! r').
Qed.

Lemma area_loop_lookup r center dmg zs :
  NoDup zs ->
  forall h r',
    deref (foldl (area_hit r center dmg) h zs) r'
    = (fun z => if bool_decide (r' ∈ zs) && negb (bool_decide (r' = r)) &&
                   near center z
                then halved dmg z else z) <$> deref h r'.
Proof.
  induction 1 as [|o zs Ho Hnd IH]; intros h r'; simpl.
  - by destruct (deref h r').
  - rewrite IH, area_hit_lookup. destruct (deref h r') as [z|]; [|done]. simpl.
    f_equal. destruct (decide (o = r')) as [<-|Hne].
    + rewrite (bool_decide_eq_false_2 (o ∈ zs)) by done.
      rewrite (bool_decide_eq_true_2 (o ∈ o :: zs))
        by (apply elem_of_cons; auto).
      simpl. by destruct (negb (bool_decide (o = r)) && near center z).
    + rewrite (bool_decide_ext (r' ∈ o :: zs) (r' ∈ zs))
        by (rewrite elem_of_cons; split; [intros [?|?]; congruence | auto]).
      done.
Qed.

(** What [Bullet.hit] does to the target ... *)
Definition primary_hit (b : Bullet) (z : Zombie) : Zombie :=
  let z1 := with_health (health z - b_damage b) z in
  match b_type b with
  | slow => with_speed (speed z1 * 0.5) z1
  | _ => z1
  end.

(** ... and to the zombie behind every reference. *)
Lemma hit_lookup b r zs h z :
  NoDup zs -> deref h r = Some z ->
  forall r',
    deref (hit b r zs h) r'
    = (fun z' =>
         if decide (r' = r) then primary_hit b z'
         else
           match b_type b with
           | aoe =>
             if bool_decide (r' ∈ zs) && near (z_pos z) z'
             then halved (b_damage b) z' else z'
           | _ => z'
           end) <$> deref h r'.
Proof.
  intros Hnd Hr r'. unfold hit, primary_hit. rewrite Hr.
  assert (Hlen : (r < length h)%nat) by (by eapply lookup_lt_Some).
  destruct (b_type b); simpl.
  - unfold deref in *. destruct (decide (r' = r)) as [->|Hne].
    + rewrite list_lookup_insert_eq by done. by rewrite Hr.
    + rewrite list_lookup_insert_ne by done. by destruct (h !! r').
  - unfold deref in *. destruct (decide (r' = r)) as [->|Hne].
    + rewrite list_lookup_insert_eq by done. by rewrite Hr.
    + rewrite list_lookup_insert_ne by done. by destruct (h !! r').
  - rewrite area_loop_lookup by done. unfold deref in *.
    destruct (decide (r' = r)) as [->|Hne].
    + rewrite list_lookup_insert_eq by done. rewrite Hr. simpl.
      rewrite (bool_decide_eq_true_2 (r = r)) by done.
      by rewrite andb_false_r.
    + rewrite list_lookup_insert_ne by done.
      destruct (h !! r'); [|done]. simpl.
      rewrite (bool_decide_eq_false_2 (r' = r)) by done.
      by rewrite andb_true_r.
  - unfold deref in *. destruct (decide (r' = r)) as [->|Hne].
    + rewrite list_lookup_insert_eq
        by (by rewrite length_insert).
      by rewrite Hr.
    + rewrite !list_lookup_insert_ne by done. by destruct (h !! r').
Qed.

(** ** Invariants of the loop *)

(** No debt, dead zombies marked as such, towers with a cooldown that is
    not negative. *)
Definition loop_ok (s : Loop) : Prop :=
  (0 <= coins s)%Z /\ Forall dead_marked (heap s) /\ Forall tower_ok (towers s).

(** A property of the variables a frame leaves, if it leaves any. *)
Definition after (P : Loop -> Prop) (r : Step) : Prop :=
  match r with
  | Running s | GameOver _ s => P s
  | Quit | Crashed => True
  end.

Lemma loop_ok_game_start f : loop_ok (game_start f).
Proof. unfold loop_ok, game_start, START_COINS. simpl. split_and!; [lia|done|done]. Qed.

Lemma tower_under_lookup pos idx ts i t :
  tower_under pos idx ts = Some (i, t) ->
  (idx <= i)%nat /\ ts !! (i - idx)%nat = Some t.
Proof.
  revert idx. induction ts as [|t0 ts IH]; intros idx; simpl; [done|].
  destruct (sq_lt _ _).
  - intros [= <- <-]. split; [lia|]. by rewrite Nat.sub_diag.
  - intros H. apply IH in H as [Hle Hl]. split; [lia|].
    replace (i - idx)%nat with (S (i - S idx)) by lia. done.
Qed.

Lemma loop_ok_handle_mouse pos s : loop_ok s -> loop_ok (handle_mouse pos s).
Proof.
  intros Hs. unfold handle_mouse.
  set (s1 := match clicked_button pos tower_buttons with
             | Some k => set_selected_tower_type (Some k) s
             | None => s
             end).
  assert (H1 : loop_ok s1) by (subst s1; by destruct (clicked_button _ _)).
  clearbody s1.
  set (s2 := match selected_tower_type s1 with Some k => _ | None => s1 end).
  assert (H2 : loop_ok s2).
  { subst s2. destruct (selected_tower_type s1) as [k|]; [|done].
    destruct (_ <? _)%Z; [|done].
    destruct (Z.leb_spec (cost (Tower_init (0, 0)%Z k)) (coins s1)); [|done].
    destruct (negb (on_path pos)); [|done].
    destruct H1 as (Hc & Hh & Ht). unfold loop_ok. simpl.
    split_and!; [lia | done |].
    apply Forall_app. split; [done|]. apply Forall_singleton, Tower_init_cooldown_ok. }
  clearbody s2.
  destruct (tower_under pos 0 (towers s2)) as [[idx t]|] eqn:Hu; [|done].
  destruct (Rect_collidepoint _ _); simpl; [|done].
  destruct (Z.leb_spec (upgrade_cost t) (coins s2)); [|done].
  destruct H2 as (Hc & Hh & Ht). unfold loop_ok. simpl.
  split_and!; [lia | done |]. apply Forall_insert; [done|].
  apply upgrade_cooldown_ok. apply tower_under_lookup in Hu as [_ Hu].
  eapply (Forall_lookup_1 tower_ok); eauto.
Qed.

Lemma loop_ok_handle_events es s :
  loop_ok s -> after loop_ok (handle_events es s).
Proof.
  revert s. induction es as [|e es IH]; intros s Hs; simpl; [done|].
  destruct e as [|q| |pos]; simpl; try done.
  - destruct q; simpl; [done|]. by apply IH.
  - destruct (between_waves s); by apply IH.
  - apply IH. by apply loop_ok_handle_mouse.
Qed.

Lemma after_end_game P won s :
  (forall f, P (set_disk f s)) -> after P (end_game won s).
Proof.
  intros H. unfold end_game. destruct (save_high_score _ _); simpl; auto.
Qed.

Lemma loop_ok_spawn_phase o s : loop_ok s -> after loop_ok (spawn_phase o s).
Proof.
  intros (Hc & Hh & Ht). unfold spawn_phase.
  destruct (spawning s); [|done].
  set (s1 := if (_ <=? _)%Z && (0 <? _)%Z then _ else _).
  assert (H1 : loop_ok s1).
  { subst s1. destruct (_ && _); [|done]. unfold loop_ok. simpl.
    split_and!; [done | | done]. apply Forall_app. split; [done|].
    apply Forall_singleton, dead_marked_Zombie_init. }
  clearbody s1. destruct (_ && _); [|done].
  destruct (_ <? _)%Z; [|done].
  by apply after_end_game.
Qed.

Lemma loop_ok_zombies_phase o l :
  forall i to_remove s,
    loop_ok s -> after loop_ok (zombies_phase o i l to_remove s).
Proof.
  induction l as [|r l IH]; intros i to_remove s Hs; simpl; [done|].
  destruct (deref (heap s) r) as [z|] eqn:Hr; [|by apply IH].
  destruct Hs as (Hc & Hh & Ht).
  destruct (negb (alive z)).
  - apply IH. unfold loop_ok. destruct (drop o i); simpl;
      (split_and!; [lia | done | done]).
  - pose proof (dead_marked_Zombie_update z) as Hz.
    destruct (Zombie_update z) as [z' reached]. simpl in Hz.
    assert (Hh' : Forall dead_marked (<[r:=z']> (heap s))).
    { apply Forall_insert; [done|]. apply Hz.
      eapply (Forall_lookup_1 dead_marked); eauto. }
    destruct reached.
    + destruct (_ <=? _)%Z.
      * by apply after_end_game.
      * by apply IH.
    + by apply IH.
Qed.

Lemma loop_ok_towers_phase s : loop_ok s -> loop_ok (towers_phase s).
Proof.
  intros (Hc & Hh & Ht). unfold towers_phase, loop_ok. simpl.
  split_and!; [done | done |].
  assert (Hgen : forall ts acc bs,
    Forall tower_ok acc -> Forall tower_ok ts ->
    Forall tower_ok
      (fst (foldl
              (fun acc t =>
                 let '(t', shot) := tower_step (heap s) (zombies s) t in
                 (fst acc ++ [t'],
                  match shot with
                  | Some b => snd acc ++ [b]
                  | None => snd acc
                  end)) (acc, bs) ts))).
  { induction ts as [|t ts IH]; intros acc bs Hacc Hts; simpl; [done|].
    inversion Hts as [|? ? Hok Hrest]; subst.
    pose proof (tower_step_spec (heap s) (zombies s) t Hok) as [Hok' _].
    destruct (tower_step (heap s) (zombies s) t) as [t' shot]. simpl in *.
    apply IH; [|done]. apply Forall_app. split; [done|].
    by apply Forall_singleton. }
  by apply Hgen.
Qed.

Lemma dead_marked_hit b r zs h :
  Forall dead_marked h -> Forall dead_marked (hit b r zs h).
Proof.
  intros Hh. unfold hit. destruct (deref h r) as [z|]; [|done].
  assert (H1 : Forall dead_marked
                 (<[r:=with_health (health z - b_damage b) z]> h))
    by (apply Forall_insert; [done | apply dead_marked_with_health]).
  destruct (b_type b); try done.
  - apply (foldl_invariant _ (Forall dead_marked)); [|done].
    intros a other Ha. unfold area_hit.
    destruct (deref a other) as [z'|]; [|done].
    destruct (_ && _); [|done].
    apply Forall_insert; [done | apply dead_marked_with_health].
  - apply Forall_insert; [done|].
    apply (dead_marked_with_health (health z - b_damage b) z).
Qed.

Lemma loop_ok_bullets_phase s : loop_ok s -> loop_ok (bullets_phase s).
Proof.
  intros (Hc & Hh & Ht). unfold bullets_phase, loop_ok. simpl.
  split_and!; [done | | done].
  apply (foldl_invariant _ (fun acc => Forall dead_marked (fst acc))); [|done].
  intros [h kept] b Ha. simpl in *. unfold Bullet_update.
  destruct (deref h (b_target b)) as [z|]; [|done].
  destruct (negb (alive z)); [done|].
  destruct (sq_lt _ _); simpl; [|done]. by apply dead_marked_hit.
Qed.

Lemma loop_ok_power_ups_phase o pus :
  forall i kept s, loop_ok s -> loop_ok (power_ups_phase o i pus kept s).
Proof.
  induction pus as [|pu pus IH]; intros i kept s Hs; simpl; [done|].
  destruct (collect o i); [|by apply IH].
  apply IH. destruct Hs as (Hc & Hh & Ht).
  destruct pu; unfold loop_ok; simpl; (split_and!; [lia | done | done]).
Qed.

Lemma loop_ok_frame o es s : loop_ok s -> after loop_ok (frame o es s).
Proof.
  intros Hs. unfold frame.
  pose proof (loop_ok_handle_events es s Hs) as H1.
  destruct (handle_events es s) as [s1| |won s1|]; try done.
  pose proof (loop_ok_spawn_phase o s1 H1) as H2.
  destruct (spawn_phase o s1) as [s2| |won s2|]; try done.
  pose proof (loop_ok_zombies_phase o (zombies s2) 0 [] s2 H2) as H3.
  destruct (zombies_phase o 0 (zombies s2) [] s2) as [s3| |won s3|];
    try done.
  simpl. by apply loop_ok_power_ups_phase, loop_ok_bullets_phase,
    loop_ok_towers_phase.
Qed.

(** Every state of a game satisfies the invariants; in particular the
    coins never go below zero. *)
Lemma reachable_loop_ok s : reachable s -> loop_ok s.
Proof.
  induction 1 as [f|s o es s' _ IH Hf].
  - apply loop_ok_game_start.
  - pose proof (loop_ok_frame o es s IH) as H. by rewrite Hf in H.
Qed.

(** ** Win and loss *)




End Simulation.

End ZombiePy.

(** * The claims of the specification

    Each claim is settled on both prototypes where both have the notion it
    speaks of. *)

(** A stand-in for the partial step towards a point, for the examples
    below; none of the facts shown depends on it. *)
Definition straight_to (p q : Vec) (m : Q) : Vec := q.

(** A walker of [zombie_tower_defense.py] standing at a given point. *)
Definition walker_at (x y : Z) : ZombieTowerDefense.Zombie :=
  ZombieTowerDefense.with_move 0 (vec_of (x, y))
    (ZombieTowerDefense.Zombie_init ZombieTowerDefense.PATH
       ZombieTowerDefense.walker).

(** A zombie of [zombie.py] with a given health standing at a given point. *)
Definition normal_at (hp x y : Z) : ZombiePy.Zombie :=
  ZombiePy.with_health hp
    (ZombiePy.with_move 1 (vec_of (x, y)) (ZombiePy.Zombie_init ZombiePy.normal)).



(** C4: the cooldown of a tower is never negative: it is zero when the
    tower is created, upgrades leave it alone, and every [Tower.update]
    leaves it at zero or more.  A tower fires only when its cooldown, cut
    off at zero, is zero and its target is an active zombie within range;
    right after firing the cooldown is exactly [1 / rate] for the rate of
    the tower's level.  In [zombie.py] the same holds frame by frame, the
    cooldown after a shot being the attribute [fire_rate], which there
    holds the frames between two shots. *)
Theorem tower_cooldown_contract :
  (forall tt pos,
     In tt ZombieTowerDefense.TOWER_TYPES ->
     ZombieTowerDefense.tower_ok (ZombieTowerDefense.Tower_init tt pos)) /\
  (forall t,
     ZombieTowerDefense.tower_ok t ->
     ZombieTowerDefense.tower_ok (ZombieTowerDefense.upgrade t)) /\
  (forall dt h zs t,
     ZombieTowerDefense.tower_ok t ->
     let r := ZombieTowerDefense.Tower_update dt h zs t in
     ZombieTowerDefense.tower_ok (fst r) /\
     0 <= ZombieTowerDefense.cooldown (fst r) /\
     forall p, snd r = Some p ->
       Qmax 0 (ZombieTowerDefense.cooldown t - dt) == 0 /\
       (exists z, ZombieTowerDefense.target p = Some z /\
          ZombieTowerDefense.in_range h zs (ZombieTowerDefense.t_position t)
            (ZombieTowerDefense.range_of t) z) /\
       ZombieTowerDefense.cooldown (fst r)
         = 1 / ZombieTowerDefense.rate_of t) /\
  (forall pos k, ZombiePy.tower_ok (ZombiePy.Tower_init pos k)) /\
  (forall t, ZombiePy.tower_ok t -> ZombiePy.tower_ok (ZombiePy.upgrade t)) /\
  (forall h zs t,
     ZombiePy.tower_ok t ->
     let r := ZombiePy.tower_step h zs t in
     ZombiePy.tower_ok (fst r) /\
     (0 <= ZombiePy.cooldown (fst r))%Z /\
     forall b, snd r = Some b ->
       ZombiePy.cooldown t = 0%Z /\
       ZombiePy.in_range h zs t (ZombiePy.b_target b) /\
       ZombiePy.cooldown (fst r) = ZombiePy.fire_rate t).
Proof.
  split_and!.
  - apply ZombieTowerDefense.Tower_init_ok.
  - apply ZombieTowerDefense.upgrade_ok.
  - intros dt h zs t Hok. simpl.
    pose proof (ZombieTowerDefense.Tower_update_ok dt h zs t Hok) as Hok'.
    destruct Hok as (Htt & Hl & _).
    destruct (ZombieTowerDefense.Tower_update_spec dt h zs t Htt Hl)
      as (Hc & _ & _ & Hfire).
    split_and!; [done | done |]. intros p Hp.
    destruct (Hfire p Hp) as (H0 & Htgt & Hcd). done.
  - apply ZombiePy.Tower_init_cooldown_ok.
  - apply ZombiePy.upgrade_cooldown_ok.
  - intros h zs t Hok. simpl.
    destruct (ZombiePy.tower_step_spec h zs t Hok) as [Hok' Hfire].
    split_and!; [done | apply Hok' |]. intros b Hb.
    destruct (Hfire b Hb) as (H0 & Hin & _ & Hcd). done.
Qed.

(** A fresh rifle tower with a walker 50 away fires in its first frame and
    then waits [1 / 1.5] seconds; a fresh basic tower of [zombie.py] does
    the same and waits 60 frames. *)
Lemma tower_cooldown_witness :
  let t := ZombieTowerDefense.Tower_init ZombieTowerDefense.Rifle (150, 100)%Z in
  let r := ZombieTowerDefense.Tower_update 0.016 [walker_at 100 100] [0%nat] t in
  (is_Some (snd r) /\
   ZombieTowerDefense.cooldown (fst r) = 1 / ZombieTowerDefense.rate_of t /\
   1 / ZombieTowerDefense.rate_of t == 2 # 3) /\
  let t' := ZombiePy.Tower_init (150, 300)%Z ZombiePy.basic in
  let r' := ZombiePy.tower_step [normal_at 50 100 300] [0%nat] t' in
  is_Some (snd r') /\ ZombiePy.cooldown (fst r') = 60%Z.
Proof.
  destruct tower_cooldown_contract as (HiB & _ & HuB & HiA & _ & HuA).
  split.
  - pose proof (HuB 0.016 [walker_at 100 100] [0%nat] _
                  (HiB ZombieTowerDefense.Rifle (150, 100)%Z
                     ltac:(simpl; auto))) as (_ & _ & Hfire).
    split; [by eexists|]. split; [|reflexivity].
    eapply Hfire. reflexivity.
  - pose proof (HuA [normal_at 50 100 300] [0%nat] _
                  (HiA (150, 300)%Z ZombiePy.basic)) as (_ & _ & Hfire).
    split; [by eexists|]. eapply Hfire. reflexivity.
Defined.

(** C7 as the specification states it, for [zombie_tower_defense.py]: the
    interval a tower waits after a shot stays at or above one positive
    floor at every level. *)
Definition fire_interval_has_floor : Prop :=
  exists floor, 0 < floor /\
    forall t,
      In (ZombieTowerDefense.tower_type t) ZombieTowerDefense.TOWER_TYPES ->
      (1 <= ZombieTowerDefense.level t)%Z ->
      floor <= ZombieTowerDefense.fire_interval t.

(** There is no such floor: the rate grows by 0.2 with every level, without
    a cap, so the interval [1 / rate] gets as small as one likes. *)
Lemma fire_interval_has_no_floor : ~ fire_interval_has_floor.
Proof.
  intros (floor & Hpos & Hfloor).
  destruct (ZombieTowerDefense.fire_interval_no_floor
              ZombieTowerDefense.Rifle (0, 0) 0 floor Hpos) as (l & Hl & Hlt).
  match type of Hlt with ?i < _ =>
    match i with ZombieTowerDefense.fire_interval ?t =>
      pose proof (Hfloor t ltac:(simpl; auto) Hl)
    end
  end.
  lra.
Qed.

(** C7, amended: in [zombie_tower_defense.py] damage, rate and range grow
    strictly with the level, the cost of the next upgrade grows strictly
    with the level for the four tower types, and the interval between shots
    stays positive and shrinks strictly, below any positive bound in the
    end.  In [zombie.py] every upgrade raises damage, range and the cost of
    the next upgrade, and the frames between shots never fall below 10. *)
Theorem upgrades_are_monotone :
  (forall t1 t2,
     In (ZombieTowerDefense.tower_type t1) ZombieTowerDefense.TOWER_TYPES ->
     ZombieTowerDefense.tower_type t1 = ZombieTowerDefense.tower_type t2 ->
     (1 <= ZombieTowerDefense.level t1 < ZombieTowerDefense.level t2)%Z ->
     (ZombieTowerDefense.damage_of t1 < ZombieTowerDefense.damage_of t2)%Z /\
     ZombieTowerDefense.rate_of t1 < ZombieTowerDefense.rate_of t2 /\
     (ZombieTowerDefense.range_of t1 < ZombieTowerDefense.range_of t2)%Z /\
     (0 <= ZombieTowerDefense.upgrade_cost t1
        < ZombieTowerDefense.upgrade_cost t2)%Z /\
     0 < ZombieTowerDefense.fire_interval t2
       < ZombieTowerDefense.fire_interval t1) /\
  (forall tt pos c floor,
     0 < floor ->
     exists l, (1 <= l)%Z /\
       ZombieTowerDefense.fire_interval
         {| ZombieTowerDefense.tower_type := tt;
            ZombieTowerDefense.t_position := pos;
            ZombieTowerDefense.cooldown := c;
            ZombieTowerDefense.level := l |} < floor) /\
  (forall t,
     (ZombiePy.damage t < ZombiePy.damage (ZombiePy.upgrade t))%Z /\
     (ZombiePy.range t < ZombiePy.range (ZombiePy.upgrade t))%Z /\
     (ZombiePy.upgrade_cost t < ZombiePy.upgrade_cost (ZombiePy.upgrade t))%Z /\
     ((10 <= ZombiePy.fire_rate t)%Z ->
      (ZombiePy.fire_rate (ZombiePy.upgrade t) <= ZombiePy.fire_rate t)%Z)) /\
  (forall n pos k,
     (10 <= ZombiePy.fire_rate
              (Nat.iter n ZombiePy.upgrade (ZombiePy.Tower_init pos k)))%Z).
Proof.
  split_and!.
  - intros t1 t2 Hin Htt Hl.
    destruct (ZombieTowerDefense.stats_monotone t1 t2 Htt ltac:(lia))
      as (Hd & Hr & Hg).
    refine (conj Hd (conj Hr (conj Hg (conj _ _)))).
    + apply ZombieTowerDefense.upgrade_cost_monotone; try done.
      by apply ZombieTowerDefense.TOWER_TYPES_cost.
    + by apply ZombieTowerDefense.fire_interval_decreasing.
  - apply ZombieTowerDefense.fire_interval_no_floor.
  - intros t. pose proof (ZombiePy.upgrade_stats t). tauto.
  - intros n pos k. apply ZombiePy.fire_rate_floor.
    destruct k; simpl; lia.
Qed.

(** A frost tower at levels 1 and 2, and the level at which its interval
    is below a hundredth of a second. *)
Lemma upgrades_are_monotone_witness :
  let t1 := ZombieTowerDefense.Tower_init ZombieTowerDefense.Frost (25, 25)%Z in
  let t2 := ZombieTowerDefense.upgrade t1 in
  (ZombieTowerDefense.damage_of t1 < ZombieTowerDefense.damage_of t2)%Z /\
  ZombieTowerDefense.rate_of t1 < ZombieTowerDefense.rate_of t2 /\
  (ZombieTowerDefense.upgrade_cost t1 < ZombieTowerDefense.upgrade_cost t2)%Z /\
  ZombieTowerDefense.fire_interval t2 < ZombieTowerDefense.fire_interval t1 /\
  exists l, (1 <= l)%Z /\
    ZombieTowerDefense.fire_interval
      {| ZombieTowerDefense.tower_type := ZombieTowerDefense.Frost;
         ZombieTowerDefense.t_position := (0, 0);
         ZombieTowerDefense.cooldown := 0;
         ZombieTowerDefense.level := l |} < 0.01.
Proof.
  destruct upgrades_are_monotone as (Hmono & Hfloor & _).
  destruct (Hmono (ZombieTowerDefense.Tower_init ZombieTowerDefense.Frost
                     (25, 25)%Z)
              (ZombieTowerDefense.upgrade
                 (ZombieTowerDefense.Tower_init ZombieTowerDefense.Frost
                    (25, 25)%Z)))
    as (Hd & Hr & _ & Hc & Hi).
  - simpl. auto.
  - reflexivity.
  - simpl. lia.
  - simpl. refine (conj Hd (conj Hr (conj (proj2 Hc) (conj (proj2 Hi) _)))).
    apply Hfloor. reflexivity.
Defined.





(** The scenario of the specification: a splash projectile (damage 30,
    splash radius 60) that has arrived at its target, the first of three
    walkers; the second stands 50 from the impact, the third 80. *)
Definition splash_zombies : list ZombieTowerDefense.Zombie :=
  [walker_at 100 100; walker_at 150 100; walker_at 180 100].

Definition splash_shot : ZombieTowerDefense.Projectile :=
  {| ZombieTowerDefense.p_position := vec_of (100, 100)%Z;
     ZombieTowerDefense.target := Some 0%nat;
     ZombieTowerDefense.p_speed := 320;
     ZombieTowerDefense.damage := 30;
     ZombieTowerDefense.splash_radius := 60;
     ZombieTowerDefense.slow := 0;
     ZombieTowerDefense.slow_duration := 0;
     ZombieTowerDefense.alive := false |}.

(** C1 as the specification states it, for [zombie_tower_defense.py]: a
    zombie other than the target within the splash radius of the impact
    loses half the damage of the projectile. *)
Definition splash_is_halved (zs : list nat) (p : ZombieTowerDefense.Projectile)
    (h : list ZombieTowerDefense.Zombie) : Prop :=
  forall r z,
    r ∈ zs -> ZombieTowerDefense.target p <> Some r ->
    ZombieTowerDefense.deref h r = Some z ->
    ZombieTowerDefense.in_radius (ZombieTowerDefense.p_position p)
      (ZombieTowerDefense.splash_radius p) z = true ->
    exists z',
      ZombieTowerDefense.deref (ZombieTowerDefense.resolve_hit zs p h) r
      = Some z' /\
      ZombieTowerDefense.health z'
      == ZombieTowerDefense.health z
         - inject_Z (ZombieTowerDefense.damage p) / 2.

(** The walker 50 from the impact loses all 30, not 15. *)
Lemma splash_is_not_halved :
  ~ splash_is_halved [0; 1; 2]%nat splash_shot splash_zombies.
Proof.
  intros H.
  destruct (H 1%nat (walker_at 150 100)) as (z' & Hz' & Hh).
  - apply elem_of_cons. right. apply elem_of_cons. by left.
  - discriminate.
  - reflexivity.
  - reflexivity.
  - vm_compute in Hz'. injection Hz' as <-. vm_compute in Hh. discriminate.
Qed.

(** C1, amended: in [zombie_tower_defense.py], when a projectile with a
    positive splash radius resolves its hit on a target that still has
    health, every active zombie at [splash_radius] or less from the impact
    point, the target among them, loses the full damage of the projectile
    once, and every other zombie loses nothing; with radius 60 the walker
    at the impact and the one at 50 lose the full 30 and the one at 80
    loses nothing.  In [zombie.py] the bullet of an "aoe" tower takes its
    full damage from the target and [damage // 2] from every other listed
    zombie strictly closer than 50 to the target, and nothing from the
    rest. *)
Theorem splash_damage :
  (forall zs p h r z,
     NoDup zs ->
     ZombieTowerDefense.target p = Some r ->
     ZombieTowerDefense.deref h r = Some z ->
     0 < ZombieTowerDefense.health z ->
     (0 < ZombieTowerDefense.splash_radius p)%Z ->
     forall r' z',
       ZombieTowerDefense.deref h r' = Some z' ->
       exists z'',
         ZombieTowerDefense.deref (ZombieTowerDefense.resolve_hit zs p h) r'
         = Some z'' /\
         ZombieTowerDefense.position z'' = ZombieTowerDefense.position z' /\
         ZombieTowerDefense.health z''
         = if bool_decide (r' ∈ zs) &&
              ZombieTowerDefense.in_radius (ZombieTowerDefense.p_position p)
                (ZombieTowerDefense.splash_radius p) z'
           then ZombieTowerDefense.health z'
                - inject_Z (ZombieTowerDefense.damage p)
           else ZombieTowerDefense.health z') /\
  (ZombieTowerDefense.health <$>
     ZombieTowerDefense.resolve_hit [0; 1; 2]%nat splash_shot splash_zombies)
  = [90 - 30; 90 - 30; 90] /\
  (forall b r zs h z,
     NoDup zs ->
     ZombiePy.b_type b = ZombiePy.aoe ->
     ZombiePy.deref h r = Some z ->
     forall r' z',
       ZombiePy.deref h r' = Some z' ->
       exists z'',
         ZombiePy.deref (ZombiePy.hit b r zs h) r' = Some z'' /\
         ZombiePy.health z''
         = if decide (r' = r) then (ZombiePy.health z' - ZombiePy.b_damage b)%Z
           else if bool_decide (r' ∈ zs) && ZombiePy.near (ZombiePy.z_pos z) z'
                then (ZombiePy.health z' - ZombiePy.b_damage b / 2)%Z
                else ZombiePy.health z').
Proof.
  split_and!.
  - intros zs p h r z Hnd Ht Hr Hz Hs r' z' Hr'.
    rewrite (ZombieTowerDefense.resolve_hit_lookup zs p h r z Hnd Ht Hr Hz).
    rewrite Hr'. simpl. eexists. split; [reflexivity|].
    apply Z.ltb_lt in Hs. rewrite Hs.
    destruct (decide (r' = r));
      rewrite ?ZombieTowerDefense.health_slowed,
        ?ZombieTowerDefense.position_slowed;
      by destruct (_ && _).
  - reflexivity.
  - intros b r zs h z Hnd Hb Hr r' z' Hr'.
    rewrite (ZombiePy.hit_lookup b r zs h z Hnd Hr). rewrite Hr'. simpl.
    eexists. split; [reflexivity|]. unfold ZombiePy.primary_hit.
    rewrite Hb. destruct (decide (r' = r)); [done|].
    by destruct (_ && _).
Qed.

(** The counterpart of the scenario in [zombie.py]: three zombies of health
    50 at 0, 40 and 50 from the target, and an "aoe" bullet of damage 20. *)
Definition aoe_zombies : list ZombiePy.Zombie :=
  [normal_at 50 100 300; normal_at 50 60 300; normal_at 50 50 300].

Definition aoe_bullet : ZombiePy.Bullet :=
  {| ZombiePy.b_pos := (95, 300); ZombiePy.b_target := 0%nat;
     ZombiePy.b_damage := 20; ZombiePy.b_type := ZombiePy.aoe |}.

(** The scenario of the specification, and its counterpart in [zombie.py]
    with damage 20: the zombie at 40 loses 10, the one at 50 nothing. *)
Lemma splash_damage_witness :
  (exists z'',
     ZombieTowerDefense.deref
       (ZombieTowerDefense.resolve_hit [0; 1; 2]%nat splash_shot splash_zombies)
       1%nat = Some z'' /\
     ZombieTowerDefense.health z'' = 90 - 30) /\
  (exists z'',
     ZombieTowerDefense.deref
       (ZombieTowerDefense.resolve_hit [0; 1; 2]%nat splash_shot splash_zombies)
       2%nat = Some z'' /\
     ZombieTowerDefense.health z'' = 90) /\
  (exists z'',
     ZombiePy.deref (ZombiePy.hit aoe_bullet 0 [0; 1; 2]%nat aoe_zombies) 1%nat
     = Some z'' /\ ZombiePy.health z'' = 40%Z) /\
  (exists z'',
     ZombiePy.deref (ZombiePy.hit aoe_bullet 0 [0; 1; 2]%nat aoe_zombies) 2%nat
     = Some z'' /\ ZombiePy.health z'' = 50%Z).
Proof.
  destruct splash_damage as (HB & _ & HA).
  assert (Hnd : NoDup [0; 1; 2]%nat).
  { repeat constructor; rewrite ?elem_of_cons, ?elem_of_nil; lia. }
  split_and!.
  - destruct (HB [0; 1; 2]%nat splash_shot splash_zombies 0%nat
                (walker_at 100 100) Hnd eq_refl eq_refl
                ltac:(vm_compute; reflexivity) ltac:(vm_compute; reflexivity)
                1%nat (walker_at 150 100) eq_refl) as (z'' & Hz & _ & Hh).
    exists z''. split; [exact Hz | exact Hh].
  - destruct (HB [0; 1; 2]%nat splash_shot splash_zombies 0%nat
                (walker_at 100 100) Hnd eq_refl eq_refl
                ltac:(vm_compute; reflexivity) ltac:(vm_compute; reflexivity)
                2%nat (walker_at 180 100) eq_refl) as (z'' & Hz & _ & Hh).
    exists z''. split; [exact Hz | exact Hh].
  - destruct (HA aoe_bullet 0%nat [0; 1; 2]%nat aoe_zombies
                (normal_at 50 100 300) Hnd eq_refl eq_refl
                1%nat (normal_at 50 60 300) eq_refl) as (z'' & Hz & Hh).
    exists z''. split; [exact Hz | exact Hh].
  - destruct (HA aoe_bullet 0%nat [0; 1; 2]%nat aoe_zombies
                (normal_at 50 100 300) Hnd eq_refl eq_refl
                2%nat (normal_at 50 50 300) eq_refl) as (z'' & Hz & Hh).
    exists z''. split; [exact Hz | exact Hh].
Defined.

(** ** The slow effect *)










(** ** Placement *)



(** The upgrade button of [zombie.py] is moved 30 below the click before
    the click is tested against it. *)
Lemma upgrade_button_missed pos :
  Rect_collidepoint
    {| r_left := fst pos; r_top := snd pos + 30; r_width := 100;
       r_height := 40 |} pos = false.
Proof.
  unfold Rect_collidepoint. simpl.
  destruct (Z.leb_spec (snd pos + 30) (snd pos)); [lia|].
  by rewrite andb_false_r.
Qed.

(** The towers after a click in [zombie.py]. *)
Lemma handle_mouse_towers pos s :
  ZombiePy.towers (ZombiePy.handle_mouse pos s)
  = match
      match ZombiePy.clicked_button pos ZombiePy.tower_buttons with
      | Some k => Some k
      | None => ZombiePy.selected_tower_type s
      end
    with
    | Some k =>
      if (snd pos <? ZombiePy.SCREEN_HEIGHT - 60)%Z &&
         (ZombiePy.cost (ZombiePy.Tower_init (0, 0)%Z k) <=? ZombiePy.coins s)%Z &&
         negb (ZombiePy.on_path pos)
      then ZombiePy.towers s ++ [ZombiePy.Tower_init pos k]
      else ZombiePy.towers s
    | None => ZombiePy.towers s
    end.
Proof.
  unfold ZombiePy.handle_mouse.
  set (s1 := match ZombiePy.clicked_button pos ZombiePy.tower_buttons with
             | Some k => ZombiePy.set_selected_tower_type (Some k) s
             | None => s
             end).
  assert (Hc : ZombiePy.coins s1 = ZombiePy.coins s)
    by (subst s1; by destruct (ZombiePy.clicked_button _ _)).
  assert (Ht : ZombiePy.towers s1 = ZombiePy.towers s)
    by (subst s1; by destruct (ZombiePy.clicked_button _ _)).
  assert (Hsel : ZombiePy.selected_tower_type s1
                 = match ZombiePy.clicked_button pos ZombiePy.tower_buttons with
                   | Some k => Some k
                   | None => ZombiePy.selected_tower_type s
                   end)
    by (subst s1; by destruct (ZombiePy.clicked_button _ _)).
  clearbody s1. rewrite <- Hsel, <- Hc, <- Ht. clear Hsel Hc Ht.
  set (s2 := match ZombiePy.selected_tower_type s1 with
             | Some k => _
             | None => s1
             end).
  assert (H2 : ZombiePy.towers s2
               = match ZombiePy.selected_tower_type s1 with
                 | Some k =>
                   if (snd pos <? ZombiePy.SCREEN_HEIGHT - 60)%Z &&
                      (ZombiePy.cost (ZombiePy.Tower_init (0, 0)%Z k)
                       <=? ZombiePy.coins s1)%Z &&
                      negb (ZombiePy.on_path pos)
                   then ZombiePy.towers s1 ++ [ZombiePy.Tower_init pos k]
                   else ZombiePy.towers s1
                 | None => ZombiePy.towers s1
                 end).
  { subst s2. destruct (ZombiePy.selected_tower_type s1) as [k|]; [|done].
    destruct (snd pos <? ZombiePy.SCREEN_HEIGHT - 60)%Z; [|done].
    destruct (ZombiePy.cost (ZombiePy.Tower_init (0, 0)%Z k)
              <=? ZombiePy.coins s1)%Z; [|done].
    by destruct (ZombiePy.on_path pos). }
  rewrite <- H2. clearbody s2.
  destruct (ZombiePy.tower_under pos 0 (ZombiePy.towers s2)) as [[idx t]|];
    [|done].
  by rewrite upgrade_button_missed.
Qed.







(** A fresh game with the Rifle selected, and the same with a Rifle tower
    at (25, 25), paid for. *)
Definition rifle_selected : ZombieTowerDefense.Game :=
  ZombieTowerDefense.set_selected_tower (Some 0%nat)
    (ZombieTowerDefense.set_state ZombieTowerDefense.game
       (ZombieTowerDefense.Game_init ZombieTowerDefense.Missing)).

Definition one_rifle : ZombieTowerDefense.Game :=
  ZombieTowerDefense.set_coins 100
    (ZombieTowerDefense.set_towers
       [ZombieTowerDefense.Tower_init ZombieTowerDefense.Rifle (25, 25)%Z]
       rifle_selected).


(** ** Win and loss *)

(** Random draws that pick "normal" zombies, drop nothing and collect
    nothing. *)
Definition quiet : ZombiePy.Oracle :=
  {| ZombiePy.spawn_choice := ZombiePy.choose_normal;
     ZombiePy.drop := fun _ => None;
     ZombiePy.collect := fun _ => false |}.






(** ** Currency *)

(** A click of [zombie.py] that hits no button and whose placement is
    refused changes nothing. *)
Lemma handle_mouse_refused pos s k :
  ZombiePy.clicked_button pos ZombiePy.tower_buttons = None ->
  ZombiePy.selected_tower_type s = Some k ->
  (ZombiePy.SCREEN_HEIGHT - 60 <= snd pos)%Z \/
  (ZombiePy.coins s < ZombiePy.cost (ZombiePy.Tower_init (0, 0)%Z k))%Z \/
  ZombiePy.on_path pos = true ->
  ZombiePy.handle_mouse pos s = s.
Proof.
  intros Hb Hk Hrej. unfold ZombiePy.handle_mouse. rewrite Hb. cbv zeta.
  rewrite Hk.
  assert (E : (if (snd pos <? ZombiePy.SCREEN_HEIGHT - 60)%Z
               then
                 if (ZombiePy.cost (ZombiePy.Tower_init (0, 0)%Z k)
                     <=? ZombiePy.coins s)%Z
                 then
                   if negb (ZombiePy.on_path pos)
                   then
                     ZombiePy.set_selected_tower_type None
                       (ZombiePy.set_coins
                          (ZombiePy.coins s
                           - ZombiePy.cost (ZombiePy.Tower_init (0, 0)%Z k))
                          (ZombiePy.set_towers
                             (ZombiePy.towers s ++ [ZombiePy.Tower_init pos k])
                             s))
                   else s
                 else s
               else s) = s).
  { destruct (Z.ltb_spec (snd pos) (ZombiePy.SCREEN_HEIGHT - 60)); [|done].
    destruct (Z.leb_spec (ZombiePy.cost (ZombiePy.Tower_init (0, 0)%Z k))
                (ZombiePy.coins s)); [|done].
    destruct (ZombiePy.on_path pos); [done|].
    destruct Hrej as [?|[?|?]]; [lia | lia | done]. }
  rewrite E.
  destruct (ZombiePy.tower_under pos 0 (ZombiePy.towers s)) as [[idx t]|];
    [|done].
  by rewrite upgrade_button_missed.
Qed.

(** C5: the funds check before a placement is missing on the [main] side
    of the merge conflict left in [handle_game_click] of
    [zombie_tower_defense.py]: starting with 180 coins, selecting the Rifle
    (80) and clicking three free cells places three towers and leaves -60
    coins.  With the [HEAD] side no game of a session is ever in debt, a
    placement that [can_place] or the funds refuse returns the game as it
    was, and so does an upgrade that the funds refuse.  In [zombie.py] no
    state of the loop is in debt and a refused placement changes nothing. *)
Theorem funds_check (toward : Vec -> Vec -> Q -> Vec)
    (shuffle : list (ZombieTowerDefense.ZombieKind * Q)
               -> list (ZombieTowerDefense.ZombieKind * Q)) :
  (ZombieTowerDefense.coins <$>
     ZombieTowerDefense.play toward shuffle ZombieTowerDefense.main
       ZombieTowerDefense.three_rifles
       (ZombieTowerDefense.Game_init ZombieTowerDefense.Missing))
  = Some (-60)%Z /\
  (forall g,
     ZombieTowerDefense.reachable toward shuffle ZombieTowerDefense.HEAD g ->
     (0 <= ZombieTowerDefense.coins g)%Z) /\
  (forall pos g i tt,
     (snd pos <= r_bottom ZombieTowerDefense.PLAY_AREA)%Z ->
     ZombieTowerDefense.selected_tower g = Some i ->
     ZombieTowerDefense.TOWER_TYPES !! i = Some tt ->
     ZombieTowerDefense.can_place g (ZombieTowerDefense.snap pos) = false \/
     (ZombieTowerDefense.coins g < ZombieTowerDefense.tt_cost tt)%Z ->
     ZombieTowerDefense.handle_game_click ZombieTowerDefense.HEAD pos g
     = Some g) /\
  (forall g i t,
     ZombieTowerDefense.selected_tower g = Some i ->
     ZombieTowerDefense.towers g !! i = Some t ->
     (ZombieTowerDefense.coins g < ZombieTowerDefense.upgrade_cost t)%Z ->
     ZombieTowerDefense.handle_key shuffle ZombieTowerDefense.K_u g = Some g) /\
  (forall s, ZombiePy.reachable toward s -> (0 <= ZombiePy.coins s)%Z) /\
  (forall pos s k,
     ZombiePy.clicked_button pos ZombiePy.tower_buttons = None ->
     ZombiePy.selected_tower_type s = Some k ->
     (ZombiePy.SCREEN_HEIGHT - 60 <= snd pos)%Z \/
     (ZombiePy.coins s < ZombiePy.cost (ZombiePy.Tower_init (0, 0)%Z k))%Z \/
     ZombiePy.on_path pos = true ->
     ZombiePy.handle_mouse pos s = s).
Proof.
  split_and!.
  - apply ZombieTowerDefense.three_rifles_debt.
  - apply ZombieTowerDefense.reachable_economy.
  - intros pos g i tt Hy Hi Htt Hrej.
    unfold ZombieTowerDefense.handle_game_click.
    destruct (Z.ltb_spec (r_bottom ZombieTowerDefense.PLAY_AREA) (snd pos));
      [lia|].
    rewrite Hi.
    destruct (ZombieTowerDefense.can_place g (ZombieTowerDefense.snap pos));
      [|done].
    rewrite Htt.
    destruct (Z.leb_spec (ZombieTowerDefense.tt_cost tt)
                (ZombieTowerDefense.coins g)); [|done].
    destruct Hrej as [?|?]; [done | lia].
  - intros g i t Hi Ht Hc. unfold ZombieTowerDefense.handle_key.
    cbv zeta. rewrite Hi, Ht.
    by destruct (Z.leb_spec (ZombieTowerDefense.upgrade_cost t)
                   (ZombieTowerDefense.coins g)); [lia|].
  - intros s Hs. by destruct (ZombiePy.reachable_loop_ok toward s Hs).
  - apply handle_mouse_refused.
Qed.

(** A game with the Rifle selected and 20 coins; a loop of [zombie.py]
    with the sniper selected and 100 coins. *)
Definition short_of_coins : ZombieTowerDefense.Game :=
  ZombieTowerDefense.set_coins 20 rifle_selected.

Definition short_of_coins_py : ZombiePy.Loop :=
  ZombiePy.set_selected_tower_type (Some ZombiePy.sniper)
    (ZombiePy.set_coins 100 (ZombiePy.game_start ZombiePy.Missing)).

(** The first game of a session has its 180 coins; with 20 coins a click
    for a Rifle (80) and with 100 coins a click for a sniper (200) change
    nothing. *)
Lemma funds_check_witness :
  (0 <= ZombieTowerDefense.coins
          (ZombieTowerDefense.Game_init ZombieTowerDefense.Missing))%Z /\
  ZombieTowerDefense.handle_game_click ZombieTowerDefense.HEAD (10, 10)%Z
    short_of_coins = Some short_of_coins /\
  (0 <= ZombiePy.coins (ZombiePy.game_start ZombiePy.Missing))%Z /\
  ZombiePy.handle_mouse (300, 50)%Z short_of_coins_py = short_of_coins_py.
Proof.
  destruct (funds_check straight_to (fun q => q))
    as (_ & Hhead & Hclick & _ & Hpy & Hmouse).
  split_and!.
  - apply Hhead. apply ZombieTowerDefense.reachable_init.
  - apply (Hclick (10, 10)%Z short_of_coins 0%nat ZombieTowerDefense.Rifle);
      [vm_compute; discriminate | reflexivity | reflexivity |].
    right. vm_compute. reflexivity.
  - apply Hpy. apply ZombiePy.reachable_start.
  - apply (Hmouse (300, 50)%Z short_of_coins_py ZombiePy.sniper);
      [reflexivity | reflexivity |].
    right. left. vm_compute. reflexivity.
Defined.

(** * Further properties of [zombie_tower_defense.py] *)

Section ZombieTowerDefenseSession.

Import ZombieTowerDefense.

Variable toward : Vec -> Vec -> Q -> Vec.
Variable shuffle : list (ZombieKind * Q) -> list (ZombieKind * Q).

(** ** What [selected_tower] holds

    [selected_tower] is written in two places: the tower bar stores the
    index of a tower type, the loop at the end of [handle_game_click] the
    index of a tower; it is read as the one in [handle_game_click] and as
    the other in [handle_key] and [draw_game]. *)

Definition selection_ok (g : Game) : Prop :=
  match selected_tower g with
  | None => towers g = []
  | Some i => (i < length TOWER_TYPES)%nat
  end.

(** What a frame leaves alone: the selection and the number of towers. *)
Definition selection (g : Game) : option nat * list Tower :=
  (selected_tower g, towers g).

Lemma selection_update_wave dt g : selection (update_wave dt g) = selection g.
Proof.
  unfold update_wave. destruct (wave_in_progress g); [|done].
  destruct (Qle_bool _ _); simpl.
  - destruct (pop (spawn_queue g)) as [[[k d] rest]|]; simpl;
      repeat case_match; done.
  - repeat case_match; done.
Qed.

Lemma selection_advance_zombie dt g r :
  selection (advance_zombie toward dt g r) = selection g.
Proof.
  unfold advance_zombie. destruct (deref (heap g) r) as [z|]; [|done].
  destruct (Zombie_update toward dt z) as [z' reached].
  destruct reached; simpl; [|done]. by destruct (_ <=? _)%Z.
Qed.

Lemma selection_remove_dead_zombies g :
  selection (remove_dead_zombies g) = selection g.
Proof.
  unfold remove_dead_zombies. generalize (zombies g) at 1. intros l.
  apply (foldl_invariant remove_dead (fun g' => selection g' = selection g));
    [|done].
  intros a r Ha. unfold remove_dead. destruct (deref (heap a) r); [|done].
  by destruct (Qle_bool _ _).
Qed.

Lemma advance_tower_length dt h zs ts :
  forall acc ps,
    length (fst (foldl (advance_tower dt h zs) (acc, ps) ts))
    = (length acc + length ts)%nat.
Proof.
  induction ts as [|t ts IH]; intros acc ps; simpl; [lia|].
  unfold advance_tower at 2. destruct (Tower_update dt h zs t) as [t' shot].
  simpl. rewrite IH, length_app. simpl. lia.
Qed.

Lemma selection_update_game dt g :
  selected_tower (update_game toward dt g) = selected_tower g /\
  length (towers (update_game toward dt g)) = length (towers g).
Proof.
  unfold update_game. destruct (pause g); [done|].
  set (g1 := update_wave dt g).
  set (g2 := foldl (advance_zombie toward dt) g1 (zombies g1)).
  set (g3 := handle_projectiles toward dt g2).
  set (g4 := remove_dead_zombies g3).
  assert (H1 : selection g1 = selection g) by apply selection_update_wave.
  assert (H2 : selection g2 = selection g1).
  { subst g2. generalize (zombies g1). intros l.
    apply (foldl_invariant (advance_zombie toward dt)
             (fun g' => selection g' = selection g1)); [|done].
    intros a r Ha. by rewrite selection_advance_zombie. }
  assert (H4 : selection g4 = selection g2)
    by (subst g4 g3; by rewrite selection_remove_dead_zombies).
  assert (H : selection g4 = selection g) by congruence.
  unfold selection in H. injection H as Hs Ht. simpl.
  rewrite advance_tower_length. simpl. by rewrite Hs, Ht.
Qed.

Lemma selection_ok_click_button pos g :
  selection_ok g -> selection_ok (click_button pos g).
Proof.
  intros Hg. unfold click_button. simpl.
  repeat (match goal with
          | |- context [if ?b then _ else _] => destruct b
          end; try (unfold selection_ok; simpl; lia)); done.
Qed.

Lemma selection_ok_handle_game_click side pos g g' :
  selection_ok g -> handle_game_click side pos g = Some g' -> selection_ok g'.
Proof.
  intros Hg. unfold handle_game_click.
  destruct (_ <? _)%Z.
  - intros [= <-]. by apply selection_ok_click_button.
  - unfold selection_ok in Hg.
    destruct (selected_tower g) as [i|] eqn:Hi.
    + destruct (can_place g (snap pos)); [|intros [= <-]; unfold selection_ok;
                                            by rewrite Hi].
      destruct (TOWER_TYPES !! i) as [tt|]; [|done].
      assert (Hplace : selection_ok
                (set_coins (coins g - tt_cost tt)
                   (set_towers (towers g ++ [Tower_init tt (snap pos)]) g)))
        by (unfold selection_ok; simpl; by rewrite Hi).
      destruct side.
      * destruct (_ <=? _)%Z; intros [= <-]; [done|].
        unfold selection_ok. by rewrite Hi.
      * by intros [= <-].
    + rewrite Hg. simpl. intros [= <-]. unfold selection_ok. by rewrite Hi.
Qed.

Lemma selection_ok_handle_key key g g' :
  selection_ok g -> handle_key shuffle key g = Some g' -> selection_ok g'.
Proof.
  intros Hg. unfold handle_key. cbv zeta.
  set (g1 := match key with K_ESCAPE => set_state menu g | _ => g end).
  set (g2 := match key with K_p => set_pause (negb (pause g1)) g1 | _ => g1 end).
  set (g3 := match key with
             | K_SPACE => if wave_in_progress g2 then g2
                          else start_wave shuffle g2
             | _ => g2
             end).
  assert (H3 : selection g3 = selection g).
  { subst g3 g2 g1. destruct key; try done. simpl.
    by destruct (wave_in_progress g). }
  unfold selection in H3. injection H3 as Hs Ht.
  assert (Hok : selection_ok g3) by (unfold selection_ok; by rewrite Hs, Ht).
  clearbody g3. clear g1 g2.
  destruct key; try (intros [= <-]; done).
  destruct (selected_tower g3) as [i|] eqn:Hi; [|intros [= <-]; done].
  destruct (towers g3 !! i) as [t|]; [|done].
  destruct (_ <=? _)%Z; intros [= <-]; [|done].
  unfold selection_ok in *. simpl. by rewrite Hi in *.
Qed.

Lemma selection_ok_react side e g g' :
  selection_ok g -> react toward shuffle side e g = Some g' -> selection_ok g'.
Proof.
  intros Hg. unfold react.
  destruct (state g), e; try (intros [= <-]; done).
  - by apply selection_ok_handle_game_click.
  - by apply selection_ok_handle_key.
  - intros [= <-]. destruct (selection_update_game dt g) as [Hs Hl].
    unfold selection_ok in *. rewrite Hs.
    destruct (selected_tower g); [done|].
    apply nil_length_inv. by rewrite Hl, Hg.
Qed.

Lemma reachable_selection_ok side g :
  reachable toward shuffle side g -> selection_ok g.
Proof.
  induction 1 as [f|g e g' _ IH He]; [done|].
  by eapply selection_ok_react.
Qed.

End ZombieTowerDefenseSession.

Section ZombieTowerDefenseSelection.

Import ZombieTowerDefense.

Variable toward : Vec -> Vec -> Q -> Vec.
Variable shuffle : list (ZombieKind * Q) -> list (ZombieKind * Q).

(** The loop over the towers of [Game.draw_game] (lines 465 to 467): the
    value of [selected] for every tower; [None] is the [IndexError] of
    [self.towers[self.selected_tower]].  Two towers are equal only if they
    are the same object, that is, stand at the same index. *)
Definition draw_game_selected (g : Game) : option (list bool) :=
  mapM
    (fun idx =>
       match selected_tower g with
       | None => Some false
       | Some i =>
         match towers g !! i with
         | None => None
         | Some _ => Some (bool_decide (i = idx))
         end
       end)
    (seq 0 (length (towers g))).

(** X1: in every game of a session, on either side of the merge conflict,
    [selected_tower] is [None] only while no tower stands and is otherwise
    an index of [TOWER_TYPES].  So [TOWER_TYPES[self.selected_tower]] in
    [handle_game_click] never raises, and the loop that selects a tower
    under the click never finds one: with nothing selected a click in the
    play area changes nothing. *)
Theorem selection_in_session side g :
  reachable toward shuffle side g ->
  selection_ok g /\
  (forall pos, is_Some (handle_game_click side pos g)) /\
  (selected_tower g = None ->
   forall pos,
     (snd pos <= r_bottom PLAY_AREA)%Z ->
     handle_game_click side pos g = Some g).
Proof.
  intros Hg. apply reachable_selection_ok in Hg.
  split; [done|]. unfold selection_ok in Hg. split.
  - intros pos. unfold handle_game_click.
    destruct (_ <? _)%Z; [done|].
    destruct (selected_tower g) as [i|].
    + destruct (can_place g (snap pos)); [|done].
      destruct (lookup_lt_is_Some_2 TOWER_TYPES i Hg) as [tt ->].
      destruct side; [|done]. by destruct (_ <=? _)%Z.
    + by destruct (tower_at _ _ _).
  - intros Hnone pos Hy. unfold handle_game_click.
    destruct (Z.ltb_spec (r_bottom PLAY_AREA) (snd pos)); [lia|].
    rewrite Hnone in Hg |- *. by rewrite Hg.
Qed.

(** X2: the U key upgrades the tower whose index in the list of towers is
    the number held by [selected_tower], when the coins cover its upgrade
    cost: the cost is taken, the level of that tower goes up by one and no
    other tower changes; when they do not, nothing changes.  When fewer
    towers stand than that number plus one, [self.towers[...]] raises
    [IndexError], and only then; a new game in which the Rifle is selected
    and U is pressed before any tower stands ends that way. *)
Theorem upgrade_key g :
  (handle_key shuffle K_u g = None
   <-> exists i, selected_tower g = Some i /\ (length (towers g) <= i)%nat) /\
  (forall i t,
     selected_tower g = Some i -> towers g !! i = Some t ->
     exists g',
       handle_key shuffle K_u g = Some g' /\
       if (upgrade_cost t <=? coins g)%Z
       then coins g' = (coins g - upgrade_cost t)%Z /\
            towers g' !! i = Some (upgrade t) /\
            level (upgrade t) = (level t + 1)%Z /\
            (forall j, j <> i -> towers g' !! j = towers g !! j) /\
            selected_tower g' = Some i /\ lives g' = lives g /\
            score g' = score g
       else g' = g) /\
  play toward shuffle HEAD [StartGame; Click (430, 640)%Z; KeyDown K_u]
    (Game_init Missing) = None.
Proof.
  split_and!.
  - unfold handle_key. cbv zeta.
    destruct (selected_tower g) as [i|]; simpl.
    + destruct (towers g !! i) as [t|] eqn:Ht.
      * split.
        -- by destruct (_ <=? _)%Z.
        -- intros (j & [= <-] & Hlen). apply lookup_lt_Some in Ht. lia.
      * split; [|done]. intros _. exists i. split; [done|].
        by apply lookup_ge_None.
    + split; [done|]. by intros (i & Hi & _).
  - intros i t Hi Ht. unfold handle_key. cbv zeta. rewrite Hi, Ht.
    destruct (_ <=? _)%Z; eexists; (split; [reflexivity|]); [|done].
    simpl. split_and!; try done.
    + apply list_lookup_insert_eq. by eapply lookup_lt_Some.
    + intros j Hj. by apply list_lookup_insert_ne.
  - reflexivity.
Qed.

(** X3: [draw_game] raises [IndexError] at
    [self.towers[self.selected_tower]] exactly when a tower stands and
    [selected_tower] holds a number that is no index of the list of towers;
    otherwise the tower drawn as selected is the one at that index.  A
    session in which the Sniper (type 1) is selected and placed as the
    first tower reaches such a game. *)
Theorem draw_game_index_error g :
  (draw_game_selected g = None
   <-> towers g <> [] /\
       exists i, selected_tower g = Some i /\ (length (towers g) <= i)%nat) /\
  (forall flags idx,
     draw_game_selected g = Some flags ->
     (idx < length (towers g))%nat ->
     flags !! idx = Some (bool_decide (selected_tower g = Some idx))) /\
  (exists g',
     play toward shuffle HEAD
       [StartGame; Click (590, 640)%Z; Click (10, 10)%Z] (Game_init Missing)
     = Some g' /\
     length (towers g') = 1%nat /\ draw_game_selected g' = None).
Proof.
  split_and!.
  - unfold draw_game_selected. rewrite mapM_None, Exists_exists. split.
    + intros (idx & Hidx & H). apply elem_of_seq in Hidx.
      split; [intros E; rewrite E in Hidx; simpl in Hidx; lia|].
      destruct (selected_tower g) as [i|]; [|done].
      exists i. split; [done|].
      destruct (towers g !! i) eqn:Hi; [done|]. by apply lookup_ge_None.
    + intros (Hne & i & Hi & Hlen). exists 0%nat. split.
      * apply elem_of_seq. destruct (towers g); [done|]. simpl. lia.
      * rewrite Hi. by rewrite (proj2 (lookup_ge_None _ _) Hlen).
  - intros flags idx Hf Hidx. unfold draw_game_selected in Hf.
    apply mapM_Some_1 in Hf.
    assert (Hs : seq 0 (length (towers g)) !! idx = Some idx)
      by (by apply lookup_seq_lt).
    destruct (Forall2_lookup_l _ _ _ _ _ Hf Hs) as (b & Hb & Hsel).
    rewrite Hb. f_equal. destruct (selected_tower g) as [i|].
    + destruct (towers g !! i); [|done]. injection Hsel as <-.
      apply bool_decide_ext. split; congruence.
    + injection Hsel as <-. by rewrite bool_decide_eq_false_2.
  - eexists. split; [reflexivity|]. split; reflexivity.
Qed.

End ZombieTowerDefenseSelection.

(** A new session has nothing selected; the first Rifle of [one_rifle] is
    upgraded for its 100 coins; with the Rifle selected and no tower, U
    raises. *)
Lemma selection_in_session_witness :
  selection_ok (ZombieTowerDefense.Game_init ZombieTowerDefense.Missing) /\
  ZombieTowerDefense.handle_game_click ZombieTowerDefense.main (300, 300)%Z
    (ZombieTowerDefense.Game_init ZombieTowerDefense.Missing)
  = Some (ZombieTowerDefense.Game_init ZombieTowerDefense.Missing).
Proof.
  destruct (selection_in_session straight_to (fun q => q)
              ZombieTowerDefense.main
              (ZombieTowerDefense.Game_init ZombieTowerDefense.Missing)
              (ZombieTowerDefense.reachable_init _ _ _ _))
    as (Hok & _ & Hnone).
  split; [exact Hok|].
  apply Hnone; [reflexivity | vm_compute; discriminate].
Defined.

Lemma upgrade_key_witness :
  ZombieTowerDefense.handle_key (fun q => q) ZombieTowerDefense.K_u
    rifle_selected = None /\
  exists g',
    ZombieTowerDefense.handle_key (fun q => q) ZombieTowerDefense.K_u one_rifle
    = Some g' /\
    ZombieTowerDefense.coins g' = 0%Z /\
    (ZombieTowerDefense.level <$> ZombieTowerDefense.towers g' !! 0%nat)
    = Some 2%Z.
Proof.
  split.
  - apply (proj1 (upgrade_key straight_to (fun q => q) rifle_selected)).
    exists 0%nat. split; [reflexivity | simpl; lia].
  - destruct (proj1 (proj2 (upgrade_key straight_to (fun q => q) one_rifle))
                0%nat _ eq_refl eq_refl) as (g' & Hg' & Hc & Ht & _).
    exists g'. split; [exact Hg'|]. split; [exact Hc|]. by rewrite Ht.
Defined.

Lemma draw_game_index_error_witness :
  draw_game_selected
    (ZombieTowerDefense.set_selected_tower (Some 1%nat) one_rifle) = None /\
  (draw_game_selected one_rifle ≫= (.!! 0%nat)) = Some true.
Proof.
  split.
  - apply (proj1 (draw_game_index_error straight_to (fun q => q) _)).
    split; [discriminate|]. exists 1%nat. split; [reflexivity | simpl; lia].
  - destruct (draw_game_selected one_rifle) as [flags|] eqn:Hf; [|done].
    simpl.
    exact (proj1 (proj2 (draw_game_index_error straight_to (fun q => q)
                           one_rifle)) flags 0%nat Hf ltac:(simpl; lia)).
Defined.

(** * Further properties of [zombie.py] *)

Section ZombiePyLoop.

Import ZombiePy.

Variable toward : Vec -> Vec -> Q -> Vec.

(** A property of the variables a frame hands to the next one. *)
Definition running (P : Loop -> Prop) (r : Step) : Prop :=
  match r with
  | Running s => P s
  | _ => True
  end.

(** A tower as [Tower.__init__] built it, apart from cooldown and target. *)
Definition as_built (t : Tower) : Prop :=
  let t0 := Tower_init (t_pos t) (t_type t) in
  level t = 1%Z /\ range t = range t0 /\ damage t = damage t0 /\
  fire_rate t = fire_rate t0 /\ cost t = cost t0 /\
  upgrade_cost t = upgrade_cost t0.

(** Lives between 1 and [START_LIVES], a wave between 1 and [MAX_WAVES], a
    score that is not negative, and towers that were never upgraded. *)
Definition loop_bounds (s : Loop) : Prop :=
  (0 < lives s <= START_LIVES)%Z /\ (1 <= wave s <= MAX_WAVES)%Z /\
  (0 <= score s)%Z /\ Forall as_built (towers s).

Lemma as_built_Tower_init pos k : as_built (Tower_init pos k).
Proof. unfold as_built. by destruct k. Qed.

Lemma as_built_tower_step h zs t :
  as_built t -> as_built (fst (tower_step h zs t)).
Proof.
  unfold as_built, tower_step, shoot, find_target. simpl.
  destruct (0 <? cooldown t)%Z; simpl; [done|].
  by destruct (fst (foldl _ _ _)).
Qed.

(** What the mouse branch leaves alone. *)
Lemma handle_mouse_vitals pos s :
  lives (handle_mouse pos s) = lives s /\
  wave (handle_mouse pos s) = wave s /\
  score (handle_mouse pos s) = score s /\
  disk (handle_mouse pos s) = disk s.
Proof.
  unfold handle_mouse.
  set (s1 := match clicked_button pos tower_buttons with
             | Some k => set_selected_tower_type (Some k) s
             | None => s
             end).
  assert (H1 : lives s1 = lives s /\ wave s1 = wave s /\ score s1 = score s /\
               disk s1 = disk s)
    by (subst s1; by destruct (clicked_button _ _)).
  clearbody s1.
  set (s2 := match selected_tower_type s1 with Some k => _ | None => s1 end).
  assert (H2 : lives s2 = lives s /\ wave s2 = wave s /\ score s2 = score s /\
               disk s2 = disk s).
  { subst s2. destruct (selected_tower_type s1) as [k|]; [|done].
    destruct (_ <? _)%Z; [|done]. destruct (_ <=? _)%Z; [|done].
    by destruct (negb (on_path pos)). }
  clearbody s2.
  destruct (tower_under pos 0 (towers s2)) as [[idx t]|]; [|done].
  by rewrite upgrade_button_missed.
Qed.

Lemma loop_bounds_handle_mouse pos s :
  loop_bounds s -> loop_bounds (handle_mouse pos s).
Proof.
  intros (Hl & Hw & Hs & Ht).
  destruct (handle_mouse_vitals pos s) as (El & Ew & Es & _).
  unfold loop_bounds. rewrite El, Ew, Es, handle_mouse_towers.
  split_and!; try lia.
  destruct (match clicked_button pos tower_buttons with
            | Some k => Some k
            | None => selected_tower_type s
            end) as [k|]; [|done].
  destruct (_ && _); [|done].
  apply Forall_app. split; [done|]. apply Forall_singleton, as_built_Tower_init.
Qed.

Lemma loop_bounds_handle_events es s :
  loop_bounds s -> running loop_bounds (handle_events es s).
Proof.
  revert s. induction es as [|e es IH]; intros s Hs; simpl; [done|].
  destruct e as [|q| |pos]; simpl; try done.
  - destruct q; simpl; [done|]. by apply IH.
  - destruct (between_waves s); by apply IH.
  - apply IH. by apply loop_bounds_handle_mouse.
Qed.

Lemma loop_bounds_spawn_phase o s :
  loop_bounds s -> running loop_bounds (spawn_phase o s).
Proof.
  intros (Hl & Hw & Hs & Ht). unfold spawn_phase.
  destruct (spawning s); [|done].
  set (s1 := if (_ <=? _)%Z && (0 <? _)%Z then _ else _).
  assert (H1 : loop_bounds s1) by (subst s1; by destruct (_ && _)).
  clearbody s1. destruct H1 as (Hl1 & Hw1 & Hs1 & Ht1).
  destruct (_ && _); [|done]. simpl.
  destruct (Z.ltb_spec MAX_WAVES (wave s1 + 1)).
  - unfold end_game. by destruct (save_high_score _ _).
  - unfold loop_bounds. simpl. split_and!; try done; try lia; nia.
Qed.

Lemma loop_bounds_zombies_phase o l :
  forall i to_remove s,
    loop_bounds s -> running loop_bounds (zombies_phase toward o i l to_remove s).
Proof.
  induction l as [|r l IH]; intros i to_remove s Hs; simpl; [done|].
  destruct (deref (heap s) r) as [z|]; [|by apply IH].
  destruct Hs as (Hl & Hw & Hs & Ht).
  destruct (negb (alive z)).
  - apply IH. unfold loop_bounds.
    destruct (drop o i); simpl; (split_and!; try done; lia).
  - destruct (Zombie_update toward z) as [z' reached]. destruct reached.
    + simpl.
      destruct (Z.leb_spec (lives s - match z_type z with
                                      | boss => 5 | _ => 1 end) 0).
      * unfold end_game. by destruct (save_high_score _ _).
      * apply IH. unfold loop_bounds. simpl.
        split_and!; try done; destruct (z_type z); lia.
    + by apply IH.
Qed.

Lemma loop_bounds_towers_phase s :
  loop_bounds s -> loop_bounds (towers_phase s).
Proof.
  intros (Hl & Hw & Hs & Ht). unfold towers_phase, loop_bounds. simpl.
  split_and!; try lia.
  assert (Hgen : forall ts acc bs,
    Forall as_built acc -> Forall as_built ts ->
    Forall as_built
      (fst (foldl
              (fun acc t =>
                 let '(t', shot) := tower_step (heap s) (zombies s) t in
                 (fst acc ++ [t'],
                  match shot with
                  | Some b => snd acc ++ [b]
                  | None => snd acc
                  end)) (acc, bs) ts))).
  { induction ts as [|t ts IH]; intros acc bs Hacc Hts; simpl; [done|].
    inversion Hts as [|? ? Hok Hrest]; subst.
    pose proof (as_built_tower_step (heap s) (zombies s) t Hok) as Hok'.
    destruct (tower_step (heap s) (zombies s) t) as [t' shot]. simpl in *.
    apply IH; [|done]. apply Forall_app. split; [done|].
    by apply Forall_singleton. }
  by apply Hgen.
Qed.

Lemma loop_bounds_power_ups_phase o pus :
  forall i kept s,
    loop_bounds s -> loop_bounds (power_ups_phase o i pus kept s).
Proof.
  induction pus as [|pu pus IH]; intros i kept s Hs; simpl; [done|].
  destruct (collect o i); [|by apply IH].
  apply IH. destruct Hs as (Hl & Hw & Hs & Ht).
  destruct pu; unfold loop_bounds; simpl; (split_and!; try done; lia).
Qed.

Lemma loop_bounds_frame o es s :
  loop_bounds s -> running loop_bounds (frame toward o es s).
Proof.
  intros Hs. unfold frame.
  pose proof (loop_bounds_handle_events es s Hs) as H1.
  destruct (handle_events es s) as [s1| |won s1|]; try done.
  pose proof (loop_bounds_spawn_phase o s1 H1) as H2.
  destruct (spawn_phase o s1) as [s2| |won s2|]; try done.
  pose proof (loop_bounds_zombies_phase o (zombies s2) 0 [] s2 H2) as H3.
  destruct (zombies_phase toward o 0 (zombies s2) [] s2) as [s3| |won s3|];
    try done.
  simpl. apply loop_bounds_power_ups_phase.
  destruct (loop_bounds_towers_phase s3 H3) as (Hl & Hw & Hsc & Ht).
  done.
Qed.

End ZombiePyLoop.

Section ZombiePyFrames.

Import ZombiePy.

Variable toward : Vec -> Vec -> Q -> Vec.

(** ** The high score file during a game *)








(** ** The test of [selected_tower] when the UI is drawn *)

Definition is_mouse (e : Event) : bool :=
  match e with
  | Mouse _ => true
  | _ => false
  end.

(** One turn of the loop up to [if selected_tower:] at line 582.
    [bound] tells whether the local variable [selected_tower] has been
    assigned, which only the mouse branch of the event loop does (line
    481); reading it unassigned raises [UnboundLocalError].  A frame that
    goes on has handled all its events. *)
Definition frame_drawn (o : Oracle) (es : list Event) (st : bool * Loop)
  : bool * Step :=
  match frame toward o es (snd st) with
  | Running s' =>
    let bound := fst st || existsb is_mouse es in
    (bound, if bound then Running s' else Crashed)
  | r => (fst st, r)
  end.

(** [game_loop] over the frames given, from the variables of a frame. *)
Fixpoint game_loop (fs : list (Oracle * list Event)) (st : bool * Loop)
  : bool * Step :=
  match fs with
  | [] => (fst st, Running (snd st))
  | (o, es) :: fs' =>
    match frame_drawn o es st with
    | (bound, Running s') => game_loop fs' (bound, s')
    | r => r
    end
  end.

Lemma game_loop_bound fs :
  forall st b s', game_loop fs st = (b, Running s') ->
    b = true \/ (fs = [] /\ b = fst st).
Proof.
  induction fs as [|[o es] fs IH]; intros [bound s] b s' H; simpl in *.
  - right. by injection H as <- _.
  - left. unfold frame_drawn in H. simpl in H.
    destruct (frame toward o es s) as [s1| |won s1|]; try done.
    destruct (bound || existsb is_mouse es) eqn:Hb; [|done].
    destruct (IH _ _ _ H) as [?|[_ ->]]; done.
Qed.

(** The states [game_loop] hands from one frame to the next. *)
Lemma game_loop_reachable fs :
  forall st b s',
    reachable toward (snd st) -> game_loop fs st = (b, Running s') ->
    reachable toward s'.
Proof.
  induction fs as [|[o es] fs IH]; intros [bound s] b s' Hs H; simpl in *.
  - by injection H as _ <-.
  - unfold frame_drawn in H. simpl in H.
    destruct (frame toward o es s) as [s1| |won s1|] eqn:Hf; try done.
    destruct (bound || existsb is_mouse es); [|done].
    apply (IH (true, s1) b s'); [|done]. simpl.
    by apply (reachable_frame toward s o es s1).
Qed.

End ZombiePyFrames.

(** X4: [game_loop] reads the local variable [selected_tower] when it
    draws the UI (line 582), but only the [MOUSEBUTTONDOWN] branch of the
    event loop assigns it (line 481).  A frame that starts with the
    variable unassigned and handles no mouse click does not hand on to a
    next frame: unless it ends the game otherwise it raises
    [UnboundLocalError].  So a game that runs past its first frame had a
    mouse click in that frame, and from the first click on the test changes
    nothing. *)
Theorem unbound_selected_tower (toward : Vec -> Vec -> Q -> Vec) :
  (forall o es s s',
     existsb is_mouse es = false ->
     snd (frame_drawn toward o es (false, s)) <> ZombiePy.Running s') /\
  (forall d f fs b s',
     game_loop toward (f :: fs) (false, ZombiePy.game_start d)
     = (b, ZombiePy.Running s') ->
     existsb is_mouse (snd f) = true /\ b = true) /\
  (forall o es s,
     frame_drawn toward o es (true, s) = (true, ZombiePy.frame toward o es s)).
Proof.
  split_and!.
  - intros o es s s' Hes. unfold frame_drawn. simpl. rewrite Hes.
    by destruct (ZombiePy.frame toward o es s).
  - intros d [o es] fs b s' H.
    destruct (game_loop_bound toward _ _ _ _ H) as [->|[? _]]; [|done].
    split; [|done]. simpl in H |- *. unfold frame_drawn in H. simpl in H.
    destruct (ZombiePy.frame toward o es (ZombiePy.game_start d));
      try done.
    by destruct (existsb is_mouse es).
  - intros o es s. unfold frame_drawn. simpl.
    by destruct (ZombiePy.frame toward o es s).
Qed.

(** A first frame with the space bar only raises; with a click in it the
    game goes on. *)
Lemma unbound_selected_tower_witness :
  snd (frame_drawn straight_to quiet [ZombiePy.Space]
         (false, ZombiePy.game_start ZombiePy.Missing))
  = ZombiePy.Crashed /\
  existsb is_mouse [ZombiePy.Mouse (700, 570)%Z; ZombiePy.Space] = true.
Proof.
  destruct (unbound_selected_tower straight_to) as (Hfirst & Hloop & _).
  split.
  - pose proof (Hfirst quiet [ZombiePy.Space]
                  (ZombiePy.game_start ZombiePy.Missing)) as H.
    specialize (fun s' => H s' eq_refl).
    destruct (snd (frame_drawn straight_to quiet [ZombiePy.Space]
                     (false, ZombiePy.game_start ZombiePy.Missing)))
      as [s'| | |] eqn:E; [|discriminate E|discriminate E|reflexivity].
    destruct (H s' eq_refl).
  - refine (proj1 (Hloop ZombiePy.Missing
                     (quiet, [ZombiePy.Mouse (700, 570)%Z; ZombiePy.Space])
                     [] true _ eq_refl)).
Defined.


Lemma reachable_loop_bounds toward s :
  ZombiePy.reachable toward s -> loop_bounds s.
Proof.
  induction 1 as [f|s o es s' _ IH Hf].
  - unfold loop_bounds. simpl. split_and!; done.
  - pose proof (loop_bounds_frame toward o es s IH) as H. by rewrite Hf in H.
Qed.

(** X6: in every state that [game_loop] hands from one frame to the next,
    the lives are between 1 and [START_LIVES], the wave is between 1 and
    [MAX_WAVES], the score is not negative, and every tower has level 1
    and the range, damage, fire rate and upgrade cost it was built with:
    [Tower.upgrade] is never called, because the upgrade button is moved 30
    below the click before the click is tested against it. *)
Theorem loop_invariants (toward : Vec -> Vec -> Q -> Vec) s :
  ZombiePy.reachable toward s ->
  (0 < ZombiePy.lives s <= ZombiePy.START_LIVES)%Z /\
  (1 <= ZombiePy.wave s <= ZombiePy.MAX_WAVES)%Z /\
  (0 <= ZombiePy.score s)%Z /\
  Forall as_built (ZombiePy.towers s).
Proof. apply reachable_loop_bounds. Qed.

(** The loop after a frame in which a basic tower is bought and then
    clicked on. *)
Definition tower_clicked : ZombiePy.Step :=
  ZombiePy.frame straight_to quiet
    [ZombiePy.Mouse (50, 570)%Z; ZombiePy.Mouse (300, 50)%Z;
     ZombiePy.Mouse (300, 50)%Z]
    (ZombiePy.game_start ZombiePy.Missing).

Lemma loop_invariants_witness :
  exists s,
    tower_clicked = ZombiePy.Running s /\
    ZombiePy.coins s = 100%Z /\
    (ZombiePy.level <$> ZombiePy.towers s) = [1%Z] /\
    Forall as_built (ZombiePy.towers s).
Proof.
  destruct tower_clicked as [s| | |] eqn:E;
    try (vm_compute in E; discriminate E).
  exists s. split; [reflexivity|].
  pose proof (loop_invariants straight_to s
                (ZombiePy.reachable_frame straight_to
                   (ZombiePy.game_start ZombiePy.Missing) quiet _ s
                   (ZombiePy.reachable_start straight_to ZombiePy.Missing) E))
    as Hinv.
  vm_compute in E. injection E as <-.
  split; [reflexivity|]. split; [reflexivity|].
  exact (proj2 (proj2 (proj2 Hinv))).
Defined.

(** * Helpers of [zombie_tower_defense.py] *)


Lemma clamp_cases v lo hi :
  lo <= hi ->
  let c := ZombieTowerDefense.clamp v lo hi in
  (v <= lo /\ c == lo) \/ (lo <= v <= hi /\ c == v) \/ (hi <= v /\ c == hi).
Proof.
  intros Hle. unfold ZombieTowerDefense.clamp. simpl.
  destruct (Q.min_spec hi v) as [[H1 E1]|[H1 E1]];
    destruct (Q.max_spec lo (Qmin hi v)) as [[H2 E2]|[H2 E2]];
    first [ left; split; lra
          | right; left; split; lra
          | right; right; split; lra ].
Qed.

(** X7: [clamp(value, low, high)] with [low <= high] lies between [low]
    and [high]; it is [value] when [value] lies between them, [low] when
    [value] is below and [high] when it is above, so clamping twice is
    clamping once.  With [high < low] it is [low], whatever the value. *)
Theorem clamp_range v lo hi :
  (lo <= hi ->
   lo <= ZombieTowerDefense.clamp v lo hi <= hi /\
   (lo <= v <= hi -> ZombieTowerDefense.clamp v lo hi == v) /\
   (v <= lo -> ZombieTowerDefense.clamp v lo hi == lo) /\
   (hi <= v -> ZombieTowerDefense.clamp v lo hi == hi) /\
   ZombieTowerDefense.clamp (ZombieTowerDefense.clamp v lo hi) lo hi
   == ZombieTowerDefense.clamp v lo hi) /\
  (hi < lo -> ZombieTowerDefense.clamp v lo hi == lo).
Proof.
  split.
  - intros Hle.
    pose proof (clamp_cases v lo hi Hle) as Hc.
    pose proof (clamp_cases (ZombieTowerDefense.clamp v lo hi) lo hi Hle) as Hcc.
    simpl in Hc, Hcc. split_and!; try lra.
  - intros Hlt. unfold ZombieTowerDefense.clamp.
    destruct (Q.min_spec hi v) as [[H1 E1]|[H1 E1]];
      destruct (Q.max_spec lo (Qmin hi v)) as [[H2 E2]|[H2 E2]]; lra.
Qed.

Lemma clamp_range_witness :
  ZombieTowerDefense.clamp 1.5 0 1 == 1 /\
  ZombieTowerDefense.clamp (-2) 0 1 == 0 /\
  ZombieTowerDefense.clamp 7 3 1 == 3.
Proof.
  split_and!.
  - destruct (proj1 (clamp_range 1.5 0 1) ltac:(lra)) as (_ & _ & _ & H & _).
    apply H. lra.
  - destruct (proj1 (clamp_range (-2) 0 1) ltac:(lra)) as (_ & _ & H & _).
    apply H. lra.
  - apply (proj2 (clamp_range 7 3 1)). lra.
Defined.



(** X9: [point_to_segment_distance(point, a, b)] is the distance from
    [point] to the nearest point of the segment from [a] to [b]: it is the
    distance to a point of the segment, and no point of the segment is
    closer (distances as their squares).  When [a] and [b] coincide it is
    the distance to [a]. *)
Theorem segment_distance_is_least p a b :
  (exists t, 0 <= t <= 1 /\
     ZombieTowerDefense.point_to_segment_distance2 p a b
     == dist2 p (ZombieTowerDefense.along a b t)) /\
  (forall s, 0 <= s <= 1 ->
     ZombieTowerDefense.point_to_segment_distance2 p a b
     <= dist2 p (ZombieTowerDefense.along a b s)) /\
  (length_squared (vsub b a) == 0 ->
   ZombieTowerDefense.point_to_segment_distance2 p a b == dist2 p a).
Proof.
  destruct (ZombieTowerDefense.point_to_segment_distance2_spec p a b)
    as [Hex Hmin].
  split_and!; [done | done |].
  intros Hz. unfold ZombieTowerDefense.point_to_segment_distance2.
  rewrite (proj2 (Qeq_bool_iff _ _) Hz). reflexivity.
Qed.

(** The point (5, 3) and the segment from (0, 0) to (10, 0): the foot
    (5, 0) is on it, at distance 3. *)
Lemma segment_distance_is_least_witness :
  ZombieTowerDefense.point_to_segment_distance2 (5, 3) (0, 0) (10, 0)
  <= dist2 (5, 3) (ZombieTowerDefense.along (0, 0) (10, 0) 0.5) /\
  ZombieTowerDefense.point_to_segment_distance2 (5, 3) (2, 2) (2, 2)
  == dist2 (5, 3) (2, 2).
Proof.
  split.
  - apply (segment_distance_is_least (5, 3) (0, 0) (10, 0)). lra.
  - apply (segment_distance_is_least (5, 3) (2, 2) (2, 2)).
    vm_compute. reflexivity.
Defined.

(** * The target of a tower *)

Section Nearest.

Import ZombieTowerDefense.

(** What the search of [Tower.update] holds after the zombies [seen]. *)
Definition nearest_so_far (h : list Zombie) (pos : Vec) (rng : Z)
    (seen : list nat) (acc : option nat * option Q) : Prop :=
  match acc with
  | (Some r, Some b) =>
    r ∈ seen /\
    (exists z, deref h r = Some z /\ b = dist2 (position z) pos /\
       sq_le b (inject_Z rng) = true) /\
    forall r' z', r' ∈ seen -> deref h r' = Some z' ->
      sq_le (dist2 (position z') pos) (inject_Z rng) = true ->
      b <= dist2 (position z') pos
  | (None, None) =>
    forall r' z', r' ∈ seen -> deref h r' = Some z' ->
      sq_le (dist2 (position z') pos) (inject_Z rng) = false
  | _ => False
  end.

Lemma nearest_so_far_nearer h pos rng seen acc r :
  nearest_so_far h pos rng seen acc ->
  nearest_so_far h pos rng (seen ++ [r]) (nearer h pos rng acc r).
Proof.
  intros Hacc. unfold nearer.
  destruct (deref h r) as [z|] eqn:Hr.
  - destruct (sq_le (dist2 (position z) pos) (inject_Z rng)) eqn:Hin; simpl.
    + destruct acc as [[r0|] [b|]]; simpl in *; try done.
      * destruct Hacc as (Hr0 & Hz0 & Hmin).
        destruct (Qltb (dist2 (position z) pos) b) eqn:Hlt; simpl.
        -- apply Qltb_lt in Hlt. split_and!.
           ++ apply elem_of_app. right. by apply list_elem_of_singleton.
           ++ eauto.
           ++ intros r' z' Hr' Hz' Hin'. apply elem_of_app in Hr'.
              destruct Hr' as [Hr'|Hr'].
              ** specialize (Hmin r' z' Hr' Hz' Hin'). lra.
              ** apply list_elem_of_singleton in Hr'. subst r'.
                 rewrite Hr in Hz'. injection Hz' as <-. lra.
        -- apply Qltb_ge in Hlt. split_and!.
           ++ apply elem_of_app. by left.
           ++ done.
           ++ intros r' z' Hr' Hz' Hin'. apply elem_of_app in Hr'.
              destruct Hr' as [Hr'|Hr']; [by eapply Hmin|].
              apply list_elem_of_singleton in Hr'. subst r'.
              rewrite Hr in Hz'. by injection Hz' as <-.
      * split_and!.
        -- apply elem_of_app. right. by apply list_elem_of_singleton.
        -- eauto.
        -- intros r' z' Hr' Hz' Hin'. apply elem_of_app in Hr'.
           destruct Hr' as [Hr'|Hr'].
           ++ by rewrite (Hacc r' z' Hr' Hz') in Hin'.
           ++ apply list_elem_of_singleton in Hr'. subst r'.
              rewrite Hr in Hz'. injection Hz' as <-. lra.
    + destruct acc as [[r0|] [b|]]; simpl in *; try done.
      * destruct Hacc as (Hr0 & Hz0 & Hmin). split_and!.
        -- apply elem_of_app. by left.
        -- done.
        -- intros r' z' Hr' Hz' Hin'. apply elem_of_app in Hr'.
           destruct Hr' as [Hr'|Hr']; [by eapply Hmin|].
           apply list_elem_of_singleton in Hr'. subst r'.
           rewrite Hr in Hz'. injection Hz' as <-. by rewrite Hin in Hin'.
      * intros r' z' Hr' Hz'. apply elem_of_app in Hr'.
        destruct Hr' as [Hr'|Hr']; [by eapply Hacc|].
        apply list_elem_of_singleton in Hr'. subst r'.
        rewrite Hr in Hz'. by injection Hz' as <-.
  - destruct acc as [[r0|] [b|]]; simpl in *; try done.
    + destruct Hacc as (Hr0 & Hz0 & Hmin). split_and!.
      * apply elem_of_app. by left.
      * done.
      * intros r' z' Hr' Hz' Hin'. apply elem_of_app in Hr'.
        destruct Hr' as [Hr'|Hr']; [by eapply Hmin|].
        apply list_elem_of_singleton in Hr'. subst r'. congruence.
    + intros r' z' Hr' Hz'. apply elem_of_app in Hr'.
      destruct Hr' as [Hr'|Hr']; [by eapply Hacc|].
      apply list_elem_of_singleton in Hr'. subst r'. congruence.
Qed.

Lemma nearest_so_far_fold h pos rng zs :
  forall seen acc,
    nearest_so_far h pos rng seen acc ->
    nearest_so_far h pos rng (seen ++ zs) (foldl (nearer h pos rng) acc zs).
Proof.
  induction zs as [|r zs IH]; intros seen acc Hacc; simpl.
  - by rewrite app_nil_r.
  - replace (seen ++ r :: zs) with ((seen ++ [r]) ++ zs)
      by (by rewrite <- app_assoc).
    apply IH. by apply nearest_so_far_nearer.
Qed.

End Nearest.

(** X10: the target search of [Tower.update] returns an active zombie at
    [rng] or less from the tower such that no active zombie within that
    range is closer, and it returns no target only when no active zombie
    is within range. *)
Theorem nearest_target h zs pos rng :
  match ZombieTowerDefense.find_target h zs pos rng with
  | Some r =>
    r ∈ zs /\
    exists z,
      ZombieTowerDefense.deref h r = Some z /\
      sq_le (dist2 (ZombieTowerDefense.position z) pos) (inject_Z rng) = true /\
      forall r' z',
        r' ∈ zs -> ZombieTowerDefense.deref h r' = Some z' ->
        sq_le (dist2 (ZombieTowerDefense.position z') pos) (inject_Z rng)
        = true ->
        dist2 (ZombieTowerDefense.position z) pos
        <= dist2 (ZombieTowerDefense.position z') pos
  | None =>
    forall r' z',
      r' ∈ zs -> ZombieTowerDefense.deref h r' = Some z' ->
      sq_le (dist2 (ZombieTowerDefense.position z') pos) (inject_Z rng) = false
  end.
Proof.
  unfold ZombieTowerDefense.find_target.
  pose proof (nearest_so_far_fold h pos rng zs [] (None, None)) as H.
  simpl in H. specialize (H ltac:(intros r' z' Hr'; by apply elem_of_nil in Hr')).
  destruct (foldl _ _ zs) as [[r|] [b|]]; simpl in *; try done.
  destruct H as (Hr & (z & Hz & -> & Hin) & Hmin).
  split; [done|]. exists z. split_and!; done.
Qed.

Section Closest.

Import ZombiePy.

(** What the search of [Tower.find_target] holds after the zombies [seen]. *)
Definition closest_so_far (h : list Zombie) (pos : Vec) (rng : Z)
    (seen : list nat) (acc : option nat * option Q) : Prop :=
  match acc with
  | (Some r, Some b) =>
    r ∈ seen /\
    (exists z, deref h r = Some z /\ b = dist2 (z_pos z) pos /\
       sq_lt b (inject_Z rng) = true) /\
    forall r' z', r' ∈ seen -> deref h r' = Some z' ->
      sq_lt (dist2 (z_pos z') pos) (inject_Z rng) = true ->
      b <= dist2 (z_pos z') pos
  | (None, None) =>
    forall r' z', r' ∈ seen -> deref h r' = Some z' ->
      sq_lt (dist2 (z_pos z') pos) (inject_Z rng) = false
  | _ => False
  end.

Lemma closest_so_far_closer h pos rng seen acc r :
  closest_so_far h pos rng seen acc ->
  closest_so_far h pos rng (seen ++ [r]) (closer h pos rng acc r).
Proof.
  intros Hacc. unfold closer.
  destruct (deref h r) as [z|] eqn:Hr.
  - destruct (sq_lt (dist2 (z_pos z) pos) (inject_Z rng)) eqn:Hin; simpl.
    + destruct acc as [[r0|] [b|]]; simpl in *; try done.
      * destruct Hacc as (Hr0 & Hz0 & Hmin).
        destruct (Qltb (dist2 (z_pos z) pos) b) eqn:Hlt; simpl.
        -- apply Qltb_lt in Hlt. split_and!.
           ++ apply elem_of_app. right. by apply list_elem_of_singleton.
           ++ eauto.
           ++ intros r' z' Hr' Hz' Hin'. apply elem_of_app in Hr'.
              destruct Hr' as [Hr'|Hr'].
              ** specialize (Hmin r' z' Hr' Hz' Hin'). lra.
              ** apply list_elem_of_singleton in Hr'. subst r'.
                 rewrite Hr in Hz'. injection Hz' as <-. lra.
        -- apply Qltb_ge in Hlt. split_and!.
           ++ apply elem_of_app. by left.
           ++ done.
           ++ intros r' z' Hr' Hz' Hin'. apply elem_of_app in Hr'.
              destruct Hr' as [Hr'|Hr']; [by eapply Hmin|].
              apply list_elem_of_singleton in Hr'. subst r'.
              rewrite Hr in Hz'. by injection Hz' as <-.
      * split_and!.
        -- apply elem_of_app. right. by apply list_elem_of_singleton.
        -- eauto.
        -- intros r' z' Hr' Hz' Hin'. apply elem_of_app in Hr'.
           destruct Hr' as [Hr'|Hr'].
           ++ by rewrite (Hacc r' z' Hr' Hz') in Hin'.
           ++ apply list_elem_of_singleton in Hr'. subst r'.
              rewrite Hr in Hz'. injection Hz' as <-. lra.
    + destruct acc as [[r0|] [b|]]; simpl in *; try done.
      * destruct Hacc as (Hr0 & Hz0 & Hmin). split_and!.
        -- apply elem_of_app. by left.
        -- done.
        -- intros r' z' Hr' Hz' Hin'. apply elem_of_app in Hr'.
           destruct Hr' as [Hr'|Hr']; [by eapply Hmin|].
           apply list_elem_of_singleton in Hr'. subst r'.
           rewrite Hr in Hz'. injection Hz' as <-. by rewrite Hin in Hin'.
      * intros r' z' Hr' Hz'. apply elem_of_app in Hr'.
        destruct Hr' as [Hr'|Hr']; [by eapply Hacc|].
        apply list_elem_of_singleton in Hr'. subst r'.
        rewrite Hr in Hz'. by injection Hz' as <-.
  - destruct acc as [[r0|] [b|]]; simpl in *; try done.
    + destruct Hacc as (Hr0 & Hz0 & Hmin). split_and!.
      * apply elem_of_app. by left.
      * done.
      * intros r' z' Hr' Hz' Hin'. apply elem_of_app in Hr'.
        destruct Hr' as [Hr'|Hr']; [by eapply Hmin|].
        apply list_elem_of_singleton in Hr'. subst r'. congruence.
    + intros r' z' Hr' Hz'. apply elem_of_app in Hr'.
      destruct Hr' as [Hr'|Hr']; [by eapply Hacc|].
      apply list_elem_of_singleton in Hr'. subst r'. congruence.
Qed.

Lemma closest_so_far_fold h pos rng zs :
  forall seen acc,
    closest_so_far h pos rng seen acc ->
    closest_so_far h pos rng (seen ++ zs) (foldl (closer h pos rng) acc zs).
Proof.
  induction zs as [|r zs IH]; intros seen acc Hacc; simpl.
  - by rewrite app_nil_r.
  - replace (seen ++ r :: zs) with ((seen ++ [r]) ++ zs)
      by (by rewrite <- app_assoc).
    apply IH. by apply closest_so_far_closer.
Qed.

End Closest.

(** X11: [Tower.find_target] of [zombie.py] sets the target to a listed
    zombie strictly closer than the tower's range such that no listed
    zombie within that range is closer, and to [None] only when no listed
    zombie is within range. *)
Theorem closest_target h zs t :
  match ZombiePy.target (ZombiePy.find_target h zs t) with
  | Some r =>
    r ∈ zs /\
    exists z,
      ZombiePy.deref h r = Some z /\
      sq_lt (dist2 (ZombiePy.z_pos z) (vec_of (ZombiePy.t_pos t)))
        (inject_Z (ZombiePy.range t)) = true /\
      forall r' z',
        r' ∈ zs -> ZombiePy.deref h r' = Some z' ->
        sq_lt (dist2 (ZombiePy.z_pos z') (vec_of (ZombiePy.t_pos t)))
          (inject_Z (ZombiePy.range t)) = true ->
        dist2 (ZombiePy.z_pos z) (vec_of (ZombiePy.t_pos t))
        <= dist2 (ZombiePy.z_pos z') (vec_of (ZombiePy.t_pos t))
  | None =>
    forall r' z',
      r' ∈ zs -> ZombiePy.deref h r' = Some z' ->
      sq_lt (dist2 (ZombiePy.z_pos z') (vec_of (ZombiePy.t_pos t)))
        (inject_Z (ZombiePy.range t)) = false
  end.
Proof.
  unfold ZombiePy.find_target. simpl.
  pose proof (closest_so_far_fold h (vec_of (ZombiePy.t_pos t))
                (ZombiePy.range t) zs [] (None, None)) as H.
  simpl in H. specialize (H ltac:(intros r' z' Hr'; by apply elem_of_nil in Hr')).
  destruct (foldl _ _ zs) as [[r|] [b|]]; simpl in *; try done.
  destruct H as (Hr & (z & Hz & -> & Hin) & Hmin).
  split; [done|]. exists z. split_and!; done.
Qed.
